(** * A shallow embedding of [app/parse.py]

    The scraper drives a headless browser over a paginated demo shop, reads
    product cards from the rendered page and writes one CSV file per
    category.  This development embeds the program in Rocq:

    - the Python built-ins the script calls ([str.replace], [str.split],
      [int], [float], [str], [len]) as functions on [string], [Z] and
      binary64 values;
    - the part of Selenium the script uses (element lookup by class name and
      link text, attribute and text reads, clicks) over a small DOM and an
      abstract browser;
    - the six functions of the script, in a state-and-exception monad with
      an action log.

    Texts are modelled as [string] (sequences of 8-bit characters); the
    embedding follows Python on texts made of ASCII characters. *)

From Stdlib Require Import ZArith NArith List String Ascii Bool Lia Arith.
From Stdlib Require Import Reals Lra Floats.SpecFloat.
Import ListNotations.

#[local] Open Scope string_scope.
#[local] Open Scope Z_scope.

(** * Exceptions and results *)

(** The exceptions the script can meet.  Only [NoSuchElementException] is
    ever caught (in the pagination loop).  [OSError] stands for its
    subclasses too (FileNotFoundError, IsADirectoryError). *)
Inductive exn : Type :=
| NoSuchElementException
| ValueError
| IndexError
| OSError.

Definition exn_eqb (e1 e2 : exn) : bool :=
match e1, e2 with
| NoSuchElementException, NoSuchElementException
| ValueError, ValueError
| IndexError, IndexError
| OSError, OSError => true
| _, _ => false
end.

(** What a call gives: a value, or an exception raised. *)
Inductive result (A : Type) : Type :=
| Ok (a : A)
| Raise (e : exn).
Arguments Ok {A} a.
Arguments Raise {A} e.

Definition rbind {A B} (r : result A) (k : A -> result B) : result B :=
  match r with
  | Ok a => k a
  | Raise e => Raise e
  end.

Declare Scope result_scope.
Delimit Scope result_scope with result.
Notation "x <- r ;; k" := (rbind r (fun x => k))
  (at level 61, r at next level, right associativity) : result_scope.

(** [[f(x) for x in xs]] for a function that may raise: the first exception
    aborts the comprehension. *)
Fixpoint map_result {A B} (f : A -> result B) (xs : list A) : result (list B) :=
  match xs with
  | [] => Ok []
  | x :: xs' =>
      (y <- f x ;; ys <- map_result f xs' ;; Ok (y :: ys))%result
  end.

(** * Python built-ins on texts *)

Module Py.

Definition code (c : ascii) : N := N_of_ascii c.

(** [str.isspace] on ASCII characters: TAB, LF, VT, FF, CR, the four
    separators 0x1c-0x1f and the space. *)
Definition is_space (c : ascii) : bool :=
  ((9 <=? code c) && (code c <=? 13) || (28 <=? code c) && (code c <=? 32))%N.

(** The blanks [int] and [float] skip around an ASCII text: TAB, LF, VT,
    FF, CR and the space (C's [isspace]).  The separators 0x1c-0x1f are
    not among them: [int] and [float] refuse a text that holds one. *)
Definition is_blank (c : ascii) : bool :=
  ((9 <=? code c) && (code c <=? 13) || (code c =? 32))%N.

Definition is_digit (c : ascii) : bool :=
  ((48 <=? code c) && (code c <=? 57))%N.

Definition digit_of (c : ascii) : Z := Z.of_N (code c) - 48.

Definition char_of_digit (d : Z) : ascii := ascii_of_N (Z.to_N (48 + d)).

(** ** The text between the blanks *)

(** [int] and [float] read a text without the blanks at its two ends. *)
Fixpoint lstrip (s : string) : string :=
  match s with
  | String c s' => if is_blank c then lstrip s' else s
  | EmptyString => EmptyString
  end.

Fixpoint rstrip (s : string) : string :=
  match s with
  | String c s' =>
      match rstrip s' with
      | EmptyString => if is_blank c then EmptyString else String c EmptyString
      | r => String c r
      end
  | EmptyString => EmptyString
  end.

Definition strip (s : string) : string := rstrip (lstrip s).

(** ** [str.replace(old, new)] *)

(** Occurrences of [old] are found left to right and do not overlap.
    [skip] counts the characters of a match still to be dropped. *)
Fixpoint replace_from (old new : string) (skip : nat) (s : string) : string :=
  match s with
  | EmptyString => EmptyString
  | String c s' =>
      match skip with
      | S k => replace_from old new k s'
      | O =>
          if prefix old s
          then new ++ replace_from old new (Nat.pred (String.length old)) s'
          else String c (replace_from old new O s')
      end
  end.

(** With an empty [old], Python puts [new] before every character and at
    the end. *)
Fixpoint interleave (new s : string) : string :=
  match s with
  | EmptyString => new
  | String c s' => new ++ String c (interleave new s')
  end.

Definition replace (s old new : string) : string :=
  match old with
  | EmptyString => interleave new s
  | _ => replace_from old new O s
  end.

(** ** [str.split(sep)] with an explicit separator *)

(** [cur] is the piece read so far since the last separator. *)
Fixpoint split_from (sep : string) (skip : nat) (cur : string) (s : string)
  : list string :=
  match s with
  | EmptyString => [cur]
  | String c s' =>
      match skip with
      | S k => split_from sep k cur s'
      | O =>
          if prefix sep s
          then cur :: split_from sep (Nat.pred (String.length sep)) EmptyString s'
          else split_from sep O (cur ++ String c EmptyString) s'
      end
  end.

(** An empty separator is refused with ValueError. *)
Definition split (s sep : string) : result (list string) :=
  match sep with
  | EmptyString => Raise ValueError
  | _ => Ok (split_from sep O EmptyString s)
  end.

(** ** [xs[i]] for a non-negative literal index *)
Definition getitem {A} (xs : list A) (i : nat) : result A :=
  match nth_error xs i with
  | Some x => Ok x
  | None => Raise IndexError
  end.

(** ** The size of a list *)

(** [sys.maxsize] on a 64-bit build: no list holds more items, and [len]
    gives no larger number. *)
Definition maxsize : Z := 2 ^ 63 - 1.

(** The first [n] items of a sequence. *)
Fixpoint first_items {A} (n : Z) (xs : list A) : list A :=
  match xs with
  | [] => []
  | x :: xs' => if 0 <? n then x :: first_items (n - 1) xs' else []
  end.

(** The list a library hands over for a sequence of items.  A sequence
    longer than [maxsize] fits no list (and no memory); the model keeps its
    first [maxsize] items, so that [len] stays in the range it has in
    Python. *)
Definition list_of {A} (xs : list A) : list A := first_items maxsize xs.

(** ** Digit groups *)

(** The grammar of [int] and [float] literals given as texts:
    [digitpart ::= digit (["_"] digit)*].  [digits_tail] reads what may
    follow a digit and returns the digits read (underscores dropped) and
    the rest of the text. *)
Fixpoint digits_tail (s : string) : string * string :=
  match s with
  | String c s' =>
      if is_digit c then
        let (ds, r) := digits_tail s' in (String c ds, r)
      else if (c =? "_")%char then
        match s' with
        | String d s'' =>
            if is_digit d then
              let (ds, r) := digits_tail s'' in (String d ds, r)
            else (EmptyString, s)
        | EmptyString => (EmptyString, s)
        end
      else (EmptyString, s)
  | EmptyString => (EmptyString, EmptyString)
  end.

Definition digitpart (s : string) : option (string * string) :=
  match s with
  | String c s' =>
      if is_digit c then
        let (ds, r) := digits_tail s' in Some (String c ds, r)
      else None
  | EmptyString => None
  end.

(** The number a text of digits denotes, most significant digit first. *)
Fixpoint digits_val (acc : Z) (ds : string) : Z :=
  match ds with
  | EmptyString => acc
  | String c ds' => digits_val (10 * acc + digit_of c) ds'
  end.

(** An optional sign: [true] for "-". *)
Definition sign_of (s : string) : bool * string :=
  match s with
  | String c s' =>
      if (c =? "-")%char then (true, s')
      else if (c =? "+")%char then (false, s')
      else (false, s)
  | EmptyString => (false, s)
  end.

(** ** [int(text)] in base 10 *)

(** [sys.get_int_max_str_digits()], which the script leaves at its
    default: [int] refuses a numeral of more digits, [str] an integer of
    more digits, both with ValueError. *)
Definition max_str_digits : Z := 4300.

(** The digits are counted as written, leading zeros included; the sign,
    the underscores and the blanks are not. *)
Definition int (s : string) : result Z :=
  let (neg, body) := sign_of (strip s) in
  match digitpart body with
  | Some (ds, EmptyString) =>
      if max_str_digits <? Z.of_nat (String.length ds) then Raise ValueError
      else Ok (if neg then - digits_val 0 ds else digits_val 0 ds)
  | _ => Raise ValueError
  end.

(** ** [str(n)] for an integer *)

(** [str_int n] is the decimal numeral of [n]; [str], below, is [str(n)],
    which gives that numeral unless it is too long. *)

Fixpoint str_of_nonneg (fuel : nat) (n : Z) (acc : string) : string :=
  match fuel with
  | O => acc
  | S fuel' =>
      let acc' := String (char_of_digit (n mod 10)) acc in
      if n <? 10 then acc' else str_of_nonneg fuel' (n / 10) acc'
  end.

(** A number below [2^k] has at most [k] decimal digits. *)
Definition str_int (n : Z) : string :=
  if n <? 0
  then String "-" (str_of_nonneg (S (Z.to_nat (Z.log2 (- n)))) (- n) EmptyString)
  else str_of_nonneg (S (Z.to_nat (Z.log2 n))) n EmptyString.

(** [str(n)]: ValueError for an integer of more than [max_str_digits]
    digits. *)
Definition str (n : Z) : result string :=
  if Z.abs n <? 10 ^ max_str_digits then Ok (str_int n) else Raise ValueError.

End Py.

(** * Binary64 values and [float(text)] *)

Module PyFloat.

(** A Python float is an IEEE 754 binary64 value: [S754_finite s m e]
    stands for [(-1)^s * m * 2^e]. *)
Definition float : Type := spec_float.

Definition prec : Z := 53.
Definition emax : Z := 1024.
(** Smallest and largest exponent of a mantissa below [2^53]. *)
Definition emin : Z := -1074.
Definition etop : Z := 971.

(** [(n', d')] with [n'/d' = (n/d) / 2^e]. *)
Definition scale2 (n d e : Z) : Z * Z :=
  if 0 <=? e then (n, d * 2 ^ e) else (n * 2 ^ (- e), d).

(** The integer [l] with [2^l <= n/d < 2^(l+1)], for positive [n], [d]. *)
Definition floor_log2 (n d : Z) : Z :=
  let l := Z.log2 n - Z.log2 d in
  let (n', d') := scale2 n d l in
  if d' <=? n' then l else l - 1.

(** The integer nearest to [n/d], ties to the even one. *)
Definition nearest_even (n d : Z) : Z :=
  let q := n / d in
  match 2 * (n mod d) ?= d with
  | Lt => q
  | Gt => q + 1
  | Eq => if Z.even q then q else q + 1
  end.

(** Correct rounding of the positive rational [n/d] to binary64
    (round to nearest, ties to even). *)
Definition round (s : bool) (n d : Z) : float :=
  let e := Z.max (floor_log2 n d - 52) emin in
  let (n', d') := scale2 n d e in
  let m := nearest_even n' d' in
  let (m, e) := if m =? 2 ^ prec then (2 ^ (prec - 1), e + 1) else (m, e) in
  if m =? 0 then S754_zero s
  else if etop <? e then S754_infinity s
  else S754_finite s (Z.to_pos m) e.

(** The binary64 value nearest to [(-1)^s * m * 10^e]. *)
Definition of_decimal (s : bool) (m e : Z) : float :=
  if m =? 0 then S754_zero s
  else if 0 <=? e then round s (m * 10 ^ e) 1
  else round s m (10 ^ (- e)).

(** [str.lower] on ASCII characters. *)
Definition lower (c : ascii) : ascii :=
  if ((65 <=? Py.code c) && (Py.code c <=? 90))%N
  then ascii_of_N (Py.code c + 32) else c.

Fixpoint lowercase (s : string) : string :=
  match s with
  | String c s' => String (lower c) (lowercase s')
  | EmptyString => EmptyString
  end.

(** [number ::= [digitpart] "." digitpart | digitpart ["."]], then an
    optional [("e" | "E") [sign] digitpart], up to the end of the text.
    The result [(m, e)] stands for [m * 10^e]. *)
Definition number (s : string) : option (Z * Z) :=
  let (ip, r1) :=
    match Py.digitpart s with
    | Some p => p
    | None => (EmptyString, s)
    end in
  let (fp, r2) :=
    match r1 with
    | String c r =>
        if (c =? ".")%char then
          match Py.digitpart r with
          | Some p => p
          | None => (EmptyString, r)
          end
        else (EmptyString, r1)
    | EmptyString => (EmptyString, r1)
    end in
  match (ip ++ fp)%string with
  | EmptyString => None
  | ds =>
      let m := Py.digits_val 0 ds in
      let k := Z.of_nat (String.length fp) in
      match r2 with
      | EmptyString => Some (m, - k)
      | String c r =>
          if ((c =? "e") || (c =? "E"))%char then
            let (eneg, r') := Py.sign_of r in
            match Py.digitpart r' with
            | Some (es, EmptyString) =>
                let x := Py.digits_val 0 es in
                Some (m, (if eneg then - x else x) - k)
            | _ => None
            end
          else None
      end
  end.

(** [float(text)]: surrounding whitespace is dropped; a sign may precede
    [inf], [infinity], [nan] (in any case) or a decimal number. *)
Definition of_string (s : string) : result float :=
  let (neg, body) := Py.sign_of (Py.strip s) in
  let low := lowercase body in
  if ((low =? "inf") || (low =? "infinity"))%string then Ok (S754_infinity neg)
  else if (low =? "nan")%string then Ok S754_nan
  else
    match number body with
    | Some (m, e) => Ok (of_decimal neg m e)
    | None => Raise ValueError
    end.

(** ** [str(x)] for a float: the shortest text that reads back as [x] *)

(** [str] and [repr] of a float give the shortest text of digits that
    [float] reads back as the same value and, among the texts of that
    length, the one nearest to the value.  CPython finds the digits with
    David Gay's algorithm; here they are found by trying 1, 2, ... 16
    significant digits; with 17 the nearest decimal is taken untested. *)

(** [(n, d)] with [n/d = m * 2^e]. *)
Definition ratio_of (m e : Z) : Z * Z :=
if 0 <=? e then (m * 2 ^ e, 1) else (m, 2 ^ (- e)).

(** [(n', d')] with [n'/d' = (n/d) / 10^k]. *)
Definition scale10 (n d k : Z) : Z * Z :=
if 0 <=? k then (n, d * 10 ^ k) else (n * 10 ^ (- k), d).

(** The integer [k] with [10^k <= n/d < 10^(k+1)], searched upwards from
    a [k] with [10^k <= n/d]. *)
Fixpoint floor_log10_from (fuel : nat) (k n d : Z) : Z :=
match fuel with
| O => k
| S fuel' =>
    let (n', d') := scale10 n d (k + 1) in
    if n' <? d' then k else floor_log10_from fuel' (k + 1) n d
end.

(** Every positive binary64 value lies in [[10^-324, 10^309)]. *)
Definition floor_log10 (n d : Z) : Z := floor_log10_from 633 (-324) n d.

(** [float] reads [c * 10^q] as [m * 2^e]. *)
Definition reads_as (m e : Z) (c q : Z) : bool :=
match of_decimal false c q with
| S754_finite false m' e' => (Zpos m' =? m) && (e' =? e)
| _ => false
end.

(** The two [p]-digit decimals around [n/d = m * 2^e], whose leading digit
    has weight [10^k]: [lo * 10^q <= n/d < (lo + 1) * 10^q] with
    [q = k - p + 1].  The result is the one nearer to [n/d] among those that
    read back as [m * 2^e] (the even one on a tie), if any. *)
Definition digits_at (m e n d k p : Z) : option Z :=
let q := k - p + 1 in
let (n', d') := scale10 n d q in
let lo := n' / d' in
let hi := lo + 1 in
match reads_as m e lo q, reads_as m e hi q with
| true, true =>
    match 2 * n' ?= (2 * lo + 1) * d' with
    | Lt => Some lo
    | Gt => Some hi
    | Eq => Some (if Z.even lo then lo else hi)
    end
| true, false => Some lo
| false, true => Some hi
| false, false => None
end.

(** The digits and their number, from [p] digits on; [fuel] is the number
    of lengths still to try. *)
Fixpoint shortest_from (fuel : nat) (m e n d k p : Z) : Z * Z :=
match fuel with
| O =>
    let (n', d') := scale10 n d (k - p + 1) in
    (nearest_even n' d', p)
| S fuel' =>
    match digits_at m e n d k p with
    | Some c => (c, p)
    | None => shortest_from fuel' m e n d k (p + 1)
    end
end.

Fixpoint rstrip_zeros (ds : string) : string :=
match ds with
| String c ds' =>
    match rstrip_zeros ds' with
    | EmptyString => if (c =? "0")%char then EmptyString else String c EmptyString
    | r => String c r
    end
| EmptyString => EmptyString
end.

Fixpoint zeros (n : nat) : string :=
match n with
| O => EmptyString
| S n' => String "0" (zeros n')
end.

Fixpoint take (n : nat) (s : string) : string :=
match n, s with
| S n', String c s' => String c (take n' s')
| _, _ => EmptyString
end.

Fixpoint drop (n : nat) (s : string) : string :=
match n, s with
| S n', String _ s' => drop n' s'
| _, _ => s
end.

(** The digits [ds] with the decimal point after the first [decpt] of them:
    exponent form when [decpt <= -4] or [decpt > 16], else positional with
    at least one digit after the point. *)
Definition format_repr (ds : string) (decpt : Z) : string :=
let nd := Z.of_nat (String.length ds) in
if (decpt <=? -4) || (16 <? decpt) then
  let mant :=
    match ds with
    | String c EmptyString => ds
    | String c r => String c (String "." r)
    | EmptyString => ds
    end in
  let ex := decpt - 1 in
  let es := Py.str_int (Z.abs ex) in
  mant ++ "e" ++ (if ex <? 0 then "-" else "+")
       ++ (if Z.abs ex <? 10 then String "0" es else es)
else if decpt <=? 0 then
  "0." ++ zeros (Z.to_nat (- decpt)) ++ ds
else if decpt <? nd then
  take (Z.to_nat decpt) ds ++ "." ++ drop (Z.to_nat decpt) ds
else
  ds ++ zeros (Z.to_nat (decpt - nd)) ++ ".0".

(** The text of the positive value [m * 2^e]. *)
Definition repr_pos (m e : Z) : string :=
let (n, d) := ratio_of m e in
let k := floor_log10 n d in
let (c, p) := shortest_from 16 m e n d k 1 in
(* [c] has [p] digits, or is [10^p] after a carry *)
let ds := Py.str_int c in
format_repr (rstrip_zeros ds) (k + 1 + (Z.of_nat (String.length ds) - p)).

Definition repr (x : float) : string :=
match x with
| S754_zero s => if s then "-0.0" else "0.0"
| S754_infinity s => if s then "-inf" else "inf"
| S754_nan => "nan"
| S754_finite s m e =>
    (if s then "-" else "") ++ repr_pos (Zpos m) e
end.

End PyFloat.

(** * The DOM and element lookup *)

Module Selenium.

(** A rendered element: its tag, class list, attributes, the visible text
    the browser reports for it ([WebElement.text]) and its children in
    document order. *)
#[warnings="-register-all"]
Inductive element : Type :=
  Element {
    tag : string;
    classes : list string;
    attributes : list (string * string);
    text : string;
    children : list element
  }.

Inductive By : Type :=
| CLASS_NAME
| LINK_TEXT.

(** All elements below [e], in document order. *)
Fixpoint descendants (e : element) : list element :=
  flat_map (fun c => c :: descendants c) (children e).

Definition matches (by_ : By) (value : string) (e : element) : bool :=
  match by_ with
  | CLASS_NAME => existsb (String.eqb value) (classes e)
  | LINK_TEXT => (tag e =? "a")%string && (text e =? value)%string
  end.

(** [find_elements] never raises: no match gives the empty list.  What
    it returns is a Python list of the matches, in document order. *)
Definition find_elements (by_ : By) (value : string) (root : element)
  : list element :=
  Py.list_of (filter (matches by_ value) (descendants root)).

(** [find_element] gives the first match in document order. *)
Definition find_element (by_ : By) (value : string) (root : element)
  : result element :=
  match find_elements by_ value root with
  | e :: _ => Ok e
  | [] => Raise NoSuchElementException
  end.

(** [get_attribute] gives [None] for an attribute the element lacks. *)
Fixpoint lookup (name : string) (kvs : list (string * string)) : option string :=
  match kvs with
  | [] => None
  | (k, v) :: kvs' => if (k =? name)%string then Some v else lookup name kvs'
  end.

Definition get_attribute (e : element) (name : string) : option string :=
  lookup name (attributes e).

End Selenium.
Import Selenium.

(** * The product record and the card parser *)

(** The dataclass [Product].  [title] comes from [get_attribute], which
    gives [None] when the attribute is missing. *)
Record Product : Type :=
  Build_Product {
    title : option string;
    description : string;
    price : PyFloat.float;
    rating : Z;
    num_of_reviews : Z
  }.

(** The price step of [get_product]: [float(text.replace("$", ""))]. *)
Definition parse_price (price_text : string) : result PyFloat.float :=
  PyFloat.of_string (Py.replace price_text "$" "").

(** The review-count step of [get_product]: [int(text.split(" ")[0])]. *)
Definition parse_num_of_reviews (ratings_text : string) : result Z :=
  (tokens <- Py.split ratings_text " " ;;
   token <- Py.getitem tokens 0 ;;
   Py.int token)%result.

Definition get_product (product_card : element) : result Product :=
  (title_el <- find_element CLASS_NAME "title" product_card ;;
   let title := get_attribute title_el "title" in
   description_el <- find_element CLASS_NAME "description" product_card ;;
   let description := text description_el in
   price_el <- find_element CLASS_NAME "price" product_card ;;
   price <- parse_price (text price_el) ;;
   let rating :=
     Z.of_nat (List.length (find_elements CLASS_NAME "ws-icon-star" product_card)) in
   ratings_el <- find_element CLASS_NAME "ratings" product_card ;;
   num_of_reviews <- parse_num_of_reviews (text ratings_el) ;;
   Ok (Build_Product title description price rating num_of_reviews))%result.

(** * CSV serialisation ([csv.DictWriter], default dialect) *)

Module Csv.

(** A value a cell can hold. *)
Inductive value : Type :=
| VNone
| VStr (s : string)
| VFloat (x : PyFloat.float)
| VInt (n : Z).

Definition delimiter : ascii := ",".
Definition quotechar : ascii := "034".
Definition CR : ascii := "013".
Definition LF : ascii := "010".
Definition lineterminator : string := String CR (String LF EmptyString).

(** The text of a cell: nothing for [None], [str(v)] for a number, which
    raises for an integer too long to print. *)
Definition cell_text (v : value) : result string :=
match v with
| VNone => Ok EmptyString
| VStr s => Ok s
| VFloat x => Ok (PyFloat.repr x)
| VInt n => Py.str n
end.

Definition is_special (c : ascii) : bool :=
((c =? delimiter) || (c =? quotechar) || (c =? CR) || (c =? LF))%char.

Fixpoint has_special (s : string) : bool :=
match s with
| String c s' => is_special c || has_special s'
| EmptyString => false
end.

(** Inside quotes the quote character is doubled. *)
Fixpoint double_quotes (s : string) : string :=
match s with
| String c s' =>
    if (c =? quotechar)%char
    then String c (String c (double_quotes s'))
    else String c (double_quotes s')
| EmptyString => EmptyString
end.

(** QUOTE_MINIMAL: a field is quoted only when it holds the delimiter, the
    quote character, CR or LF. *)
Definition field (s : string) : string :=
if has_special s
then String quotechar (double_quotes s ++ String quotechar EmptyString)
else s.

Fixpoint join (fs : list string) : string :=
match fs with
| [] => EmptyString
| [f] => f
| f :: fs' => f ++ String delimiter (join fs')
end.

(** [writer.writerow(cells)]: a row made of one empty field is written as
    a pair of quotes. *)
Definition row_text (cells : list string) : string :=
match cells with
| [EmptyString] => String quotechar (String quotechar lineterminator)
| _ => join (map field cells) ++ lineterminator
end.

Fixpoint get (key : string) (rowdict : list (string * value)) : option value :=
match rowdict with
| [] => None
| (k, v) :: rest => if (k =? key)%string then Some v else get key rest
end.

(** [DictWriter._dict_to_list]: a key outside [fieldnames] is refused
    (extrasaction is "raise"); a missing key gives the empty text. *)
Definition dict_to_list (fieldnames : list string) (rowdict : list (string * value))
  : result (list value) :=
if forallb (fun kv => existsb (String.eqb (fst kv)) fieldnames) rowdict
then Ok (map (fun key => match get key rowdict with
                         | Some v => v
                         | None => VStr EmptyString
                         end) fieldnames)
else Raise ValueError.

(** [DictWriter.writerow(rowdict)], as the text appended to the file: the
    row is put together before anything is written, so that a cell that
    raises leaves the file as it is. *)
Definition writerow (fieldnames : list string) (rowdict : list (string * value))
  : result string :=
(cells <- dict_to_list fieldnames rowdict ;;
 texts <- map_result cell_text cells ;;
 Ok (row_text texts))%result.

(** [DictWriter.writeheader()]: the row [dict(zip(fieldnames, fieldnames))]. *)
Definition writeheader (fieldnames : list string) : result string :=
writerow fieldnames (map (fun f => (f, VStr f)) fieldnames).

End Csv.

(** [fields(Product)]: the field names in declaration order. *)
Definition fields_Product : list string :=
["title"; "description"; "price"; "rating"; "num_of_reviews"].

(** [asdict(obj)]: a dict keeps its keys in insertion order. *)
Definition asdict (obj : Product) : list (string * Csv.value) :=
[ ("title", match title obj with Some t => Csv.VStr t | None => Csv.VNone end);
  ("description", Csv.VStr (description obj));
  ("price", Csv.VFloat (price obj));
  ("rating", Csv.VInt (rating obj));
  ("num_of_reviews", Csv.VInt (num_of_reviews obj)) ].

(** * The browser session and the script *)

Definition BASE_URL : string := "https://webscraper.io/".
(** [urljoin(BASE_URL, "test-sites/e-commerce/more/")] *)
Definition HOME_URL : string := "https://webscraper.io/test-sites/e-commerce/more/".

(** What the script does to the world outside it, in order. *)
Inductive action : Type :=
| Get (url : string)
| Click (el : element)
| ScriptClick (el : element)
| OpenForWriting (filename : string).

Section Script.

(** The browser and the site behind it: a state [World], the document the
    driver sees in a state, and how loading a URL, clicking an element and
    running "arguments[0].click();" on it change the state.  Whatever the
    page does after a click (scripts, requests, rendering) is part of the
    change; lookups and reads leave the state as it is, and a click on an
    element that was found does not raise. *)
Variable World : Type.
Variable document : World -> element.
Variable load : string -> World -> World.
Variable click : element -> World -> World.
Variable script_click : element -> World -> World.

(** The state of a run: the browser, the files written and, for the
    statements about what the script did, the log of its actions. *)
Record state : Type :=
  Build_state {
    browser : World;
    files : list (string * string);
    log : list action
  }.

(** A run returns, raises, or is still looping when the fuel runs out. *)
Inductive outcome (A : Type) : Type :=
| Returned (a : A) (s : state)
| Raised (e : exn) (s : state)
| OutOfFuel.
Arguments Returned {A} a s.
Arguments Raised {A} e s.
Arguments OutOfFuel {A}.

Definition M (A : Type) : Type := state -> outcome A.

Definition ret {A} (a : A) : M A := fun s => Returned a s.

Definition bind {A B} (m : M A) (k : A -> M B) : M B :=
fun s =>
  match m s with
  | Returned a s' => k a s'
  | Raised e s' => Raised e s'
  | OutOfFuel => OutOfFuel
  end.

Definition lift {A} (r : result A) : M A :=
fun s =>
  match r with
  | Ok a => Returned a s
  | Raise e => Raised e s
  end.

(** [try: m except e: h]: only the exception [e] is handled. *)
Definition try_except {A} (m : M A) (e : exn) (h : M A) : M A :=
fun s =>
  match m s with
  | Raised e' s' => if exn_eqb e e' then h s' else Raised e' s'
  | r => r
  end.

Declare Scope script_scope.
Delimit Scope script_scope with script.
Notation "x <- m ;; k" := (bind m (fun x => k))
  (at level 61, m at next level, right associativity) : script_scope.
Notation "m ;; k" := (bind m (fun _ => k))
  (at level 61, right associativity) : script_scope.
#[local] Open Scope script_scope.

(** [for x in xs: body(x)] *)
Fixpoint for_each {A} (xs : list A) (body : A -> M unit) : M unit :=
match xs with
| [] => ret tt
| x :: xs' => body x ;; for_each xs' body
end.

(** The log with one more action at its end. *)
Definition logged (a : action) (s : state) : list action := log s ++ [a].

(** ** Driver calls *)

(** [driver.get(url)] *)
Definition driver_get (url : string) : M unit :=
fun s => Returned tt (Build_state (load url (browser s)) (files s) (logged (Get url) s)).

(** [driver.find_elements(by, value)]: a read of the current document. *)
Definition driver_find_elements (by_ : By) (value : string) : M (list element) :=
fun s => Returned (find_elements by_ value (document (browser s))) s.

(** [driver.find_element(by, value)] *)
Definition driver_find_element (by_ : By) (value : string) : M element :=
fun s => lift (find_element by_ value (document (browser s))) s.

(** [element.click()] *)
Definition element_click (el : element) : M unit :=
fun s => Returned tt (Build_state (click el (browser s)) (files s) (logged (Click el) s)).

(** [driver.execute_script("arguments[0].click();", el)] *)
Definition execute_script_click (el : element) : M unit :=
fun s =>
  Returned tt (Build_state (script_click el (browser s)) (files s) (logged (ScriptClick el) s)).

(** ** Files *)

(** The names [open(name, "w")] refuses on a POSIX system whatever the
    disk holds: a name with a NUL character (ValueError); the empty name, a
    path of more than 4095 characters, a path with a component of more than
    255, and a path whose last component is empty, "." or ".." (OSError:
    no such file, name too long, is a directory).  For every other name the
    directories on the path are taken to exist and to be writable: a failing
    disk is left out. *)
Definition refused (filename : string) : option exn :=
if existsb (Ascii.eqb "000") (list_ascii_of_string filename) then Some ValueError
else if (String.length filename =? 0)%nat || (4095 <? String.length filename)%nat
then Some OSError
else
  let components := Py.split_from "/" O EmptyString filename in
  let name := last components EmptyString in
  if existsb (fun c => (255 <? String.length c)%nat) components then Some OSError
  else if ((name =? "") || (name =? ".") || (name =? ".."))%string then Some OSError
  else None.

Fixpoint remove_file (name : string) (fs : list (string * string)) : list (string * string) :=
match fs with
| [] => []
| (k, v) :: fs' =>
    if (k =? name)%string then remove_file name fs' else (k, v) :: remove_file name fs'
end.

Fixpoint read_file (name : string) (fs : list (string * string)) : option string :=
match fs with
| [] => None
| (k, v) :: fs' => if (k =? name)%string then Some v else read_file name fs'
end.

(** [open(filename, "w", newline="")]: the file is created or emptied,
    unless the name is refused. *)
Definition open_w (filename : string) : M unit :=
fun s =>
  match refused filename with
  | Some e => Raised e s
  | None =>
      Returned tt (Build_state (browser s)
                     ((filename, EmptyString) :: remove_file filename (files s))
                     (logged (OpenForWriting filename) s))
  end.

(** A write to the open file: the text is appended as it is. *)
Definition file_write (filename text : string) : M unit :=
fun s =>
  let old := match read_file filename (files s) with
             | Some t => t
             | None => EmptyString
             end in
  Returned tt (Build_state (browser s)
                 ((filename, old ++ text) :: remove_file filename (files s))
                 (log s)).

(** ** The functions of the script *)

(** [init_driver]: the headless browser the options ask for is the
    [browser] of the state the script starts in. *)
Definition init_driver : M unit := ret tt.

Inductive control : Type := Continue | Break.

(** The [while] loop, with one unit of [fuel] per test of its condition:
    a run that has not ended when the fuel is spent is [OutOfFuel]. *)
Fixpoint execute_more_pagination_script (fuel : nat) (max_products : Z) : M unit :=
match fuel with
| O => fun _ => OutOfFuel
| S fuel' =>
    thumbnails <- driver_find_elements CLASS_NAME "thumbnail" ;;
    if Z.of_nat (List.length thumbnails) <? max_products then
      ctl <- try_except
               (button_more <- driver_find_element CLASS_NAME "ecomerce-items-scroll-more" ;;
                execute_script_click button_more ;;
                ret Continue)
               NoSuchElementException
               (ret Break) ;;
      match ctl with
      | Continue => execute_more_pagination_script fuel' max_products
      | Break => ret tt
      end
    else ret tt
end.

(** An [int] is truthy unless it is zero. *)
Definition truthy (n : Z) : bool := negb (n =? 0).

(** The default of the parameter [max_products]. *)
Definition default_max_products : Z := 3.

Definition parse_product_card (fuel : nat) (max_products : Z) : M (list Product) :=
(if truthy max_products
 then execute_more_pagination_script fuel max_products
 else ret tt) ;;
products <- driver_find_elements CLASS_NAME "thumbnail" ;;
lift (map_result get_product products).

Definition write_to_csv (products : list Product) (filename : string) : M unit :=
open_w filename ;;
let headers := fields_Product in
header <- lift (Csv.writeheader headers) ;;
file_write filename header ;;
for_each products (fun obj =>
  line <- lift (Csv.writerow headers (asdict obj)) ;;
  file_write filename line).

(** [driver.find_element(By.LINK_TEXT, name).click()] *)
Definition click_link (name : string) : M unit :=
link <- driver_find_element LINK_TEXT name ;;
element_click link.

Definition get_all_products (fuel : nat) : M unit :=
init_driver ;;
driver_get HOME_URL ;;
products <- parse_product_card fuel default_max_products ;;
write_to_csv products "home.csv" ;;
click_link "Computers" ;;
products <- parse_product_card fuel default_max_products ;;
write_to_csv products "computers.csv" ;;
click_link "Laptops" ;;
products <- parse_product_card fuel 117 ;;
write_to_csv products "laptops.csv" ;;
click_link "Tablets" ;;
products <- parse_product_card fuel 21 ;;
write_to_csv products "tablets.csv" ;;
click_link "Phones" ;;
products <- parse_product_card fuel default_max_products ;;
write_to_csv products "phones.csv" ;;
click_link "Touch" ;;
products <- parse_product_card fuel 9 ;;
write_to_csv products "touch.csv".

End Script.

Arguments Returned {World A} a s.
Arguments Raised {World A} e s.
Arguments OutOfFuel {World A}.
Arguments browser {World} s.
Arguments files {World} s.
Arguments log {World} s.

(** * The vocabulary of the statements *)

(** What the claims speak of beside the program itself: predicates on
    texts, binary64 values seen as real numbers, a reader for CSV texts,
    the runs of the pagination loop, the milestones of a run, and a sample
    shop to try the statements on. *)

(** ** Texts *)

(** Every character of [s] passes the test [p]. *)
Fixpoint all_chars (p : ascii -> bool) (s : string) : bool :=
match s with
| String c s' => p c && all_chars p s'
| EmptyString => true
end.

(** A text at which the reading of a digit group ends: the empty text, or
    one that starts with neither a digit nor an underscore. *)
Definition stops (r : string) : bool :=
match r with
| String c _ => negb (Py.is_digit c) && negb (c =? "_")%char
| EmptyString => true
end.

(** [s] without the occurrences of the character [x]. *)
Fixpoint remove_char (x : ascii) (s : string) : string :=
match s with
| String c s' => if (x =? c)%char then remove_char x s' else String c (remove_char x s')
| EmptyString => EmptyString
end.

Definition no_comma (s : string) : bool := all_chars (fun c => negb ("," =? c)%char) s.

(** The characters of the text of a positive float. *)
Definition plain (c : ascii) : bool :=
(Py.is_digit c || (c =? ".") || (c =? "e") || (c =? "+") || (c =? "-"))%char.

(** [x] under the sign character [sg]. *)
Definition signed (sg : ascii) (x : Z) : Z := if (sg =? "-")%char then - x else x.

(** The digits of the exponent [str] writes for a float: two at least. *)
Definition exponent_digits (ex : Z) : string :=
if Z.abs ex <? 10 then String "0" (Py.str_int (Z.abs ex)) else Py.str_int (Z.abs ex).

(** ** Binary64 values *)

From Stdlib Require Import Floats.PrimFloat Floats.FloatOps.

(** The binary64 value a Rocq float literal denotes. *)
Definition binary64 (x : PrimFloat.float) : PyFloat.float := Prim2SF x.

(** The binary64 value nearest to what a text of digits, a point and
    digits denotes. *)
Definition decimal_value (ip fp : string) : PyFloat.float :=
PyFloat.of_decimal false (Py.digits_val 0 (ip ++ fp)) (- Z.of_nat (String.length fp)).

(** [d >= 0] for a float [d]: zero of either sign, the positive values and
    positive infinity; no NaN passes the test. *)
Definition nonnegative (d : PyFloat.float) : bool := SFleb (S754_zero false) d.

(** The fraction [n/d] as a real number. *)
Definition ratio (n d : Z) : R := (IZR n / IZR d)%R.

(** Base-[b] scaling of a fraction, as [scale2] and [scale10] do it. *)
Definition scale (b n d e : Z) : Z * Z :=
if 0 <=? e then (n, d * b ^ e) else (n * b ^ (- e), d).

(** The mantissa and exponent of a positive binary64 value: 53 bits above
    the smallest exponent, fewer at it. *)
Definition canonical (m e : Z) : Prop :=
(2 ^ 52 <= m < 2 ^ 53 /\ -1074 <= e <= 971) \/ (0 < m < 2 ^ 52 /\ e = -1074).

(** The real number [m * 2^e]. *)
Definition F2R (m e : Z) : R := (IZR m * powerRZ 2 e)%R.

(** ** Reading a CSV text back ([csv.reader], default dialect) *)

Module CsvReader.
Import Csv.

Inductive rstate : Type :=
| StartRecord
| AfterCR
| StartField
| InField
| InQuotedField
| QuoteInQuotedField.

(** The reader, character by character.  [cur] is the field being read,
    [fields] the fields of the record read so far.  A CR, a LF or a CR LF
    outside quotes ends the record; a blank line gives an empty record. *)
Fixpoint read_from (st : rstate) (cur : string) (fields : list string) (s : string)
  : list (list string) :=
match s with
| EmptyString =>
    match st with
    | StartRecord | AfterCR => []
    | _ => [(fields ++ [cur])%list]
    end
| String c s' =>
    match st with
    | AfterCR =>
        if (c =? LF)%char then read_from StartRecord EmptyString [] s'
        else if (c =? CR)%char then [] :: read_from AfterCR EmptyString [] s'
        else if (c =? quotechar)%char then read_from InQuotedField EmptyString [] s'
        else if (c =? delimiter)%char then read_from StartField EmptyString [EmptyString] s'
        else read_from InField (String c EmptyString) [] s'
    | StartRecord =>
        if (c =? CR)%char then [] :: read_from AfterCR EmptyString [] s'
        else if (c =? LF)%char then [] :: read_from StartRecord EmptyString [] s'
        else if (c =? quotechar)%char then read_from InQuotedField EmptyString [] s'
        else if (c =? delimiter)%char then read_from StartField EmptyString [EmptyString] s'
        else read_from InField (String c EmptyString) [] s'
    | StartField =>
        if (c =? CR)%char then (fields ++ [EmptyString])%list :: read_from AfterCR EmptyString [] s'
        else if (c =? LF)%char then
          (fields ++ [EmptyString])%list :: read_from StartRecord EmptyString [] s'
        else if (c =? quotechar)%char then read_from InQuotedField EmptyString fields s'
        else if (c =? delimiter)%char then
          read_from StartField EmptyString (fields ++ [EmptyString])%list s'
        else read_from InField (String c EmptyString) fields s'
    | InField =>
        if (c =? CR)%char then (fields ++ [cur])%list :: read_from AfterCR EmptyString [] s'
        else if (c =? LF)%char then (fields ++ [cur])%list :: read_from StartRecord EmptyString [] s'
        else if (c =? delimiter)%char then read_from StartField EmptyString (fields ++ [cur])%list s'
        else read_from InField (cur ++ String c EmptyString) fields s'
    | InQuotedField =>
        if (c =? quotechar)%char then read_from QuoteInQuotedField cur fields s'
        else read_from InQuotedField (cur ++ String c EmptyString) fields s'
    | QuoteInQuotedField =>
        if (c =? quotechar)%char then
          read_from InQuotedField (cur ++ String c EmptyString) fields s'
        else if (c =? delimiter)%char then read_from StartField EmptyString (fields ++ [cur])%list s'
        else if (c =? CR)%char then (fields ++ [cur])%list :: read_from AfterCR EmptyString [] s'
        else if (c =? LF)%char then (fields ++ [cur])%list :: read_from StartRecord EmptyString [] s'
        else read_from InField (cur ++ String c EmptyString) fields s'
    end
end.

(** [list(csv.reader(f))] for a file opened with [newline=""]. *)
Definition read (s : string) : list (list string) :=
read_from StartRecord EmptyString [] s.

End CsvReader.

(** The characters that end a field outside quotes. *)
Definition ends_field (t : ascii) : bool :=
((t =? Csv.delimiter) || (t =? Csv.CR) || (t =? Csv.LF))%char.

(** The cells of a record's row, in column order. *)
Definition product_cells (p : Product) : list string :=
[ match title p with Some t => t | None => EmptyString end;
  description p;
  PyFloat.repr (price p);
  Py.str_int (rating p);
  Py.str_int (num_of_reviews p) ].

Definition header_line : string :=
"title,description,price,rating,num_of_reviews" ++ Csv.lineterminator.

(** An integer that [str] prints: one of at most 4300 digits. *)
Definition fits (n : Z) : bool := Z.abs n <? 10 ^ Py.max_str_digits.

(** A record whose two counts [str] prints. *)
Definition printable (p : Product) : bool := fits (rating p) && fits (num_of_reviews p).

(** A plain name for a file of the working directory: 1 to 255 letters,
    digits, points, underscores and hyphens, other than "." and "..". *)
Definition name_char (c : ascii) : bool :=
(Py.is_digit c
 || ((97 <=? Py.code c) && (Py.code c <=? 122))
 || ((65 <=? Py.code c) && (Py.code c <=? 90)))%N
|| (c =? ".")%char || (c =? "_")%char || (c =? "-")%char.

Definition plain_name (filename : string) : bool :=
negb (filename =? "")%string && negb (filename =? ".")%string
&& negb (filename =? "..")%string
&& (String.length filename <=? 255)%nat && all_chars name_char filename.

(** The lines of the records, one after the other. *)
Fixpoint data_lines (products : list Product) : string :=
match products with
| [] => EmptyString
| p :: ps => Csv.row_text (product_cells p) ++ data_lines ps
end.

(** ** The log of a run *)

Definition is_script_click (a : action) : bool :=
match a with
| ScriptClick _ => true
| _ => false
end.

(** What must show in the log of a run, script clicks left aside: the
    page loaded, the link clicked (any element found under that link
    text), the file opened. *)
Inductive milestone : Type :=
| Loads (url : string)
| ClicksLink (name : string)
| Writes (filename : string).

Definition shows (a : action) (m : milestone) : Prop :=
match a, m with
| Get url, Loads url' => url = url'
| Click el, ClicksLink name => matches LINK_TEXT name el = true
| OpenForWriting f, Writes f' => f = f'
| _, _ => False
end.

(** The log without its script clicks. *)
Definition milestones (l : list action) : list action :=
filter (fun a => negb (is_script_click a)) l.

(** The six categories: the link to click (none for the start page), the
    target count and the file. *)
Definition categories : list (option string * Z * string) :=
[ (None, 3, "home.csv");
  (Some "Computers", 3, "computers.csv");
  (Some "Laptops", 117, "laptops.csv");
  (Some "Tablets", 21, "tablets.csv");
  (Some "Phones", 3, "phones.csv");
  (Some "Touch", 9, "touch.csv") ].

Definition category_milestones (c : option string * Z * string) : list milestone :=
match c with
| (Some name, _, filename) => [ClicksLink name; Writes filename]
| (None, _, filename) => [Writes filename]
end.

(** ** Runs of the script *)

Section Vocabulary.

Variable World : Type.
Variable document : World -> element.
Variable load : string -> World -> World.
Variable click : element -> World -> World.
Variable script_click : element -> World -> World.

#[local] Abbreviation state := (state World).
#[local] Abbreviation M := (M World).
#[local] Abbreviation harvest := (parse_product_card World document script_click).
#[local] Abbreviation navigate := (click_link World document click).

(** The rendered cards, their count, and the lookup of the control. *)
Definition thumbnails (w : World) : list element :=
find_elements CLASS_NAME "thumbnail" (document w).

Definition card_count (w : World) : Z := Z.of_nat (List.length (thumbnails w)).

Definition more_button (w : World) : result element :=
find_element CLASS_NAME "ecomerce-items-scroll-more" (document w).

(** The state after one activation of the control [b]. *)
Definition after_click (b : element) (s : state) : state :=
Build_state World (script_click b (browser s)) (files s) (log s ++ [ScriptClick b])%list.

(** The runs of the loop that end: activations of the control, each made
    with fewer than [max_products] cards rendered, up to a state where the
    target is met or the control is missing. *)
Inductive paginated (max_products : Z) : state -> state -> Prop :=
| paginated_enough s :
    max_products <= card_count (browser s) -> paginated max_products s s
| paginated_no_control s :
    card_count (browser s) < max_products ->
    more_button (browser s) = Raise NoSuchElementException ->
    paginated max_products s s
| paginated_click s b s' :
    card_count (browser s) < max_products ->
    more_button (browser s) = Ok b ->
    paginated max_products (after_click b s) s' ->
    paginated max_products s s'.

(** The states the loop can reach from [w0]. *)
Inductive reachable (w0 : World) : World -> Prop :=
| reachable_start : reachable w0 w0
| reachable_click w b :
    reachable w0 w -> more_button w = Ok b -> reachable w0 (script_click b w).

(** The state once [content] has been written to the file. *)
Definition with_file (filename content : string) (s : state) : state :=
Build_state World (browser s)
  ((filename, content) :: remove_file filename (files s)) (log s).

(** One category: navigate, harvest with the target, write the file. *)
Definition process_category (fuel : nat) (c : option string * Z * string) : M unit :=
let '(nav, target_count, filename) := c in
bind World
  (match nav with
   | Some name => navigate name
   | None => ret World tt
   end)
  (fun _ =>
     bind World (harvest fuel target_count)
       (fun products => write_to_csv World products filename)).

(** The run as a walk over the table of categories. *)
Definition run_categories (fuel : nat) : M unit :=
bind World (init_driver World)
  (fun _ => bind World (driver_get World load HOME_URL)
     (fun _ => for_each World categories (process_category fuel))).

(** What the log of a run shows: all of [expected] when the run returns,
    a proper beginning of it when the run raises. *)
Definition shows_run {A} (s : state) (r : outcome World A) (expected : list milestone)
  : Prop :=
match r with
| Returned _ s' =>
    exists l, log s' = (log s ++ l)%list /\ Forall2 shows (milestones l) expected
| Raised _ s' =>
    exists l done rest,
      log s' = (log s ++ l)%list /\ expected = (done ++ rest)%list /\ rest <> [] /\
      Forall2 shows (milestones l) done
| OutOfFuel => True
end.

End Vocabulary.

Arguments thumbnails {World} document w.
Arguments card_count {World} document w.
Arguments more_button {World} document w.
Arguments after_click {World} script_click b s.
Arguments paginated {World} document script_click max_products _ _.
Arguments reachable {World} document script_click w0 _.
Arguments reachable_start {World document script_click} w0.
Arguments with_file {World} filename content s.
Arguments process_category {World} document click script_click fuel c.
Arguments run_categories {World} document load click script_click fuel.
Arguments shows_run {World A} s r expected.

(** ** A sample page and a sample shop *)

Definition leaf (tag_ : string) (classes_ : list string)
  (attributes_ : list (string * string)) (text_ : string) : element :=
Element tag_ classes_ attributes_ text_ [].

Definition star : element := leaf "span" ["ws-icon"; "ws-icon-star"] [] "".

(** A product card laid out as the shop renders it. *)
Definition sample_card (title_ description_ price_text ratings_text : string)
  (stars : nat) : element :=
Element "div" ["card"; "thumbnail"] [] ""
  [ Element "div" ["product-wrapper"; "card-body"] [] ""
      [ leaf "img" ["img-fluid"; "card-img-top"; "image"] [("alt", "item")] "";
        Element "div" ["caption"] [] ""
          [ leaf "h4" ["price"; "float-end"; "card-title"] [] price_text;
            Element "h4" [] [] title_
              [ leaf "a" ["title"] [("href", "/product/1"); ("title", title_)] title_ ];
            leaf "p" ["description"; "card-text"] [] description_ ];
        Element "div" ["ratings"] [] ratings_text
          [ leaf "p" ["review-count"; "float-end"] [] ratings_text;
            Element "p" [] [("data-rating", "3")] "" (repeat star stars) ] ] ].

Module Shop.

(** The browser state is the number of cards rendered so far; the shop
    has [total] cards and shows its "load more" control while some are
    left; one activation renders two more. *)
Definition nth_card (i : nat) : element :=
sample_card ("Laptop " ++ Py.str_int (Z.of_nat i)) "15.6 inch, 8GB"
  ("$" ++ Py.str_int (Z.of_nat (100 + i)) ++ ".99")
  (Py.str_int (Z.of_nat (2 * i)) ++ " reviews") (Nat.modulo i 6).

(** The record [get_product] makes of [nth_card i]. *)
Definition nth_product (i : nat) : Product :=
Build_Product (Some ("Laptop " ++ Py.str_int (Z.of_nat i))%string) "15.6 inch, 8GB"
  (decimal_value (Py.str_int (Z.of_nat (100 + i))) "99")
  (Z.of_nat (Nat.modulo i 6)) (Z.of_nat (2 * i)).

Definition more : element :=
leaf "a" ["btn"; "ecomerce-items-scroll-more"] [("href", "#")] "More".

Definition nav_link (name : string) : element := leaf "a" ["nav-link"] [] name.

(** The document node; the elements of the page are below it. *)
Definition page (total w : nat) : element :=
Element "#document" [] [] ""
  [ Element "html" [] [] ""
      [ Element "body" [] [] ""
          (map nav_link ["Computers"; "Laptops"; "Tablets"; "Phones"; "Touch"]
           ++ map nth_card (seq 0 w)
           ++ (if (w <? total)%nat then [more] else []))%list ] ].

Definition activate (total : nat) (_ : element) (w : nat) : nat := Nat.min (w + 2) total.

(** A shop whose control does nothing. *)
Definition stuck_page (_ : unit) : element := page 9 1.

Definition stuck (_ : element) (w : unit) : unit := w.

(** A state with no file and an empty log. *)
Definition start {World} (w : World) : state World := Build_state World w [] [].

End Shop.

(** ** More vocabulary: the alphabet of [float], rows read back, files *)

(** The ASCII characters a text that [float] accepts can hold: blanks,
    digits, the underscore, the point, the signs, and the letters of the
    exponent mark, of "infinity" and of "nan" in either case.  Characters
    outside ASCII are left aside (they pass the test). *)
Definition float_char (c : ascii) : bool :=
(128 <=? Py.code c)%N || Py.is_space c || Py.is_digit c ||
existsb (Ascii.eqb (PyFloat.lower c))
  ["_"; "."; "+"; "-"; "e"; "i"; "n"; "f"; "t"; "y"; "a"]%char.

(** A row of the file read back as a record: [float] and [int] on the
    cells of the numbers, as a reader of the file would convert them. *)
Definition read_product (cells : list string) : result Product :=
match cells with
| [title_; description_; price_; rating_; num_of_reviews_] =>
    (price <- PyFloat.of_string price_ ;;
     rating <- Py.int rating_ ;;
     num_of_reviews <- Py.int num_of_reviews_ ;;
     Ok (Build_Product (Some title_) description_ price rating num_of_reviews))%result
| _ => Raise ValueError
end.

(** The six files of a run, in the order they are written. *)
Definition filenames : list string :=
["home.csv"; "computers.csv"; "laptops.csv"; "tablets.csv"; "phones.csv"; "touch.csv"].

(** The file holds the header and the lines of some records. *)
Definition holds_records {World} (filename : string) (s : state World) : Prop :=
exists products,
  read_file filename (files s) = Some (header_line ++ data_lines products)%string.

(** ** More sample pages *)

Module Demo.

(** A card that lacks its description. *)
Definition card_without_description : element :=
Element "div" ["card"; "thumbnail"] [] ""
  [ leaf "h4" ["price"] [] "$24.99";
    leaf "a" ["title"] [("title", "Nokia 123")] "Nokia 123";
    Element "div" ["ratings"] [] "11 reviews" [star; star; star] ].

(** A page of three cards; the price of the second has a thousands
    separator. *)
Definition broken_page (_ : unit) : element :=
Element "#document" [] [] ""
  [ Shop.nth_card 0;
    sample_card "Lenovo Legion" "17.3 inch" "$1,299.99" "7 reviews" 4;
    Shop.nth_card 2 ].

(** A shop in two states: one card and the control, then all three
    cards; one activation of the control renders them all. *)
Definition two_step (loaded : bool) : element :=
Shop.page 3 (if loaded then 3 else 1)%nat.

Definition load_all (_ : element) (_ : bool) : bool := true.

(** A page load or a click on a link leads to a page in its first state. *)
Definition reset {A} (_ : A) (_ : bool) : bool := false.

(** A shop whose every page shows the same single card and the links. *)
Definition one_card (_ : unit) : element := Shop.page 1 1.

Definition stay {A} (_ : A) (w : unit) : unit := w.

(** A page with one card and no link. *)
Definition no_links (_ : unit) : element :=
Element "#document" [] [] "" [Shop.nth_card 0].

(** The state a run ends in, on the shop of one card and on the page with
    no link. *)
Definition state_after (document : unit -> element) : state unit :=
match get_all_products unit document stay stay stay 1 (Shop.start tt) with
| Returned _ s' | Raised _ s' => s'
| OutOfFuel => Shop.start tt
end.

End Demo.

(** * Checks of the built-ins on examples *)

Example split_ex1 : Py.split "7 reviews" " " = Ok ["7"; "reviews"].
Proof. reflexivity. Qed.
Example split_ex2 : Py.split " a  b " " " = Ok [""; "a"; ""; "b"; ""].
Proof. reflexivity. Qed.
Example split_ex3 : Py.split "a--b-c" "--" = Ok ["a"; "b-c"].
Proof. reflexivity. Qed.
Example replace_ex1 : Py.replace "$1$2$" "$" "" = "12".
Proof. reflexivity. Qed.
Example replace_ex2 : Py.replace "aaa" "aa" "b" = "ba".
Proof. reflexivity. Qed.
Example replace_ex3 : Py.replace "ab" "" "-" = "-a-b-".
Proof. reflexivity. Qed.
Example int_ex1 : Py.int " 0_12 " = Ok 12.
Proof. reflexivity. Qed.
Example int_ex2 : Py.int "-7" = Ok (-7).
Proof. reflexivity. Qed.
Example int_ex3 : Py.int "7_" = Raise ValueError.
Proof. reflexivity. Qed.
Example int_ex4 : Py.int "" = Raise ValueError.
Proof. reflexivity. Qed.
Example str_int_ex :
  map Py.str_int [0; 7; 10; 117; -42; 1000]
  = ["0"; "7"; "10"; "117"; "-42"; "1000"].
Proof. reflexivity. Qed.

(** A TAB is skipped, the separator 0x1c (character 028) is not. *)
Example blanks_ex :
  Py.int (String "009" "5") = Ok 5 /\
  Py.int (String "028" "5") = Raise ValueError /\
  PyFloat.of_string (String "028" "5") = Raise ValueError.
Proof. repeat split; vm_compute; reflexivity. Qed.

(** [open(name, "w")] on some names. *)
Example refused_ex :
  map refused [""; "."; ".."; "out/"; "/"; "home.csv"; "./home.csv"; "out/home.csv"]
  = [Some OSError; Some OSError; Some OSError; Some OSError; Some OSError;
     None; None; None].
Proof. vm_compute. reflexivity. Qed.

(** The rounding of [PyFloat.round] agrees with the division of the
    Standard Library's binary64 specification, which rounds to nearest with
    ties to even as well. *)
Example round_agrees_with_SFdiv :
  map (fun '(n, d) => PyFloat.round false (Z.pos n) (Z.pos d))
      [(129999, 100); (1, 3); (1, 10); (2, 3); (5, 1);
       (9007199254740993, 1); (9007199254740995, 2)]%positive
  = map (fun '(n, d) =>
           SFdiv PyFloat.prec PyFloat.emax
                 (S754_finite false n 0) (S754_finite false d 0))
      [(129999, 100); (1, 3); (1, 10); (2, 3); (5, 1);
       (9007199254740993, 1); (9007199254740995, 2)]%positive.
Proof. vm_compute. reflexivity. Qed.

(** [float()] on texts, against the machine's own reading of the same
    literals. *)
#[warnings="-inexact-float"]
Example float_ex1 :
  map PyFloat.of_string ["1299.99"; " 0.1 "; "1e3"; "-2.5"; "1_0.5"; ".5"; "5."]
  = map Ok [binary64 1299.99; binary64 0.1; binary64 1000; binary64 (-2.5);
            binary64 10.5; binary64 0.5; binary64 5].
Proof. vm_compute. reflexivity. Qed.
Example float_ex2 :
  map PyFloat.of_string [""; "1,299.99"; "$5"; "1e"; "."; "1 2"]
  = map (fun _ => Raise ValueError) [""; "1,299.99"; "$5"; "1e"; "."; "1 2"].
Proof. vm_compute. reflexivity. Qed.

(** [str()] of a float, on values whose text in CPython is known. *)
#[warnings="-inexact-float"]
Example repr_ex :
  map PyFloat.repr
      [binary64 1299.99; binary64 0.1; binary64 295; binary64 1e16;
       binary64 1e15; binary64 0.00001; binary64 0.0001;
       SFadd PyFloat.prec PyFloat.emax (binary64 0.1) (binary64 0.2)]
  = ["1299.99"; "0.1"; "295.0"; "1e+16"; "1000000000000000.0"; "1e-05";
     "0.0001"; "0.30000000000000004"].
Proof. vm_compute. reflexivity. Qed.

(** * Facts about the text built-ins *)

Lemma all_chars_app p s t :
  all_chars p (s ++ t) = all_chars p s && all_chars p t.
Proof.
  induction s as [|c s IH]; simpl; [reflexivity|].
  rewrite IH. now rewrite andb_assoc.
Qed.

Lemma append_nil_r (s : string) : (s ++ "")%string = s.
Proof. induction s; simpl; congruence. Qed.

Lemma append_assoc (s t u : string) : ((s ++ t) ++ u = s ++ (t ++ u))%string.
Proof. induction s; simpl; congruence. Qed.

Lemma length_append (s t : string) :
  String.length (s ++ t) = (String.length s + String.length t)%nat.
Proof. induction s; simpl; congruence. Qed.

Lemma digits_tail_app ds r :
  all_chars Py.is_digit ds = true -> stops r = true ->
  Py.digits_tail (ds ++ r) = (ds, r).
Proof.
  induction ds as [|c ds IH]; simpl; intros Hd Hr.
  - destruct r as [|c r]; [reflexivity|].
    simpl in Hr. apply andb_prop in Hr as [H1 H2].
    apply negb_true_iff in H1, H2. simpl. now rewrite H1, H2.
  - apply andb_prop in Hd as [Hc Hd]. rewrite Hc, (IH Hd Hr). reflexivity.
Qed.

Lemma digitpart_app ds r :
  ds <> EmptyString -> all_chars Py.is_digit ds = true -> stops r = true ->
  Py.digitpart (ds ++ r) = Some (ds, r).
Proof.
  destruct ds as [|c ds]; [congruence|]. simpl. intros _ Hd Hr.
  apply andb_prop in Hd as [Hc Hd].
  unfold Py.digitpart. rewrite Hc, (digits_tail_app _ _ Hd Hr). reflexivity.
Qed.

Lemma digits_val_app v ds es :
  Py.digits_val v (ds ++ es) = Py.digits_val (Py.digits_val v ds) es.
Proof. revert v. induction ds as [|c ds IH]; simpl; intros; [reflexivity|apply IH]. Qed.

Lemma digits_val_shift v ds :
  Py.digits_val v ds = v * 10 ^ Z.of_nat (String.length ds) + Py.digits_val 0 ds.
Proof.
  revert v. induction ds as [|c ds IH]; intros v.
  - simpl. lia.
  - cbn [Py.digits_val String.length]. rewrite IH, (IH (10 * 0 + _)).
    rewrite Nat2Z.inj_succ, Z.pow_succ_r by lia. ring.
Qed.

Lemma char_of_digit_is_digit d :
  0 <= d < 10 -> Py.is_digit (Py.char_of_digit d) = true.
Proof.
  intros H.
  assert (Hd : d = 0 \/ d = 1 \/ d = 2 \/ d = 3 \/ d = 4 \/ d = 5 \/ d = 6
               \/ d = 7 \/ d = 8 \/ d = 9) by lia.
  repeat (destruct Hd as [-> | Hd]; [reflexivity|]). now subst.
Qed.

Lemma digit_of_char_of_digit d :
  0 <= d < 10 -> Py.digit_of (Py.char_of_digit d) = d.
Proof.
  intros H.
  assert (Hd : d = 0 \/ d = 1 \/ d = 2 \/ d = 3 \/ d = 4 \/ d = 5 \/ d = 6
               \/ d = 7 \/ d = 8 \/ d = 9) by lia.
  repeat (destruct Hd as [-> | Hd]; [reflexivity|]). now subst.
Qed.

(** [str_of_nonneg] writes the decimal digits of [n] in front of [acc]. *)
Lemma str_of_nonneg_spec fuel : forall n acc,
  0 <= n < 10 ^ Z.of_nat (S fuel) ->
  exists ds,
    Py.str_of_nonneg (S fuel) n acc = (ds ++ acc)%string /\
    ds <> EmptyString /\
    all_chars Py.is_digit ds = true /\
    Py.digits_val 0 ds = n.
Proof.
  induction fuel as [|fuel IH]; intros n acc Hn;
    cbn [Py.str_of_nonneg];
    assert (Hm : 0 <= n mod 10 < 10) by (apply Z.mod_pos_bound; lia);
    (destruct (Z.ltb_spec n 10) as [Hlt|Hge];
     [ exists (String (Py.char_of_digit (n mod 10)) EmptyString);
       repeat split; simpl; try congruence;
       [ now rewrite char_of_digit_is_digit
       | rewrite digit_of_char_of_digit by assumption;
         rewrite Z.mod_small; lia ] | ]).
  - change (10 ^ Z.of_nat 1) with 10 in Hn. lia.
  - rewrite Nat2Z.inj_succ, Z.pow_succ_r in Hn by lia.
    destruct (IH (n / 10) (String (Py.char_of_digit (n mod 10)) acc))
      as (ds & E & Hne & Hall & Hval).
    { split; [apply Z.div_pos; lia|].
      apply Z.div_lt_upper_bound; lia. }
    exists (ds ++ String (Py.char_of_digit (n mod 10)) EmptyString)%string.
    repeat split.
    + cbn [Py.str_of_nonneg] in E. rewrite E, append_assoc. reflexivity.
    + destruct ds; simpl; congruence.
    + rewrite all_chars_app, Hall. simpl.
      now rewrite char_of_digit_is_digit.
    + rewrite digits_val_app, Hval. cbn [Py.digits_val].
      rewrite digit_of_char_of_digit by assumption.
      pose proof (Z.div_mod n 10). lia.
Qed.

Lemma log2_fuel n : 0 <= n -> n < 10 ^ Z.of_nat (S (Z.to_nat (Z.log2 n))).
Proof.
  intros Hn.
  rewrite Nat2Z.inj_succ, Z2Nat.id by apply Z.log2_nonneg.
  destruct (Z.eq_dec n 0) as [->|Hz]; [reflexivity|].
  pose proof (Z.log2_spec n ltac:(lia)) as [_ Hlt].
  eapply Z.lt_le_trans; [exact Hlt|].
  apply Z.pow_le_mono_l. lia.
Qed.

(** [str(n)] of a non-negative [n] is a non-empty text of digits that
    denotes [n]. *)
Lemma str_int_nonneg n :
  0 <= n ->
  Py.str_int n <> EmptyString /\
  all_chars Py.is_digit (Py.str_int n) = true /\
  Py.digits_val 0 (Py.str_int n) = n.
Proof.
  intros Hn. unfold Py.str_int.
  destruct (Z.ltb_spec n 0); [lia|].
  destruct (str_of_nonneg_spec _ n EmptyString (conj Hn (log2_fuel n Hn)))
    as (ds & E & Hne & Hall & Hval).
  rewrite E, append_nil_r. auto.
Qed.

Lemma digit_not_space c : Py.is_digit c = true -> Py.is_space c = false.
Proof.
  unfold Py.is_digit, Py.is_space. intros H.
  apply andb_prop in H as [H1 H2].
  apply N.leb_le in H1. apply N.leb_le in H2.
  apply orb_false_iff. split; apply andb_false_iff; right; apply N.leb_gt; lia.
Qed.

Lemma digit_neq c (d : ascii) :
  Py.is_digit c = true -> Py.is_digit d = false -> (c =? d)%char = false.
Proof.
  intros Hc Hd. destruct (Ascii.eqb_spec c d); [congruence|reflexivity].
Qed.

(** The blanks [int] and [float] skip are blanks for [str.isspace]. *)
Lemma blank_is_space c : Py.is_blank c = true -> Py.is_space c = true.
Proof.
  unfold Py.is_blank, Py.is_space. intros H.
  apply orb_prop in H as [H|H]; [now rewrite H|].
  apply N.eqb_eq in H. rewrite H. apply orb_true_r.
Qed.

Lemma not_space_not_blank c : Py.is_space c = false -> Py.is_blank c = false.
Proof.
  intros H. destruct (Py.is_blank c) eqn:E; [|reflexivity].
  apply blank_is_space in E. congruence.
Qed.

Lemma rstrip_id s :
  all_chars (fun c => negb (Py.is_space c)) s = true -> Py.rstrip s = s.
Proof.
  induction s as [|c s IH]; simpl; [reflexivity|]. intros H.
  apply andb_prop in H as [Hc Hs]. rewrite (IH Hs).
  apply negb_true_iff, not_space_not_blank in Hc. rewrite Hc. now destruct s.
Qed.

Lemma lstrip_id s :
  all_chars (fun c => negb (Py.is_space c)) s = true -> Py.lstrip s = s.
Proof.
  destruct s as [|c s]; simpl; [reflexivity|]. intros H.
  apply andb_prop in H as [Hc _].
  apply negb_true_iff, not_space_not_blank in Hc. now rewrite Hc.
Qed.

Lemma strip_id s :
  all_chars (fun c => negb (Py.is_space c)) s = true -> Py.strip s = s.
Proof. intros H. unfold Py.strip. now rewrite lstrip_id, rstrip_id. Qed.

Lemma all_chars_impl (p q : ascii -> bool) s :
  (forall c, p c = true -> q c = true) ->
  all_chars p s = true -> all_chars q s = true.
Proof.
  intros Hpq. induction s as [|c s IH]; simpl; [reflexivity|]. intros H.
  apply andb_prop in H as [Hc Hs]. now rewrite (Hpq _ Hc), IH.
Qed.

Lemma digits_no_space ds :
  all_chars Py.is_digit ds = true ->
  all_chars (fun c => negb (Py.is_space c)) ds = true.
Proof.
  apply all_chars_impl. intros c Hc. now rewrite digit_not_space.
Qed.

Lemma sign_of_digit c s :
  Py.is_digit c = true -> Py.sign_of (String c s) = (false, String c s).
Proof.
  intros Hc. unfold Py.sign_of.
  now rewrite !(digit_neq c) by (assumption || reflexivity).
Qed.

(** [int] reads a non-empty text of digits, not too long, as the number
    it denotes. *)
Lemma int_digits ds :
  ds <> EmptyString -> all_chars Py.is_digit ds = true ->
  Z.of_nat (String.length ds) <= Py.max_str_digits ->
  Py.int ds = Ok (Py.digits_val 0 ds).
Proof.
  intros Hne Hall Hlen. unfold Py.int.
  rewrite strip_id by now apply digits_no_space.
  destruct ds as [|c ds]; [congruence|].
  pose proof Hall as Hall'. simpl in Hall'. apply andb_prop in Hall' as [Hc _].
  rewrite sign_of_digit by assumption.
  pose proof (digitpart_app (String c ds) EmptyString Hne Hall eq_refl) as E.
  rewrite append_nil_r in E. rewrite E.
  destruct (Z.ltb_spec Py.max_str_digits (Z.of_nat (String.length (String c ds))));
    [lia|reflexivity].
Qed.

(** A number below [10^(k+1)] is written with [k+1] digits at most. *)
Lemma str_of_nonneg_length fuel : forall n acc k,
  0 <= n < 10 ^ Z.of_nat (S k) ->
  (String.length (Py.str_of_nonneg fuel n acc) <= S k + String.length acc)%nat.
Proof.
  induction fuel as [|fuel IH]; intros n acc k Hn; cbn [Py.str_of_nonneg]; [lia|].
  destruct (Z.ltb_spec n 10) as [Hlt|Hge].
  - cbn [String.length]. lia.
  - destruct k as [|k].
    + change (10 ^ Z.of_nat 1) with 10 in Hn. lia.
    + etransitivity; [apply (IH (n / 10) _ k)|cbn [String.length]; lia].
      rewrite (Nat2Z.inj_succ (S k)), Z.pow_succ_r in Hn by lia.
      split; [apply Z.div_pos; lia|apply Z.div_lt_upper_bound; lia].
Qed.

Lemma max_str_digits_nat : Py.max_str_digits = Z.of_nat (S 4299).
Proof. reflexivity. Qed.

Lemma str_int_digits n :
  0 <= n < 10 ^ Py.max_str_digits ->
  Z.of_nat (String.length (Py.str_int n)) <= Py.max_str_digits.
Proof.
  intros Hn. unfold Py.str_int. destruct (Z.ltb_spec n 0) as [|_]; [lia|].
  rewrite max_str_digits_nat in *.
  pose proof (str_of_nonneg_length (S (Z.to_nat (Z.log2 n))) n EmptyString _ Hn) as H.
  cbn [String.length] in H. rewrite Nat.add_0_r in H.
  now apply Nat2Z.inj_le.
Qed.

Lemma int_str_int n :
  0 <= n < 10 ^ Py.max_str_digits -> Py.int (Py.str_int n) = Ok n.
Proof.
  intros Hn. destruct (str_int_nonneg n (proj1 Hn)) as (Hne & Hall & Hval).
  rewrite int_digits, Hval; auto using str_int_digits.
Qed.

Lemma prefix_nil s : prefix EmptyString s = true.
Proof. now destruct s. Qed.

Lemma prefix_char a b s :
  prefix (String a EmptyString) (String b s) = (a =? b)%char.
Proof.
  simpl. destruct (ascii_dec a b) as [->|Hne].
  - now rewrite prefix_nil, Ascii.eqb_refl.
  - symmetry. now apply Ascii.eqb_neq.
Qed.

(** Splitting on one character: the first piece ends at its first
    occurrence. *)
Lemma split_from_first (sep : ascii) s1 : forall cur rest,
  all_chars (fun c => negb (sep =? c)%char) s1 = true ->
  Py.split_from (String sep EmptyString) O cur (s1 ++ String sep rest) =
  (cur ++ s1)%string :: Py.split_from (String sep EmptyString) O EmptyString rest.
Proof.
  induction s1 as [|c s1 IH]; intros cur rest H.
  - cbn [append Py.split_from]. rewrite prefix_char, Ascii.eqb_refl.
    now rewrite append_nil_r.
  - cbn [append Py.split_from]. cbn [all_chars] in H.
    apply andb_prop in H as [Hc Hs]. apply negb_true_iff in Hc.
    rewrite prefix_char, Hc, IH by assumption.
    now rewrite append_assoc.
Qed.

(** Without the separator in it, a text is one piece. *)
Lemma split_from_none (sep : ascii) s : forall cur,
  all_chars (fun c => negb (sep =? c)%char) s = true ->
  Py.split_from (String sep EmptyString) O cur s = [(cur ++ s)%string].
Proof.
  induction s as [|c s IH]; intros cur H.
  - cbn [Py.split_from]. now rewrite append_nil_r.
  - cbn [all_chars] in H. apply andb_prop in H as [Hc Hs].
    apply negb_true_iff in Hc.
    cbn [Py.split_from]. rewrite prefix_char, Hc, IH by assumption.
    now rewrite append_assoc.
Qed.

(** The review-count step on a text that starts with the digits of [n]
    and a space. *)
Lemma parse_num_of_reviews_str_int n s :
  0 <= n < 10 ^ Py.max_str_digits ->
  parse_num_of_reviews (Py.str_int n ++ " " ++ s) = Ok n.
Proof.
  intros Hn. destruct (str_int_nonneg n (proj1 Hn)) as (Hne & Hall & Hval).
  unfold parse_num_of_reviews, Py.split.
  change (" " ++ s)%string with (String " " s).
  rewrite split_from_first.
  - cbn [rbind Py.getitem nth_error append]. now apply int_str_int.
  - revert Hall. apply all_chars_impl. intros c Hc.
    apply negb_true_iff. rewrite Ascii.eqb_sym. now apply digit_neq.
Qed.

(** ** [replace("$", "")] drops every dollar sign *)

Lemma replace_char_empty (x : ascii) s :
  Py.replace s (String x EmptyString) EmptyString = remove_char x s.
Proof.
  unfold Py.replace. induction s as [|c s IH]; [reflexivity|].
  cbn [Py.replace_from remove_char]. rewrite prefix_char.
  destruct (x =? c)%char; cbn [String.length Nat.pred append]; now rewrite IH.
Qed.

Lemma remove_char_absent (x : ascii) s :
  all_chars (fun c => negb (x =? c)%char) s = true -> remove_char x s = s.
Proof.
  induction s as [|c s IH]; simpl; [reflexivity|]. intros H.
  apply andb_prop in H as [Hc Hs]. apply negb_true_iff in Hc.
  now rewrite Hc, IH.
Qed.

Lemma remove_char_app (x : ascii) s t :
  remove_char x (s ++ t) = (remove_char x s ++ remove_char x t)%string.
Proof.
  induction s as [|c s IH]; simpl; [reflexivity|].
  destruct (x =? c)%char; simpl; now rewrite IH.
Qed.

Lemma remove_char_gone (x : ascii) s :
  all_chars (fun c => negb (x =? c)%char) (remove_char x s) = true.
Proof.
  induction s as [|c s IH]; simpl; [reflexivity|].
  destruct (x =? c)%char eqn:E; simpl; [assumption|]. now rewrite E.
Qed.

(** ** [float(text)] on plain decimal numerals *)

Lemma lower_digit c : Py.is_digit c = true -> PyFloat.lower c = c.
Proof.
  unfold Py.is_digit, PyFloat.lower. intros H.
  apply andb_prop in H as [H1 H2]. apply N.leb_le in H2.
  replace (65 <=? Py.code c)%N with false; [reflexivity|].
  symmetry. apply N.leb_gt. lia.
Qed.

(** A text without blanks that starts with a digit is read as a number. *)
Lemma of_string_number c s m e :
  Py.is_digit c = true ->
  all_chars (fun c => negb (Py.is_space c)) (String c s) = true ->
  PyFloat.number (String c s) = Some (m, e) ->
  PyFloat.of_string (String c s) = Ok (PyFloat.of_decimal false m e).
Proof.
  intros Hc Hs Hn. unfold PyFloat.of_string.
  rewrite strip_id, sign_of_digit by assumption.
  cbn [PyFloat.lowercase]. rewrite lower_digit by assumption.
  cbn [String.eqb].
  rewrite !(digit_neq c) by (assumption || reflexivity).
  cbn [andb orb]. now rewrite Hn.
Qed.

(** [ip "." fp] denotes the number with digits [ip fp] scaled by
    [10^-|fp|]. *)
Lemma number_plain ip fp :
  ip <> EmptyString -> all_chars Py.is_digit ip = true ->
  fp <> EmptyString -> all_chars Py.is_digit fp = true ->
  PyFloat.number (ip ++ String "." fp) =
  Some (Py.digits_val 0 (ip ++ fp), - Z.of_nat (String.length fp)).
Proof.
  intros Hi Hia Hf Hfa. unfold PyFloat.number.
  rewrite (digitpart_app ip (String "." fp) Hi Hia eq_refl).
  pose proof (digitpart_app fp EmptyString Hf Hfa eq_refl) as E.
  rewrite append_nil_r in E. rewrite E.
  change ("." =? ".")%char with true. cbv iota.
  destruct (ip ++ fp)%string eqn:D; [|reflexivity].
  destruct ip; [congruence|discriminate].
Qed.

Lemma of_string_plain ip fp :
  ip <> EmptyString -> all_chars Py.is_digit ip = true ->
  fp <> EmptyString -> all_chars Py.is_digit fp = true ->
  PyFloat.of_string (ip ++ String "." fp) =
  Ok (PyFloat.of_decimal false (Py.digits_val 0 (ip ++ fp))
        (- Z.of_nat (String.length fp))).
Proof.
  intros Hi Hia Hf Hfa.
  pose proof (number_plain ip fp Hi Hia Hf Hfa) as Hn.
  destruct ip as [|c ip]; [congruence|].
  pose proof Hia as Hc. cbn [all_chars] in Hc. apply andb_prop in Hc as [Hc _].
  cbn [append] in *. apply of_string_number; try assumption.
  change (String c (ip ++ String "." fp)) with (String c ip ++ String "." fp)%string.
  rewrite all_chars_app, digits_no_space by assumption.
  cbn [all_chars andb]. change (negb (Py.is_space ".")) with true.
  cbn [andb]. now apply digits_no_space.
Qed.

(** ** [float(text)] accepts no comma *)

Lemma no_comma_app s t : no_comma (s ++ t) = no_comma s && no_comma t.
Proof. apply all_chars_app. Qed.

Lemma no_comma_cons c s :
  (c =? ",")%char = false -> no_comma (String c s) = no_comma s.
Proof.
  intros H. unfold no_comma. cbn [all_chars].
  now rewrite Ascii.eqb_sym, H.
Qed.

Lemma space_not_comma c : Py.is_space c = true -> (c =? ",")%char = false.
Proof.
  intros H. destruct (Ascii.eqb_spec c ","); [subst; discriminate|reflexivity].
Qed.

Lemma digit_not_comma c : Py.is_digit c = true -> (c =? ",")%char = false.
Proof. intros H. now apply digit_neq. Qed.

Lemma eqb_not_comma c (d : ascii) :
  (c =? d)%char = true -> (d =? ",")%char = false -> (c =? ",")%char = false.
Proof. intros H. apply Ascii.eqb_eq in H. now subst. Qed.

Lemma no_comma_lstrip s : no_comma (Py.lstrip s) = no_comma s.
Proof.
  induction s as [|c s IH]; simpl; [reflexivity|].
  destruct (Py.is_blank c) eqn:Hsp; [|reflexivity].
  now rewrite no_comma_cons by now apply space_not_comma, blank_is_space.
Qed.

Lemma no_comma_rstrip s : no_comma (Py.rstrip s) = no_comma s.
Proof.
  induction s as [|c s IH]; [reflexivity|]. cbn [Py.rstrip].
  destruct (Py.rstrip s) as [|d r] eqn:R.
  - destruct (Py.is_blank c) eqn:Hsp.
    + rewrite no_comma_cons by now apply space_not_comma, blank_is_space. exact IH.
    + unfold no_comma in *. cbn [all_chars] in *. now rewrite <- IH.
  - unfold no_comma in *. cbn [all_chars] in *. now rewrite <- IH.
Qed.

Lemma no_comma_sign_of s : no_comma (snd (Py.sign_of s)) = no_comma s.
Proof.
  destruct s as [|c s]; [reflexivity|]. unfold Py.sign_of.
  destruct (c =? "-")%char eqn:E1.
  { cbn [snd]. symmetry. apply no_comma_cons. now apply (eqb_not_comma _ _ E1). }
  destruct (c =? "+")%char eqn:E2; [|reflexivity].
  cbn [snd]. symmetry. apply no_comma_cons. now apply (eqb_not_comma _ _ E2).
Qed.

Lemma lower_comma c : (PyFloat.lower c =? ",")%char = (c =? ",")%char.
Proof.
  unfold PyFloat.lower.
  destruct ((65 <=? Py.code c)%N && (Py.code c <=? 90)%N) eqn:U; [|reflexivity].
  apply andb_prop in U as [U1 U2]. apply N.leb_le in U1. apply N.leb_le in U2.
  destruct (Ascii.eqb_spec c ",") as [->|]; [change (Py.code ",") with 44%N in U1; lia|].
  destruct (Ascii.eqb_spec (ascii_of_N (Py.code c + 32)) ",") as [E|]; [|reflexivity].
  apply (f_equal N_of_ascii) in E. rewrite N_ascii_embedding in E by lia.
  change (N_of_ascii ",") with 44%N in E. lia.
Qed.

Lemma no_comma_lowercase s : no_comma (PyFloat.lowercase s) = no_comma s.
Proof.
  induction s as [|c s IH]; [reflexivity|].
  unfold no_comma in *. cbn [PyFloat.lowercase all_chars]. rewrite IH.
  now rewrite (Ascii.eqb_sym "," (PyFloat.lower c)), lower_comma, (Ascii.eqb_sym c).
Qed.

(** What a digit group consumes holds no comma. *)
Lemma digits_tail_no_comma n : forall s,
  (String.length s <= n)%nat ->
  no_comma (snd (Py.digits_tail s)) = no_comma s.
Proof.
  induction n as [|n IH]; intros s Hlen.
  - destruct s; [reflexivity|simpl in Hlen; lia].
  - destruct s as [|c s]; [reflexivity|].
    cbn [Py.digits_tail]. simpl in Hlen.
    destruct (Py.is_digit c) eqn:Hc.
    + specialize (IH s ltac:(lia)).
      destruct (Py.digits_tail s) as [ds' r']. cbn [snd] in *.
      now rewrite no_comma_cons by now apply digit_not_comma.
    + destruct (c =? "_")%char eqn:Hu; [|reflexivity].
      destruct s as [|d s]; [reflexivity|].
      destruct (Py.is_digit d) eqn:Hd; [|reflexivity].
      simpl in Hlen. specialize (IH s ltac:(lia)).
      destruct (Py.digits_tail s) as [ds' r']. cbn [snd] in *.
      rewrite (no_comma_cons c) by now apply (eqb_not_comma _ _ Hu).
      now rewrite no_comma_cons by now apply digit_not_comma.
Qed.

Lemma digitpart_no_comma s ds r :
  Py.digitpart s = Some (ds, r) -> no_comma r = no_comma s.
Proof.
  destruct s as [|c s]; [discriminate|]. unfold Py.digitpart.
  destruct (Py.is_digit c) eqn:Hc; [|discriminate].
  pose proof (digits_tail_no_comma _ s (le_n _)) as H.
  destruct (Py.digits_tail s) as [ds' r']. intros [= _ <-]. cbn [snd] in H.
  now rewrite no_comma_cons by now apply digit_not_comma.
Qed.

Lemma number_no_comma s : no_comma s = false -> PyFloat.number s = None.
Proof.
  intros Hs. unfold PyFloat.number.
  destruct (match Py.digitpart s with Some p => p | None => (EmptyString, s) end)
    as [ip r1] eqn:E1.
  assert (H1 : no_comma r1 = false).
  { destruct (Py.digitpart s) as [[ds r]|] eqn:D; injection E1 as <- <-; [|assumption].
    now rewrite (digitpart_no_comma _ _ _ D). }
  clear E1 Hs.
  destruct (match r1 with
            | String c r =>
                if (c =? ".")%char then
                  match Py.digitpart r with Some p => p | None => (EmptyString, r) end
                else (EmptyString, r1)
            | EmptyString => (EmptyString, r1)
            end) as [fp r2] eqn:E2.
  assert (H2 : no_comma r2 = false).
  { destruct r1 as [|c r]; [discriminate|].
    destruct (c =? ".")%char eqn:Hdot; [|now injection E2 as <- <-].
    rewrite no_comma_cons in H1 by now apply (eqb_not_comma _ _ Hdot).
    destruct (Py.digitpart r) as [[ds r']|] eqn:D; injection E2 as <- <-; [|assumption].
    now rewrite (digitpart_no_comma _ _ _ D). }
  clear E2 H1.
  destruct (ip ++ fp)%string; [reflexivity|].
  destruct r2 as [|c r]; [discriminate|].
  destruct ((c =? "e") || (c =? "E"))%char eqn:He; [|reflexivity].
  rewrite no_comma_cons in H2.
  2:{ apply orb_prop in He as [He|He]; now apply (eqb_not_comma _ _ He). }
  pose proof (no_comma_sign_of r) as Hsg.
  destruct (Py.sign_of r) as [eneg r']. cbn [snd] in Hsg.
  destruct (Py.digitpart r') as [[es r'']|] eqn:D; [|reflexivity].
  apply digitpart_no_comma in D.
  destruct r''; [|reflexivity]. rewrite Hsg, H2 in D. discriminate.
Qed.

(** [float] refuses every text that holds a comma. *)
Lemma of_string_comma s :
  no_comma s = false -> PyFloat.of_string s = Raise ValueError.
Proof.
  intros Hs. unfold PyFloat.of_string.
  pose proof (no_comma_sign_of (Py.strip s)) as Hsg.
  destruct (Py.sign_of (Py.strip s)) as [neg body]. cbn [snd] in Hsg.
  unfold Py.strip in Hsg. rewrite no_comma_rstrip, no_comma_lstrip, Hs in Hsg.
  pose proof (no_comma_lowercase body) as Hl. rewrite Hsg in Hl.
  destruct (String.eqb_spec (PyFloat.lowercase body) "inf") as [E|_];
    [rewrite E in Hl; discriminate|].
  destruct (String.eqb_spec (PyFloat.lowercase body) "infinity") as [E|_];
    [rewrite E in Hl; discriminate|].
  destruct (String.eqb_spec (PyFloat.lowercase body) "nan") as [E|_];
    [rewrite E in Hl; discriminate|].
  cbn [orb]. now rewrite number_no_comma.
Qed.

Lemma no_comma_remove_dollar s : no_comma (remove_char "$" s) = no_comma s.
Proof.
  induction s as [|c s IH]; [reflexivity|]. cbn [remove_char].
  destruct ("$" =? c)%char eqn:E.
  - rewrite IH. symmetry. apply no_comma_cons.
    rewrite Ascii.eqb_sym in E. now apply (eqb_not_comma _ _ E).
  - unfold no_comma in *. cbn [all_chars]. now rewrite IH.
Qed.

Lemma parse_price_comma s :
  no_comma s = false -> parse_price s = Raise ValueError.
Proof.
  intros H. unfold parse_price. rewrite replace_char_empty.
  apply of_string_comma. now rewrite no_comma_remove_dollar.
Qed.

(** * Rounding to binary64, seen in the reals *)

Lemma IZR_pow (b z : Z) : 0 <= z -> IZR (b ^ z) = powerRZ (IZR b) z.
Proof.
  intros Hz. rewrite <- (Z2Nat.id z Hz) at 1 2.
  rewrite <- pow_IZR, pow_powerRZ. reflexivity.
Qed.

Lemma powerRZ_ge_1 (b : R) (z : Z) : (1 <= b)%R -> 0 <= z -> (1 <= powerRZ b z)%R.
Proof.
  intros Hb Hz. rewrite <- (Z2Nat.id z Hz), <- pow_powerRZ.
  apply pow_R1_Rle. exact Hb.
Qed.

Lemma powerRZ_le_mono (b : R) (z1 z2 : Z) :
  (1 <= b)%R -> z1 <= z2 -> (powerRZ b z1 <= powerRZ b z2)%R.
Proof.
  intros Hb Hz.
  replace z2 with (z1 + (z2 - z1)) by ring.
  rewrite powerRZ_add by lra.
  pose proof (powerRZ_ge_1 b (z2 - z1) Hb ltac:(lia)).
  pose proof (powerRZ_lt b z1 ltac:(lra)).
  nra.
Qed.

Lemma powerRZ_succ (b : R) (z : Z) : (b <> 0)%R -> powerRZ b (z + 1) = (powerRZ b z * b)%R.
Proof. intros Hb. rewrite powerRZ_add by assumption. now rewrite powerRZ_1. Qed.

Lemma powerRZ_lt_mono (b : R) (z1 z2 : Z) :
  (1 < b)%R -> z1 < z2 -> (powerRZ b z1 < powerRZ b z2)%R.
Proof.
  intros Hb Hz.
  apply Rlt_le_trans with (powerRZ b (z1 + 1)).
  - rewrite powerRZ_succ by lra. pose proof (powerRZ_lt b z1 ltac:(lra)). nra.
  - apply powerRZ_le_mono; [lra|lia].
Qed.

Lemma scale2_scale n d e : PyFloat.scale2 n d e = scale 2 n d e.
Proof. reflexivity. Qed.

Lemma scale10_scale n d e : PyFloat.scale10 n d e = scale 10 n d e.
Proof. reflexivity. Qed.

Lemma scale_spec b n d e a c :
  0 < b -> 0 < n -> 0 < d -> scale b n d e = (a, c) ->
  0 < a /\ 0 < c /\ ratio a c = (ratio n d / powerRZ (IZR b) e)%R.
Proof.
  intros Hb Hn Hd. unfold scale, ratio.
  assert (Hb' : (0 < IZR b)%R) by now apply IZR_lt.
  destruct (Z.leb_spec 0 e) as [He|He]; intros [= <- <-].
  - assert (0 < b ^ e) by now apply Z.pow_pos_nonneg.
    repeat split; [assumption|nia|].
    rewrite mult_IZR, IZR_pow by assumption.
    pose proof (powerRZ_lt (IZR b) e Hb').
    assert (0 < IZR d)%R by now apply IZR_lt.
    field. lra.
  - assert (0 < b ^ (- e)) by (apply Z.pow_pos_nonneg; lia).
    repeat split; [nia|assumption|].
    rewrite mult_IZR, IZR_pow by lia.
    rewrite powerRZ_neg'.
    pose proof (powerRZ_lt (IZR b) e Hb').
    assert (0 < IZR d)%R by now apply IZR_lt.
    field. lra.
Qed.

Lemma ratio_pos n d : 0 < n -> 0 < d -> (0 < ratio n d)%R.
Proof.
  intros Hn Hd. unfold ratio. apply Rdiv_lt_0_compat; now apply IZR_lt.
Qed.

Lemma ratio_le_1 a c : 0 < c -> (c <= a <-> (1 <= ratio a c)%R).
Proof.
  intros Hc. unfold ratio. assert (0 < IZR c)%R by now apply IZR_lt.
  split; intros H0.
  - apply IZR_le in H0. apply (Rmult_le_reg_r (IZR c)); [assumption|].
    field_simplify; lra.
  - apply le_IZR. apply (Rmult_le_compat_r (IZR c)) in H0; [|lra].
    field_simplify in H0; lra.
Qed.

Lemma powerRZ_2_log2 n :
  0 < n -> (powerRZ 2 (Z.log2 n) <= IZR n < powerRZ 2 (Z.log2 n + 1))%R.
Proof.
  intros Hn. destruct (Z.log2_spec n Hn) as [H1 H2].
  pose proof (Z.log2_nonneg n).
  rewrite <- !(IZR_pow 2) by lia.
  split; [now apply IZR_le|now apply IZR_lt].
Qed.

Lemma scale2_test n d l :
  0 < n -> 0 < d ->
  (let (a, c) := PyFloat.scale2 n d l in c <=? a) = true <->
  (powerRZ 2 l <= ratio n d)%R.
Proof.
  intros Hn Hd. rewrite scale2_scale.
  destruct (scale 2 n d l) as [a c] eqn:E.
  destruct (scale_spec 2 n d l a c ltac:(lia) Hn Hd E) as (Ha & Hc & Hr).
  rewrite Z.leb_le, (ratio_le_1 a c Hc), Hr.
  pose proof (powerRZ_lt 2 l ltac:(lra)) as Hp.
  split; intros H.
  - apply (Rmult_le_compat_r (powerRZ 2 l)) in H; [|lra].
    unfold Rdiv in H. rewrite Rmult_assoc, Rinv_l in H by lra. lra.
  - apply (Rmult_le_reg_r (powerRZ 2 l)); [assumption|].
    unfold Rdiv. rewrite Rmult_assoc, Rinv_l by lra. lra.
Qed.

Lemma floor_log2_spec n d :
  0 < n -> 0 < d ->
  (powerRZ 2 (PyFloat.floor_log2 n d) <= ratio n d
   < powerRZ 2 (PyFloat.floor_log2 n d + 1))%R.
Proof.
  intros Hn Hd. unfold PyFloat.floor_log2.
  set (l := Z.log2 n - Z.log2 d).
  pose proof (scale2_test n d l Hn Hd) as T.
  pose proof (powerRZ_2_log2 n Hn) as [N1 N2].
  pose proof (powerRZ_2_log2 d Hd) as [D1 D2].
  assert (Hd' : (0 < IZR d)%R) by now apply IZR_lt.
  assert (Hn' : (0 < IZR n)%R) by now apply IZR_lt.
  pose proof (powerRZ_lt 2 (Z.log2 d) ltac:(lra)) as Pd.
  pose proof (powerRZ_lt 2 l ltac:(lra)) as Pl.
  assert (E1 : powerRZ 2 (Z.log2 n) = (powerRZ 2 l * powerRZ 2 (Z.log2 d))%R).
  { rewrite <- powerRZ_add by lra. f_equal. unfold l. ring. }
  rewrite !powerRZ_succ in N2, D2 by lra.
  assert (U : (ratio n d < powerRZ 2 l * 2)%R).
  { unfold ratio. apply (Rmult_lt_reg_r (IZR d)); [assumption|].
    unfold Rdiv. rewrite Rmult_assoc, Rinv_l by lra. nra. }
  assert (L : (powerRZ 2 l < ratio n d * 2)%R).
  { unfold ratio. apply (Rmult_lt_reg_r (IZR d)); [assumption|].
    unfold Rdiv. rewrite (Rmult_comm (IZR n * / IZR d) 2), !Rmult_assoc, Rinv_l by lra.
    nra. }
  destruct (PyFloat.scale2 n d l) as [a c].
  destruct (c <=? a) eqn:C.
  - rewrite powerRZ_succ by lra. split; [now apply T|lra].
  - replace (l - 1 + 1) with l by ring.
    assert (~ (powerRZ 2 l <= ratio n d)%R) by (intros H; apply T in H; congruence).
    assert (E2 : powerRZ 2 l = (powerRZ 2 (l - 1) * 2)%R).
    { rewrite <- powerRZ_succ by lra. f_equal. ring. }
    split; lra.
Qed.

Lemma floor_log2_unique n d l :
  0 < n -> 0 < d ->
  (powerRZ 2 l <= ratio n d < powerRZ 2 (l + 1))%R ->
  PyFloat.floor_log2 n d = l.
Proof.
  intros Hn Hd [H1 H2].
  destruct (floor_log2_spec n d Hn Hd) as [S1 S2].
  set (f := PyFloat.floor_log2 n d) in *.
  destruct (Z.lt_trichotomy f l) as [Hlt|[Heq|Hgt]]; [|assumption|].
  - pose proof (powerRZ_le_mono 2 (f + 1) l ltac:(lra) ltac:(lia)). lra.
  - pose proof (powerRZ_le_mono 2 (l + 1) f ltac:(lra) ltac:(lia)). lra.
Qed.

Lemma floor_log2_lt n d l :
  0 < n -> 0 < d -> (ratio n d < powerRZ 2 l)%R -> PyFloat.floor_log2 n d < l.
Proof.
  intros Hn Hd H. destruct (floor_log2_spec n d Hn Hd) as [S1 _].
  destruct (Z.lt_ge_cases (PyFloat.floor_log2 n d) l) as [|Hge]; [assumption|].
  pose proof (powerRZ_le_mono 2 _ _ ltac:(lra) Hge). lra.
Qed.

(** The nearest integer is [M] when the fraction is within a half of it. *)
Lemma nearest_even_near a c M :
  0 < c -> 2 * Z.abs (a - M * c) < c -> PyFloat.nearest_even a c = M.
Proof.
  intros Hc H. unfold PyFloat.nearest_even.
  pose proof (Z.div_mod a c ltac:(lia)) as E.
  pose proof (Z.mod_pos_bound a c Hc) as B.
  set (q := a / c) in *. set (r := a mod c) in *.
  assert (D : a - M * c = c * (q - M) + r) by lia.
  rewrite D in H. clear D E.
  assert (K : q - M = 0 \/ (1 <= q - M /\ c * 1 <= c * (q - M)) \/
              (q - M = -1 /\ c * (q - M) = c * -1) \/
              (q - M <= -2 /\ c * (q - M) <= c * -2)).
  { destruct (Z.lt_trichotomy (q - M) 0) as [K|[K|K]]; [|now left|].
    - destruct (Z.eq_dec (q - M) (-1)) as [K'|K'].
      + right; right; left. split; [assumption|now rewrite K'].
      + right; right; right. split; [lia|].
        apply Z.mul_le_mono_nonneg_l; lia.
    - right; left. split; [lia|]. apply Z.mul_le_mono_nonneg_l; lia. }
  destruct (Z.compare_spec (2 * r) c) as [C|C|C];
    destruct K as [K|[[K1 K2]|[[K1 K2]|[K1 K2]]]]; try lia;
    try (rewrite K in H; lia).
Qed.

Lemma nearest_even_near_R a c M :
  0 < c -> (Rabs (ratio a c - IZR M) < 1 / 2)%R -> PyFloat.nearest_even a c = M.
Proof.
  intros Hc H. apply nearest_even_near; [assumption|].
  assert (Hc' : (0 < IZR c)%R) by now apply IZR_lt.
  apply lt_IZR. rewrite mult_IZR, abs_IZR, minus_IZR, mult_IZR.
  unfold ratio in H.
  replace (IZR a - IZR M * IZR c)%R with ((IZR a / IZR c - IZR M) * IZR c)%R
    by (field; lra).
  rewrite Rabs_mult, (Rabs_pos_eq (IZR c)) by lra.
  pose proof (Rabs_pos (IZR a / IZR c - IZR M)). nra.
Qed.

(** Scaling numerator and denominator alike does not change the rounding. *)
Lemma nearest_even_scale j a c :
  0 < j -> 0 < c -> PyFloat.nearest_even (j * a) (j * c) = PyFloat.nearest_even a c.
Proof.
  intros Hj Hc. unfold PyFloat.nearest_even.
  rewrite Z.div_mul_cancel_l, Z.mul_mod_distr_l by lia.
  replace (2 * (j * (a mod c))) with (j * (2 * (a mod c))) by ring.
  now rewrite <- (Zmult_compare_compat_l (2 * (a mod c)) c j) by lia.
Qed.

Lemma ratio_scale j n d : 0 < j -> 0 < d -> ratio (j * n) (j * d) = ratio n d.
Proof.
  intros Hj Hd. unfold ratio. rewrite !mult_IZR.
  assert (0 < IZR j)%R by now apply IZR_lt.
  assert (0 < IZR d)%R by now apply IZR_lt.
  field. lra.
Qed.

Lemma floor_log2_scale j n d :
  0 < j -> 0 < n -> 0 < d ->
  PyFloat.floor_log2 (j * n) (j * d) = PyFloat.floor_log2 n d.
Proof.
  intros Hj Hn Hd. apply floor_log2_unique; try nia.
  rewrite ratio_scale by assumption. now apply floor_log2_spec.
Qed.

Lemma round_scale s j n d :
  0 < j -> 0 < n -> 0 < d ->
  PyFloat.round s (j * n) (j * d) = PyFloat.round s n d.
Proof.
  intros Hj Hn Hd. unfold PyFloat.round.
  rewrite floor_log2_scale by assumption.
  set (e := Z.max (PyFloat.floor_log2 n d - 52) PyFloat.emin).
  assert (E : PyFloat.scale2 (j * n) (j * d) e =
              (j * fst (PyFloat.scale2 n d e), j * snd (PyFloat.scale2 n d e))).
  { unfold PyFloat.scale2. destruct (0 <=? e); cbn [fst snd]; f_equal; ring. }
  rewrite E. destruct (PyFloat.scale2 n d e) as [a c] eqn:E2. cbn [fst snd].
  rewrite scale2_scale in E2.
  destruct (scale_spec 2 n d e a c ltac:(lia) Hn Hd E2) as (Ha & Hc & _).
  now rewrite nearest_even_scale.
Qed.

(** Rounding depends on the value of the fraction only. *)
Lemma round_ext s n d n' d' :
  0 < n -> 0 < d -> 0 < n' -> 0 < d' -> n * d' = n' * d ->
  PyFloat.round s n d = PyFloat.round s n' d'.
Proof.
  intros Hn Hd Hn' Hd' E.
  rewrite <- (round_scale s d' n d), <- (round_scale s d n' d') by assumption.
  f_equal; [lia|ring].
Qed.

Lemma powerRZ_2_add e k :
  0 <= k -> powerRZ 2 (e + k) = (powerRZ 2 e * IZR (2 ^ k))%R.
Proof. intros Hk. rewrite powerRZ_add by lra. now rewrite IZR_pow. Qed.

Lemma ratio_scale2 n d e a c :
  0 < n -> 0 < d -> PyFloat.scale2 n d e = (a, c) ->
  0 < c /\ (ratio a c * powerRZ 2 e = ratio n d)%R.
Proof.
  intros Hn Hd E. rewrite scale2_scale in E.
  destruct (scale_spec 2 n d e a c ltac:(lia) Hn Hd E) as (_ & Hc & Hr).
  split; [assumption|]. rewrite Hr.
  pose proof (powerRZ_lt 2 e ltac:(lra)). field. lra.
Qed.

(** A fraction close enough to a binary64 value rounds to it: within half
    a unit in the last place, and within a quarter below a power of two. *)
Lemma round_near s n d m e :
  0 < n -> 0 < d -> canonical m e ->
  (Rabs (ratio n d - F2R m e) < powerRZ 2 e / 2)%R ->
  (m = 2 ^ 52 -> -1074 < e -> (F2R m e - ratio n d < powerRZ 2 e / 4)%R) ->
  PyFloat.round s n d = S754_finite s (Z.to_pos m) e.
Proof.
  intros Hn Hd Hc Habs Hq.
  set (v := ratio n d) in *. set (P := powerRZ 2 e) in *.
  assert (HP : (0 < P)%R) by (apply powerRZ_lt; lra).
  unfold F2R in *. fold P in Habs, Hq.
  apply Rabs_def2 in Habs as [Hup Hlo].
  assert (Hm : 0 < m < 2 ^ 53) by (destruct Hc as [[? ?]|[? ?]]; lia).
  assert (He : -1074 <= e <= 971) by (destruct Hc as [[? ?]|[? ?]]; lia).
  assert (Hm53 : (IZR m <= IZR (2 ^ 53 - 1))%R) by (apply IZR_le; lia).
  assert (Hm0 : (1 <= IZR m)%R) by (apply IZR_le; lia).
  change (2 ^ 53 - 1) with 9007199254740991 in Hm53.
  assert (P53 : powerRZ 2 (e + 53) = (P * 9007199254740992)%R)
    by (now rewrite powerRZ_2_add by lia).
  assert (P52 : powerRZ 2 (e + 52) = (P * 4503599627370496)%R)
    by (now rewrite powerRZ_2_add by lia).
  assert (P51 : powerRZ 2 (e + 51) = (P * 2251799813685248)%R)
    by (now rewrite powerRZ_2_add by lia).
  assert (Pm1 : (powerRZ 2 (e - 1) * 2 = P)%R).
  { unfold P. rewrite <- powerRZ_succ by lra. f_equal. ring. }
  unfold PyFloat.round.
  destruct (Z.eq_dec m (2 ^ 52)) as [Em|Em];
    [destruct (Z_lt_dec (-1074) e) as [Ee|Ee];
     [destruct (Rlt_dec v (IZR m * P)) as [Ev|Ev]|]|].
  - (* just below a power of two *)
    specialize (Hq Em Ee). subst m. change (IZR (2 ^ 52)) with 4503599627370496%R in *.
    assert (Hfl : PyFloat.floor_log2 n d = e + 51).
    { apply floor_log2_unique; try assumption. fold v.
      replace (e + 51 + 1) with (e + 52) by ring. rewrite P51, P52. split; lra. }
    rewrite Hfl. unfold PyFloat.emin.
    replace (Z.max (e + 51 - 52) (-1074)) with (e - 1) by lia.
    destruct (PyFloat.scale2 n d (e - 1)) as [a c] eqn:E.
    destruct (ratio_scale2 n d (e - 1) a c Hn Hd E) as (Hc0 & Hr). fold v in Hr.
    assert (Hne : PyFloat.nearest_even a c = 2 ^ 53).
    { apply nearest_even_near_R; [assumption|].
      change (IZR (2 ^ 53)) with 9007199254740992%R.
      assert (Hp1 : (0 < powerRZ 2 (e - 1))%R) by (apply powerRZ_lt; lra).
      apply Rabs_def1.
      - apply (Rmult_lt_reg_r (powerRZ 2 (e - 1))); [assumption|]. nra.
      - apply (Rmult_lt_reg_r (powerRZ 2 (e - 1))); [assumption|]. nra. }
    rewrite Hne. change (2 ^ PyFloat.prec) with (2 ^ 53). rewrite Z.eqb_refl.
    change (2 ^ (PyFloat.prec - 1)) with (2 ^ 52).
    change (2 ^ 52 =? 0) with false. cbv iota.
    replace (e - 1 + 1) with e by ring. unfold PyFloat.etop.
    destruct (Z.ltb_spec 971 e); [lia|reflexivity].
  - (* at a power of two, from above *)
    assert (Hfl : PyFloat.floor_log2 n d = e + 52).
    { apply floor_log2_unique; try assumption. fold v.
      replace (e + 52 + 1) with (e + 53) by ring. rewrite P52, P53.
      subst m. change (IZR (2 ^ 52)) with 4503599627370496%R in *. split; lra. }
    rewrite Hfl. unfold PyFloat.emin.
    replace (Z.max (e + 52 - 52) (-1074)) with e by lia.
    destruct (PyFloat.scale2 n d e) as [a c] eqn:E.
    destruct (ratio_scale2 n d e a c Hn Hd E) as (Hc0 & Hr). fold v P in Hr.
    assert (Hne : PyFloat.nearest_even a c = m).
    { apply nearest_even_near_R; [assumption|].
      apply Rabs_def1.
      - apply (Rmult_lt_reg_r P); [assumption|]. nra.
      - apply (Rmult_lt_reg_r P); [assumption|]. nra. }
    rewrite Hne. change (2 ^ PyFloat.prec) with (2 ^ 53).
    destruct (Z.eqb_spec m (2 ^ 53)); [lia|].
    destruct (Z.eqb_spec m 0); [lia|]. unfold PyFloat.etop.
    destruct (Z.ltb_spec 971 e); [lia|reflexivity].
  - (* at the smallest exponent *)
    assert (Ee' : e = -1074) by lia.
    assert (Hfl : PyFloat.floor_log2 n d < e + 53).
    { apply floor_log2_lt; try assumption. fold v. rewrite P53. nra. }
    unfold PyFloat.emin.
    replace (Z.max (PyFloat.floor_log2 n d - 52) (-1074)) with e by lia.
    destruct (PyFloat.scale2 n d e) as [a c] eqn:E.
    destruct (ratio_scale2 n d e a c Hn Hd E) as (Hc0 & Hr). fold v P in Hr.
    assert (Hne : PyFloat.nearest_even a c = m).
    { apply nearest_even_near_R; [assumption|].
      apply Rabs_def1.
      - apply (Rmult_lt_reg_r P); [assumption|]. nra.
      - apply (Rmult_lt_reg_r P); [assumption|]. nra. }
    rewrite Hne. change (2 ^ PyFloat.prec) with (2 ^ 53).
    destruct (Z.eqb_spec m (2 ^ 53)); [lia|].
    destruct (Z.eqb_spec m 0); [lia|]. unfold PyFloat.etop.
    destruct (Z.ltb_spec 971 e); [lia|reflexivity].
  - (* away from a power of two *)
    assert (HE : Z.max (PyFloat.floor_log2 n d - 52) PyFloat.emin = e).
    { unfold PyFloat.emin. destruct Hc as [[Hc1 Hc2]|[Hc1 Hc2]].
      - assert (Hm' : (IZR (2 ^ 52 + 1) <= IZR m)%R) by (apply IZR_le; lia).
        change (2 ^ 52 + 1) with 4503599627370497 in Hm'.
        assert (Hfl : PyFloat.floor_log2 n d = e + 52).
        { apply floor_log2_unique; try assumption. fold v.
          replace (e + 52 + 1) with (e + 53) by ring. rewrite P52, P53.
          split; nra. }
        lia.
      - assert (Hfl : PyFloat.floor_log2 n d < e + 53).
        { apply floor_log2_lt; try assumption. fold v. rewrite P53. nra. }
        lia. }
    rewrite HE.
    destruct (PyFloat.scale2 n d e) as [a c] eqn:E.
    destruct (ratio_scale2 n d e a c Hn Hd E) as (Hc0 & Hr). fold v P in Hr.
    assert (Hne : PyFloat.nearest_even a c = m).
    { apply nearest_even_near_R; [assumption|].
      apply Rabs_def1.
      - apply (Rmult_lt_reg_r P); [assumption|]. nra.
      - apply (Rmult_lt_reg_r P); [assumption|]. nra. }
    rewrite Hne. change (2 ^ PyFloat.prec) with (2 ^ 53).
    destruct (Z.eqb_spec m (2 ^ 53)); [lia|].
    destruct (Z.eqb_spec m 0); [lia|]. unfold PyFloat.etop.
    destruct (Z.ltb_spec 971 e); [lia|reflexivity].
Qed.

Lemma nearest_even_error_Z a c :
  0 <= a -> 0 < c ->
  2 * Z.abs (a - PyFloat.nearest_even a c * c) <= c /\
  a / c <= PyFloat.nearest_even a c.
Proof.
  intros Ha Hc. unfold PyFloat.nearest_even.
  pose proof (Z.div_mod a c ltac:(lia)) as E.
  pose proof (Z.mod_pos_bound a c Hc) as B.
  set (q := a / c) in *. set (r := a mod c) in *.
  assert (D0 : a - q * c = r) by lia.
  assert (D1 : a - (q + 1) * c = r - c) by lia.
  destruct (Z.compare_spec (2 * r) c) as [C|C|C];
    [destruct (Z.even q)| |]; rewrite ?D0, ?D1; lia.
Qed.

Lemma nearest_even_error a c :
  0 <= a -> 0 < c ->
  (Rabs (ratio a c - IZR (PyFloat.nearest_even a c)) <= 1 / 2)%R /\
  a / c <= PyFloat.nearest_even a c.
Proof.
  intros Ha Hc. destruct (nearest_even_error_Z a c Ha Hc) as [H1 H2].
  split; [|assumption].
  set (N := PyFloat.nearest_even a c) in *.
  assert (Hc' : (0 < IZR c)%R) by now apply IZR_lt.
  apply IZR_le in H1. rewrite mult_IZR, abs_IZR, minus_IZR, mult_IZR in H1.
  unfold ratio.
  replace (IZR a - IZR N * IZR c)%R with ((IZR a / IZR c - IZR N) * IZR c)%R in H1
    by (field; lra).
  rewrite Rabs_mult, (Rabs_pos_eq (IZR c)) in H1 by lra.
  apply (Rmult_le_reg_r (IZR c)); [assumption|]. lra.
Qed.

Lemma ratio_of_spec m e n d :
  0 < m -> PyFloat.ratio_of m e = (n, d) ->
  0 < n /\ 0 < d /\ ratio n d = F2R m e.
Proof.
  intros Hm. unfold PyFloat.ratio_of, ratio, F2R.
  destruct (Z.leb_spec 0 e) as [He|He]; intros [= <- <-].
  - assert (0 < 2 ^ e) by (apply Z.pow_pos_nonneg; lia).
    split; [nia|split; [lia|]]. rewrite mult_IZR, IZR_pow by assumption. field.
  - assert (0 < 2 ^ (- e)) by (apply Z.pow_pos_nonneg; lia).
    split; [lia|split; [lia|]]. rewrite IZR_pow by lia. rewrite powerRZ_neg'.
    pose proof (powerRZ_lt 2 e ltac:(lra)). field. lra.
Qed.

(** [of_decimal] rounds the fraction worth [c * 10^q]. *)
Lemma of_decimal_round s c q :
  0 < c ->
  exists n d, 0 < n /\ 0 < d /\
    PyFloat.of_decimal s c q = PyFloat.round s n d /\
    ratio n d = (IZR c * powerRZ 10 q)%R.
Proof.
  intros Hc. unfold PyFloat.of_decimal.
  destruct (Z.eqb_spec c 0); [lia|].
  destruct (Z.leb_spec 0 q) as [Hq|Hq].
  - assert (0 < 10 ^ q) by (apply Z.pow_pos_nonneg; lia).
    exists (c * 10 ^ q), 1. split; [nia|split; [lia|split; [reflexivity|]]].
    unfold ratio. rewrite mult_IZR, IZR_pow by assumption. field.
  - assert (0 < 10 ^ (- q)) by (apply Z.pow_pos_nonneg; lia).
    exists c, (10 ^ (- q)). split; [lia|split; [lia|split; [reflexivity|]]].
    unfold ratio. rewrite IZR_pow by lia. rewrite powerRZ_neg'.
    pose proof (powerRZ_lt 10 q ltac:(lra)). field. lra.
Qed.

Lemma ratio_lt_1 a c : 0 < c -> (a < c <-> (ratio a c < 1)%R).
Proof.
  intros Hc. unfold ratio. assert (0 < IZR c)%R by now apply IZR_lt.
  split; intros H0.
  - apply IZR_lt in H0. apply (Rmult_lt_reg_r (IZR c)); [assumption|].
    unfold Rdiv. rewrite Rmult_assoc, Rinv_l; lra.
  - apply lt_IZR. apply (Rmult_lt_compat_r (IZR c)) in H0; [|lra].
    unfold Rdiv in H0. rewrite Rmult_assoc, Rinv_l in H0; lra.
Qed.

Lemma scale10_test n d k :
  0 < n -> 0 < d ->
  (let (a, c) := PyFloat.scale10 n d k in a <? c) = true <->
  (ratio n d < powerRZ 10 k)%R.
Proof.
  intros Hn Hd. rewrite scale10_scale.
  destruct (scale 10 n d k) as [a c] eqn:E.
  destruct (scale_spec 10 n d k a c ltac:(lia) Hn Hd E) as (Ha & Hc & Hr).
  pose proof (powerRZ_lt 10 k ltac:(lra)) as Hp.
  rewrite Z.ltb_lt, (ratio_lt_1 a c Hc), Hr.
  split; intros H.
  - apply (Rmult_lt_compat_r (powerRZ 10 k)) in H; [|lra].
    unfold Rdiv in H. rewrite Rmult_assoc, Rinv_l in H; lra.
  - apply (Rmult_lt_reg_r (powerRZ 10 k)); [assumption|].
    unfold Rdiv. rewrite Rmult_assoc, Rinv_l; lra.
Qed.

Lemma floor_log10_from_spec n d fuel : forall k,
  0 < n -> 0 < d ->
  (powerRZ 10 k <= ratio n d < powerRZ 10 (k + Z.of_nat fuel))%R ->
  (powerRZ 10 (PyFloat.floor_log10_from fuel k n d) <= ratio n d
   < powerRZ 10 (PyFloat.floor_log10_from fuel k n d + 1))%R.
Proof.
  induction fuel as [|fuel IH]; intros k Hn Hd [H1 H2].
  - rewrite Z.add_0_r in H2. lra.
  - cbn [PyFloat.floor_log10_from].
    pose proof (scale10_test n d (k + 1) Hn Hd) as T.
    destruct (PyFloat.scale10 n d (k + 1)) as [a c].
    destruct (a <? c) eqn:C.
    + split; [assumption|now apply T].
    + apply IH; try assumption. split.
      * destruct (Rle_or_lt (powerRZ 10 (k + 1)) (ratio n d)) as [|Hlt]; [assumption|].
        apply T in Hlt. congruence.
      * replace (k + 1 + Z.of_nat fuel) with (k + Z.of_nat (S fuel)) by lia.
        assumption.
Qed.

Lemma pow_bounds :
  2 ^ 1074 <= 10 ^ 324 /\ 2 ^ 1024 <= 10 ^ 309 /\ 2 ^ 53 < 10 ^ 16.
Proof. repeat split; apply Z.leb_le || apply Z.ltb_lt; vm_compute; reflexivity. Qed.

(** A positive binary64 value lies in [[10^-324, 10^309)]. *)
Lemma F2R_bounds m e :
  canonical m e ->
  (powerRZ 10 (-324) <= F2R m e < powerRZ 10 309)%R.
Proof.
  intros Hc. unfold F2R.
  assert (Hm : 1 <= m <= 2 ^ 53 - 1) by (destruct Hc as [[? ?]|[? ?]]; lia).
  assert (He : -1074 <= e <= 971) by (destruct Hc as [[? ?]|[? ?]]; lia).
  destruct Hm as [Hm1 Hm2]. apply IZR_le in Hm1, Hm2.
  pose proof (powerRZ_lt 2 e ltac:(lra)) as HP.
  destruct pow_bounds as (B1 & B2 & _).
  apply IZR_le in B1, B2. rewrite !IZR_pow in B1, B2 by lia.
  split.
  - apply Rle_trans with (powerRZ 2 (-1074)).
    + change (-324) with (- (324)). change (-1074) with (- (1074)).
      rewrite !powerRZ_neg'.
      apply Rinv_le_contravar; [apply powerRZ_lt; lra|assumption].
    + pose proof (powerRZ_le_mono 2 (-1074) e ltac:(lra) ltac:(lia)). nra.
  - apply Rlt_le_trans with (powerRZ 2 1024); [|assumption].
    pose proof (powerRZ_le_mono 2 e 971 ltac:(lra) ltac:(lia)).
    assert (E : powerRZ 2 1024 = (powerRZ 2 971 * IZR (2 ^ 53))%R)
      by (rewrite <- powerRZ_2_add by lia; reflexivity).
    rewrite E. rewrite minus_IZR in Hm2.
    pose proof (powerRZ_lt 2 971 ltac:(lra)).
    assert (IZR m < IZR (2 ^ 53))%R by lra.
    apply Rle_lt_trans with (IZR m * powerRZ 2 971)%R; [nra|].
    rewrite (Rmult_comm (powerRZ 2 971)).
    apply Rmult_lt_compat_r; assumption.
Qed.

Lemma floor_log10_spec m e n d :
  canonical m e -> PyFloat.ratio_of m e = (n, d) ->
  (powerRZ 10 (PyFloat.floor_log10 n d) <= F2R m e
   < powerRZ 10 (PyFloat.floor_log10 n d + 1))%R.
Proof.
  intros Hc E.
  assert (Hm : 0 < m) by (destruct Hc as [[? ?]|[? ?]]; lia).
  destruct (ratio_of_spec m e n d Hm E) as (Hn & Hd & Hr).
  rewrite <- Hr. apply floor_log10_from_spec; try assumption.
  rewrite Hr. change (-324 + Z.of_nat 633) with 309. now apply F2R_bounds.
Qed.

Lemma Rabs_le_bounds x a : (Rabs x <= a)%R -> (- a <= x <= a)%R.
Proof. unfold Rabs. destruct (Rcase_abs x); lra. Qed.

(** Seventeen significant digits identify a binary64 value: the nearest
    decimal with 17 digits reads back as the value. *)
Lemma nearest17_reads m e n d a c :
  canonical m e -> PyFloat.ratio_of m e = (n, d) ->
  PyFloat.scale10 n d (PyFloat.floor_log10 n d - 16) = (a, c) ->
  0 < PyFloat.nearest_even a c /\
  PyFloat.of_decimal false (PyFloat.nearest_even a c) (PyFloat.floor_log10 n d - 16)
  = S754_finite false (Z.to_pos m) e.
Proof.
  intros Hc E Es.
  assert (Hm : 0 < m < 2 ^ 53) by (destruct Hc as [[? ?]|[? ?]]; lia).
  destruct (ratio_of_spec m e n d ltac:(lia) E) as (Hn & Hd & Hr).
  pose proof (floor_log10_spec m e n d Hc E) as [K1 _].
  set (k := PyFloat.floor_log10 n d) in *.
  rewrite scale10_scale in Es.
  destruct (scale_spec 10 n d (k - 16) a c ltac:(lia) Hn Hd Es) as (Ha & Hc0 & Hy).
  rewrite Hr in Hy.
  set (T := powerRZ 10 (k - 16)) in *.
  assert (HT : (0 < T)%R) by (apply powerRZ_lt; lra).
  assert (ET : powerRZ 10 k = (T * 10000000000000000)%R).
  { unfold T. replace k with (k - 16 + 16) at 1 by ring.
    rewrite powerRZ_add by lra. f_equal. now rewrite <- (IZR_pow 10 16) by lia. }
  rewrite ET in K1.
  set (P := powerRZ 2 e) in *.
  assert (HP : (0 < P)%R) by (apply powerRZ_lt; lra).
  unfold F2R in *. fold P in Hy, K1.
  set (y := ratio a c) in *.
  assert (Ey : (y * T = IZR m * P)%R) by (rewrite Hy; field; lra).
  destruct (nearest_even_error a c ltac:(lia) Hc0) as [Herr Hfloor]. fold y in Herr.
  set (C := PyFloat.nearest_even a c) in *.
  apply Rabs_le_bounds in Herr as [Herr1 Herr2].
  assert (Hm53 : (IZR m <= 9007199254740991)%R) by (apply IZR_le; lia).
  assert (Hm0 : (1 <= IZR m)%R) by (apply IZR_le; lia).
  assert (HC : 0 < C).
  { apply Z.lt_le_trans with (a / c); [|assumption].
    apply Z.div_str_pos. split; [assumption|].
    apply (ratio_le_1 a c Hc0). fold y.
    apply (Rmult_le_reg_r T); [assumption|]. nra. }
  split; [assumption|].
  destruct (of_decimal_round false C (k - 16) HC) as (n' & d' & Hn' & Hd' & -> & Hw).
  fold T in Hw.
  assert (W1 : (IZR C * T - IZR m * P <= T / 2)%R) by nra.
  assert (W2 : (IZR m * P - IZR C * T <= T / 2)%R) by nra.
  assert (TP : (T * 10000000000000000 <= 9007199254740991 * P)%R) by nra.
  apply round_near; try assumption.
  - rewrite Hw. unfold F2R. fold P. apply Rabs_def1; lra.
  - intros Em _. rewrite Hw. unfold F2R. fold P.
    assert (IZR m = 4503599627370496)%R by (rewrite Em; reflexivity).
    nra.
Qed.

Lemma reads_as_true m e C q :
  PyFloat.reads_as m e C q = true ->
  C <> 0 /\ PyFloat.of_decimal false C q = S754_finite false (Z.to_pos m) e.
Proof.
  unfold PyFloat.reads_as. intros H. split.
  - intros ->. unfold PyFloat.of_decimal in H. cbn in H. discriminate.
  - destruct (PyFloat.of_decimal false C q) as [| | |s m' e']; try discriminate.
    destruct s; [discriminate|].
    apply andb_prop in H as [H1 H2].
    apply Z.eqb_eq in H1, H2. subst. reflexivity.
Qed.

Lemma digits_at_reads m e n d k p C :
  0 < n -> 0 < d -> PyFloat.digits_at m e n d k p = Some C ->
  0 < C /\
  PyFloat.of_decimal false C (k - p + 1) = S754_finite false (Z.to_pos m) e.
Proof.
  intros Hn Hd. unfold PyFloat.digits_at.
  destruct (PyFloat.scale10 n d (k - p + 1)) as [a c] eqn:E.
  rewrite scale10_scale in E.
  destruct (scale_spec 10 n d _ a c ltac:(lia) Hn Hd E) as (Ha & Hc & _).
  assert (Hlo : 0 <= a / c) by (apply Z.div_pos; lia).
  destruct (PyFloat.reads_as m e (a / c) (k - p + 1)) eqn:Rlo;
    destruct (PyFloat.reads_as m e (a / c + 1) (k - p + 1)) eqn:Rhi;
    try discriminate.
  - apply reads_as_true in Rlo as [Nlo Rlo]. apply reads_as_true in Rhi as [Nhi Rhi].
    destruct (2 * a ?= (2 * (a / c) + 1) * c); [destruct (Z.even (a / c))| |];
      intros [= <-]; (split; [lia|assumption]).
  - apply reads_as_true in Rlo as [Nlo Rlo]. intros [= <-]. split; [lia|assumption].
  - apply reads_as_true in Rhi as [Nhi Rhi]. intros [= <-]. split; [lia|assumption].
Qed.

(** The digits [repr] settles on read back as the value. *)
Lemma shortest_from_reads m e n d fuel : forall p C p',
  p + Z.of_nat fuel = 17 ->
  canonical m e -> PyFloat.ratio_of m e = (n, d) ->
  PyFloat.shortest_from fuel m e n d (PyFloat.floor_log10 n d) p = (C, p') ->
  0 < C /\
  PyFloat.of_decimal false C (PyFloat.floor_log10 n d - p' + 1)
  = S754_finite false (Z.to_pos m) e.
Proof.
  induction fuel as [|fuel IH]; intros p C p' Hp Hc E.
  - cbn [PyFloat.shortest_from]. assert (p = 17) by lia. subst p.
    destruct (PyFloat.scale10 n d (PyFloat.floor_log10 n d - 17 + 1)) as [a c] eqn:Es.
    intros [= <- <-].
    replace (PyFloat.floor_log10 n d - 17 + 1) with (PyFloat.floor_log10 n d - 16) in *
      by ring.
    now apply nearest17_reads.
  - cbn [PyFloat.shortest_from].
    assert (Hm : 0 < m) by (destruct Hc as [[? ?]|[? ?]]; lia).
    destruct (ratio_of_spec m e n d Hm E) as (Hn & Hd & _).
    destruct (PyFloat.digits_at m e n d (PyFloat.floor_log10 n d) p) as [C0|] eqn:D.
    + intros [= <- <-]. now apply (digits_at_reads m e n d _ p).
    + apply IH; try assumption. lia.
Qed.

Lemma round_ext_R s n d n' d' :
  0 < n -> 0 < d -> 0 < n' -> 0 < d' -> ratio n d = ratio n' d' ->
  PyFloat.round s n d = PyFloat.round s n' d'.
Proof.
  intros Hn Hd Hn' Hd' E. apply round_ext; try assumption.
  apply eq_IZR. rewrite !mult_IZR. unfold ratio in E.
  assert (0 < IZR d)%R by now apply IZR_lt.
  assert (0 < IZR d')%R by now apply IZR_lt.
  apply (f_equal (fun t => (t * IZR d * IZR d')%R)) in E.
  field_simplify in E; lra.
Qed.

(** [of_decimal] depends on the value [c * 10^q] only. *)
Lemma of_decimal_scale s c q j :
  0 < c -> 0 <= j ->
  PyFloat.of_decimal s (c * 10 ^ j) (q - j) = PyFloat.of_decimal s c q.
Proof.
  intros Hc Hj.
  assert (Hp : 0 < 10 ^ j) by (apply Z.pow_pos_nonneg; lia).
  destruct (of_decimal_round s (c * 10 ^ j) (q - j) ltac:(nia))
    as (n & d & Hn & Hd & -> & Hr).
  destruct (of_decimal_round s c q Hc) as (n' & d' & Hn' & Hd' & -> & Hr').
  apply round_ext_R; try assumption.
  rewrite Hr, Hr', mult_IZR, IZR_pow by assumption.
  replace q with (j + (q - j)) at 2 by ring.
  rewrite powerRZ_add by lra. ring.
Qed.

(** ** Texts of digits *)

Lemma digits_val_zeros v z :
  Py.digits_val v (PyFloat.zeros z) = v * 10 ^ Z.of_nat z.
Proof.
  revert v. induction z as [|z IH]; intros v.
  - cbn. lia.
  - cbn [PyFloat.zeros Py.digits_val]. rewrite IH.
    change (Py.digit_of "0") with 0.
    rewrite Nat2Z.inj_succ, Z.pow_succ_r by lia. ring.
Qed.

Lemma zeros_digits z : all_chars Py.is_digit (PyFloat.zeros z) = true.
Proof. induction z; [reflexivity|exact IHz]. Qed.

Lemma length_zeros z : String.length (PyFloat.zeros z) = z.
Proof. induction z; cbn; congruence. Qed.

Lemma rstrip_zeros_spec ds :
  exists z, ds = (PyFloat.rstrip_zeros ds ++ PyFloat.zeros z)%string.
Proof.
  induction ds as [|c ds [z IH]]; [now exists O|].
  cbn [PyFloat.rstrip_zeros].
  destruct (PyFloat.rstrip_zeros ds) as [|c' r] eqn:R.
  - cbn [append] in IH. destruct (Ascii.eqb_spec c "0") as [->|Hc].
    + exists (S z). cbn. now rewrite <- IH.
    + exists z. cbn. now rewrite <- IH.
  - exists z. cbn [append] in *. now rewrite <- IH.
Qed.

Lemma leading_zeros_val z ds :
  Py.digits_val 0 (PyFloat.zeros z ++ ds) = Py.digits_val 0 ds.
Proof.
  rewrite digits_val_app, digits_val_zeros. reflexivity.
Qed.

Lemma take_drop n s : (PyFloat.take n s ++ PyFloat.drop n s)%string = s.
Proof.
  revert s. induction n as [|n IH]; intros [|c s]; cbn; try reflexivity.
  now rewrite IH.
Qed.

Lemma length_take n s :
  (n <= String.length s)%nat -> String.length (PyFloat.take n s) = n.
Proof.
  revert s. induction n as [|n IH]; intros [|c s]; cbn; intros H; try lia.
  rewrite IH; lia.
Qed.

Lemma all_chars_take p n s : all_chars p s = true -> all_chars p (PyFloat.take n s) = true.
Proof.
  revert s. induction n as [|n IH]; intros [|c s]; cbn; try reflexivity.
  intros H. apply andb_prop in H as [H1 H2]. now rewrite H1, IH.
Qed.

Lemma all_chars_drop p n s : all_chars p s = true -> all_chars p (PyFloat.drop n s) = true.
Proof.
  revert s. induction n as [|n IH]; intros [|c s]; cbn; try reflexivity; try tauto.
  intros H. apply andb_prop in H as [H1 H2]. now apply IH.
Qed.

(** ** Numerals with an exponent *)

Lemma sign_of_signed sg ed :
  sg = "-"%char \/ sg = "+"%char ->
  Py.sign_of (String sg ed) = ((sg =? "-")%char, ed).
Proof. intros [->| ->]; reflexivity. Qed.

Lemma number_exp ip sg ed :
  ip <> EmptyString -> all_chars Py.is_digit ip = true ->
  ed <> EmptyString -> all_chars Py.is_digit ed = true ->
  sg = "-"%char \/ sg = "+"%char ->
  PyFloat.number (ip ++ String "e" (String sg ed)) =
  Some (Py.digits_val 0 ip, signed sg (Py.digits_val 0 ed)).
Proof.
  intros Hi Hia He Hea Hsg. unfold PyFloat.number.
  rewrite (digitpart_app ip (String "e" (String sg ed)) Hi Hia eq_refl).
  change ("e" =? ".")%char with false. cbv iota.
  rewrite append_nil_r.
  destruct ip as [|c ip]; [congruence|].
  change (("e" =? "e")%char || ("e" =? "E")%char) with true. cbv iota.
  rewrite sign_of_signed by assumption.
  pose proof (digitpart_app ed EmptyString He Hea eq_refl) as E.
  rewrite append_nil_r in E. rewrite E. cbn [String.length Z.of_nat].
  unfold signed. f_equal. f_equal. lia.
Qed.

Lemma number_frac_exp ip fp sg ed :
  ip <> EmptyString -> all_chars Py.is_digit ip = true ->
  fp <> EmptyString -> all_chars Py.is_digit fp = true ->
  ed <> EmptyString -> all_chars Py.is_digit ed = true ->
  sg = "-"%char \/ sg = "+"%char ->
  PyFloat.number (ip ++ String "." (fp ++ String "e" (String sg ed))) =
  Some (Py.digits_val 0 (ip ++ fp),
        signed sg (Py.digits_val 0 ed) - Z.of_nat (String.length fp)).
Proof.
  intros Hi Hia Hf Hfa He Hea Hsg. unfold PyFloat.number.
  rewrite (digitpart_app ip (String "." (fp ++ String "e" (String sg ed))) Hi Hia eq_refl).
  change ("." =? ".")%char with true. cbv iota.
  rewrite (digitpart_app fp (String "e" (String sg ed)) Hf Hfa eq_refl).
  destruct (ip ++ fp)%string eqn:D; [destruct ip; [congruence|discriminate]|].
  change (("e" =? "e")%char || ("e" =? "E")%char) with true. cbv iota.
  rewrite sign_of_signed by assumption.
  pose proof (digitpart_app ed EmptyString He Hea eq_refl) as E.
  rewrite append_nil_r in E. rewrite E. reflexivity.
Qed.

Lemma exponent_digits_spec ex :
  exponent_digits ex <> EmptyString /\
  all_chars Py.is_digit (exponent_digits ex) = true /\
  Py.digits_val 0 (exponent_digits ex) = Z.abs ex.
Proof.
  destruct (str_int_nonneg (Z.abs ex) (Z.abs_nonneg ex)) as (Hne & Hall & Hval).
  unfold exponent_digits. destruct (Z.abs ex <? 10).
  - repeat split; [discriminate|exact Hall|exact Hval].
  - auto.
Qed.

Lemma digits_plain ds : all_chars Py.is_digit ds = true -> all_chars plain ds = true.
Proof. apply all_chars_impl. intros c Hc. unfold plain. now rewrite Hc. Qed.

Lemma length_drop n s :
  String.length (PyFloat.drop n s) = (String.length s - n)%nat.
Proof.
  revert s. induction n as [|n IH]; intros [|c s]; cbn; try lia. apply IH.
Qed.

Lemma nonempty_length s : (0 < String.length s)%nat -> s <> EmptyString.
Proof. destruct s; cbn; [lia|discriminate]. Qed.

(** The text [repr] builds from the digits [ds] and the position [decpt]
    of the point starts with a digit, is made of plain characters, and
    denotes [0.ds * 10^decpt]. *)
Lemma format_repr_spec ds decpt :
  ds <> EmptyString -> all_chars Py.is_digit ds = true ->
  exists c s M E j,
    PyFloat.format_repr ds decpt = String c s /\
    Py.is_digit c = true /\
    all_chars plain (String c s) = true /\
    PyFloat.number (String c s) = Some (M, E) /\
    0 <= j /\ M = Py.digits_val 0 ds * 10 ^ j /\
    E = decpt - Z.of_nat (String.length ds) - j.
Proof.
  intros Hne Hall. unfold PyFloat.format_repr. cbv zeta.
  pose proof (digits_plain ds Hall) as Hplain.
  destruct ds as [|c ds]; [congruence|].
  pose proof Hall as Hc. cbn [all_chars] in Hc. apply andb_prop in Hc as [Hc Hds].
  destruct ((decpt <=? -4) || (16 <? decpt)) eqn:Hexp.
  - (* exponent form *)
    fold (exponent_digits (decpt - 1)).
    destruct (exponent_digits_spec (decpt - 1)) as (Ene & Eall & Eval).
    set (ed := exponent_digits (decpt - 1)) in *.
    set (sg := if decpt - 1 <? 0 then "-"%char else "+"%char).
    assert (Hsg : sg = "-"%char \/ sg = "+"%char)
      by (unfold sg; destruct (decpt - 1 <? 0); auto).
    assert (Esg : signed sg (Py.digits_val 0 ed) = decpt - 1).
    { rewrite Eval. unfold signed, sg.
      destruct (Z.ltb_spec (decpt - 1) 0); cbn; lia. }
    assert (Hsgp : plain sg = true) by (destruct Hsg as [->| ->]; reflexivity).
    assert (Etail : append "e" (append (if (decpt - 1 <? 0)%Z then "-" else "+") ed)
                    = String "e" (String sg ed)).
    { unfold sg. now destruct (decpt - 1 <? 0). }
    rewrite Etail. clear Etail.
    destruct ds as [|c2 ds].
    + exists c, (String "e" (String sg ed)), (Py.digits_val 0 (String c EmptyString)),
        (decpt - 1), 0.
      refine (conj _ (conj Hc (conj _ (conj _ (conj _ (conj _ _)))))).
      * reflexivity.
      * cbn [all_chars]. rewrite Hsgp, (digits_plain ed Eall).
        unfold plain at 1. rewrite Hc. reflexivity.
      * rewrite <- Esg.
        apply (number_exp (String c EmptyString) sg ed);
          [discriminate | cbn [all_chars]; now rewrite Hc | assumption..].
      * lia.
      * lia.
      * cbn [String.length]. lia.
    + exists c, (String "." (String c2 ds ++ String "e" (String sg ed))),
        (Py.digits_val 0 (String c (String c2 ds))),
        (decpt - 1 - Z.of_nat (String.length (String c2 ds))), 0.
      refine (conj _ (conj Hc (conj _ (conj _ (conj _ (conj _ _)))))).
      * reflexivity.
      * cbn [all_chars]. unfold plain at 1. rewrite Hc. cbn [orb andb].
        change (plain ".") with true. cbn [andb].
        change (String c2 (ds ++ String "e" (String sg ed)))
          with (String c2 ds ++ String "e" (String sg ed))%string.
        rewrite all_chars_app, (digits_plain _ Hds). cbn [all_chars andb].
        now rewrite Hsgp, (digits_plain ed Eall).
      * rewrite <- Esg.
        apply (number_frac_exp (String c EmptyString) (String c2 ds) sg ed);
          [discriminate | cbn [all_chars]; now rewrite Hc | discriminate | assumption..].
      * lia.
      * lia.
      * cbn [String.length]. lia.
  - apply orb_false_iff in Hexp as [H1 H2].
    apply Z.leb_gt in H1. apply Z.ltb_ge in H2.
    destruct (Z.leb_spec decpt 0) as [H0|H0].
    + (* 0.000ddd *)
      set (z := Z.to_nat (- decpt)).
      exists "0"%char, (String "." (PyFloat.zeros z ++ String c ds)),
        (Py.digits_val 0 (String c ds)),
        (- Z.of_nat (String.length (PyFloat.zeros z ++ String c ds))), 0.
      refine (conj _ (conj _ (conj _ (conj _ (conj _ (conj _ _)))))).
      * reflexivity.
      * reflexivity.
      * cbn [append all_chars]. change (plain "0") with true.
        change (plain ".") with true. cbn [andb].
        rewrite all_chars_app, (digits_plain _ (zeros_digits z)). exact Hplain.
      * change (String "0" (String "." (PyFloat.zeros z ++ String c ds)))
          with (String "0" EmptyString ++ String "." (PyFloat.zeros z ++ String c ds))%string.
        rewrite (number_plain (String "0" EmptyString) (PyFloat.zeros z ++ String c ds)).
        -- f_equal. f_equal.
           change (String "0" EmptyString ++ PyFloat.zeros z ++ String c ds)%string
             with (PyFloat.zeros (S z) ++ String c ds)%string.
           apply leading_zeros_val.
        -- discriminate.
        -- reflexivity.
        -- destruct (PyFloat.zeros z); discriminate.
        -- rewrite all_chars_app, zeros_digits. exact Hall.
      * lia.
      * lia.
      * rewrite length_append, length_zeros. unfold z. lia.
    + destruct (Z.ltb_spec decpt (Z.of_nat (String.length (String c ds)))) as [Hlt|Hge].
      * (* ddd.ddd *)
        set (k := Z.to_nat decpt).
        assert (Hk : (0 < k < String.length (String c ds))%nat) by (unfold k; lia).
        assert (Ht : PyFloat.take k (String c ds) <> EmptyString).
        { apply nonempty_length. rewrite length_take; lia. }
        assert (Hd : PyFloat.drop k (String c ds) <> EmptyString).
        { apply nonempty_length. rewrite length_drop. lia. }
        destruct (PyFloat.take k (String c ds)) as [|c1 t] eqn:Et; [congruence|].
        assert (Ec1 : c1 = c).
        { destruct k; [lia|]. cbn in Et. congruence. }
        subst c1.
        exists c, (t ++ "." ++ PyFloat.drop k (String c ds))%string,
          (Py.digits_val 0 (String c ds)),
          (- Z.of_nat (String.length (PyFloat.drop k (String c ds)))), 0.
        assert (Htd : all_chars Py.is_digit (String c t) = true)
          by (rewrite <- Et; now apply all_chars_take).
        assert (Hdd : all_chars Py.is_digit (PyFloat.drop k (String c ds)) = true)
          by now apply all_chars_drop.
        refine (conj _ (conj Hc (conj _ (conj _ (conj _ (conj _ _)))))).
        -- reflexivity.
        -- change (String c (t ++ "." ++ PyFloat.drop k (String c ds)))
             with (String c t ++ String "." (PyFloat.drop k (String c ds)))%string.
           rewrite all_chars_app, (digits_plain _ Htd). cbn [all_chars andb].
           change (plain ".") with true. cbn [andb]. now apply digits_plain.
        -- change (String c (t ++ "." ++ PyFloat.drop k (String c ds)))
             with (String c t ++ String "." (PyFloat.drop k (String c ds)))%string.
           rewrite number_plain by (assumption || discriminate).
           now rewrite <- Et, take_drop.
        -- lia.
        -- lia.
        -- rewrite length_drop. unfold k. lia.
      * (* ddd000.0 *)
        set (j := Z.to_nat (decpt - Z.of_nat (String.length (String c ds)))).
        exists c, (ds ++ PyFloat.zeros j ++ ".0")%string,
          (Py.digits_val 0 (String c ds) * 10 ^ (Z.of_nat j + 1)), (-1),
          (Z.of_nat j + 1).
        refine (conj _ (conj Hc (conj _ (conj _ (conj _ (conj _ _)))))).
        -- reflexivity.
        -- change (String c (ds ++ PyFloat.zeros j ++ ".0"))
             with (String c ds ++ PyFloat.zeros j ++ ".0")%string.
           rewrite !all_chars_app, Hplain, (digits_plain _ (zeros_digits j)).
           reflexivity.
        -- change (String c (ds ++ PyFloat.zeros j ++ ".0"))
             with (String c ds ++ PyFloat.zeros j ++ String "." "0")%string.
           rewrite <- append_assoc.
           rewrite number_plain.
           ++ f_equal. f_equal.
              rewrite !digits_val_app, digits_val_zeros. cbn [Py.digits_val].
              change (Py.digit_of "0") with 0.
              rewrite Z.pow_add_r by lia. ring.
           ++ discriminate.
           ++ rewrite all_chars_app, Hall. apply zeros_digits.
           ++ discriminate.
           ++ reflexivity.
        -- lia.
        -- reflexivity.
        -- unfold j. lia.
Qed.

(** ** Valid binary64 values *)

Lemma digits2_pos_bounds m :
  2 ^ (Zpos (digits2_pos m) - 1) <= Zpos m < 2 ^ Zpos (digits2_pos m).
Proof.
  induction m as [m IH|m IH|]; cbn [digits2_pos].
  - rewrite Pos2Z.inj_succ.
    replace (Z.succ (Zpos (digits2_pos m)) - 1) with (Z.succ (Zpos (digits2_pos m) - 1))
      by lia.
    rewrite !Z.pow_succ_r by lia. lia.
  - rewrite Pos2Z.inj_succ.
    replace (Z.succ (Zpos (digits2_pos m)) - 1) with (Z.succ (Zpos (digits2_pos m) - 1))
      by lia.
    rewrite !Z.pow_succ_r by lia. lia.
  - cbn. lia.
Qed.

Lemma bounded_canonical m e :
  bounded 53 1024 m e = true -> canonical (Zpos m) e.
Proof.
  unfold bounded, canonical_mantissa, fexp, emin. intros H.
  apply andb_prop in H as [H1 H2].
  apply Z.eqb_eq in H1. apply Z.leb_le in H2.
  pose proof (digits2_pos_bounds m) as [B1 B2].
  set (dg := Zpos (digits2_pos m)) in *.
  assert (Hdg : 0 < dg) by (unfold dg; lia).
  unfold canonical.
  destruct (Z.max_spec (dg + e - 53) (3 - 1024 - 53)) as [[M1 M2]|[M1 M2]];
    rewrite M2 in H1.
  - right. split; [|lia]. split; [lia|].
    apply Z.lt_le_trans with (2 ^ dg); [assumption|].
    apply Z.pow_le_mono_r; lia.
  - left. assert (dg = 53) by lia.
    replace (dg - 1) with 52 in B1 by lia. replace dg with 53 in B2. lia.
Qed.

(** ** The text of a positive float reads back as the float *)

Lemma plain_not_space c : plain c = true -> negb (Py.is_space c) = true.
Proof.
  unfold plain. intros H. apply negb_true_iff.
  destruct (Py.is_digit c) eqn:D; [now apply digit_not_space|].
  cbn [orb] in H.
  destruct (Ascii.eqb_spec c ".") as [->|]; [reflexivity|].
  destruct (Ascii.eqb_spec c "e") as [->|]; [reflexivity|].
  destruct (Ascii.eqb_spec c "+") as [->|]; [reflexivity|].
  destruct (Ascii.eqb_spec c "-") as [->|]; [reflexivity|discriminate].
Qed.

Lemma plain_not_dollar c : plain c = true -> negb ("$" =? c)%char = true.
Proof.
  unfold plain. intros H. apply negb_true_iff.
  destruct (Ascii.eqb_spec "$" c) as [<-|]; [discriminate|reflexivity].
Qed.

Lemma repr_pos_reads m e :
  canonical (Zpos m) e ->
  all_chars plain (PyFloat.repr_pos (Zpos m) e) = true /\
  PyFloat.of_string (PyFloat.repr_pos (Zpos m) e) = Ok (S754_finite false m e).
Proof.
  intros Hc. unfold PyFloat.repr_pos.
  destruct (PyFloat.ratio_of (Zpos m) e) as [n d] eqn:E.
  destruct (PyFloat.shortest_from 16 (Zpos m) e n d (PyFloat.floor_log10 n d) 1)
    as [C p] eqn:S.
  destruct (shortest_from_reads (Zpos m) e n d 16 1 C p eq_refl Hc E S) as [HC HR].
  change (Z.to_pos (Z.pos m)) with m in HR.
  set (k := PyFloat.floor_log10 n d) in *.
  destruct (str_int_nonneg C ltac:(lia)) as (Hne & Hall & Hval).
  set (ds := Py.str_int C) in *.
  destruct (rstrip_zeros_spec ds) as [z Ez].
  set (ds' := PyFloat.rstrip_zeros ds) in *.
  assert (Hall' : all_chars Py.is_digit ds' = true).
  { rewrite Ez, all_chars_app in Hall. now apply andb_prop in Hall as [? _]. }
  assert (Hval' : C = Py.digits_val 0 ds' * 10 ^ Z.of_nat z).
  { rewrite <- Hval, Ez, digits_val_app, digits_val_zeros. reflexivity. }
  assert (Hlen : Z.of_nat (String.length ds) = Z.of_nat (String.length ds') + Z.of_nat z).
  { rewrite Ez at 1. rewrite length_append, length_zeros. lia. }
  assert (Hpos : 0 < Py.digits_val 0 ds').
  { assert (0 < 10 ^ Z.of_nat z) by (apply Z.pow_pos_nonneg; lia). nia. }
  assert (Hne' : ds' <> EmptyString).
  { intros E0. rewrite E0 in Hpos. cbn in Hpos. lia. }
  destruct (format_repr_spec ds' (k + 1 + (Z.of_nat (String.length ds) - p)) Hne' Hall')
    as (c & s & M & E' & j & Ef & Hc0 & Hpl & Hnum & Hj & HM & HE).
  rewrite Ef. split; [exact Hpl|].
  rewrite (of_string_number c s M E' Hc0).
  - f_equal. rewrite HM, HE, of_decimal_scale by assumption.
    rewrite <- HR, Hval'.
    rewrite <- (of_decimal_scale false (Py.digits_val 0 ds')
                  (k + 1 + (Z.of_nat (String.length ds) - p)
                   - Z.of_nat (String.length ds')) (Z.of_nat z)) by lia.
    f_equal. lia.
  - revert Hpl. apply all_chars_impl. apply plain_not_space.
  - exact Hnum.
Qed.

(** * The card parser *)

#[warnings="-inexact-float"]
Example get_product_sample :
  get_product (sample_card "Asus VivoBook" "15.6 inch" "$295.99" "14 reviews" 3) =
  Ok (Build_Product (Some "Asus VivoBook") "15.6 inch" (binary64 295.99) 3 14).
Proof. vm_compute. reflexivity. Qed.

(** C1, as the code has it: a price text made of the currency symbol and a
    plain decimal numeral (digits, a point, digits; no thousands separator)
    is stripped of the symbol and converted to the binary64 value nearest
    to that decimal, so that "$1299.99" gives 1299.99; a text that holds a
    thousands separator is refused with ValueError. *)
#[warnings="-inexact-float"]
Theorem price_of_plain_decimal :
  (forall ip fp,
     ip <> EmptyString -> all_chars Py.is_digit ip = true ->
     fp <> EmptyString -> all_chars Py.is_digit fp = true ->
     parse_price ("$" ++ ip ++ "." ++ fp) = Ok (decimal_value ip fp)) /\
  parse_price "$1299.99" = Ok (binary64 1299.99) /\
  get_product (sample_card "Lenovo Legion" "17.3 inch" "$1299.99" "7 reviews" 4) =
  Ok (Build_Product (Some "Lenovo Legion") "17.3 inch" (binary64 1299.99) 4 7) /\
  (forall price_text,
     no_comma price_text = false -> parse_price price_text = Raise ValueError).
Proof.
  split; [|split; [|split]].
  - intros ip fp Hi Hia Hf Hfa. unfold parse_price.
    rewrite replace_char_empty. cbn [append remove_char].
    change ("$" =? "$")%char with true. cbv iota.
    rewrite remove_char_absent.
    + change (String "." fp) with ("." ++ fp)%string.
      now apply of_string_plain.
    + rewrite all_chars_app. cbn [all_chars].
      change (negb ("$" =? ".")%char) with true. cbn [andb].
      apply andb_true_intro; split;
        [revert Hia|revert Hfa]; apply all_chars_impl; intros c Hc;
        apply negb_true_iff; rewrite Ascii.eqb_sym; now apply digit_neq.
  - vm_compute. reflexivity.
  - vm_compute. reflexivity.
  - apply parse_price_comma.
Qed.

Lemma price_of_plain_decimal_witness :
  parse_price ("$" ++ "1299" ++ "." ++ "99") = Ok (decimal_value "1299" "99") /\
  parse_price "$1,299.99" = Raise ValueError.
Proof.
  split.
  - apply (proj1 price_of_plain_decimal "1299" "99");
      [discriminate | reflexivity | discriminate | reflexivity].
  - apply (proj2 (proj2 (proj2 price_of_plain_decimal)) "$1,299.99"). reflexivity.
Defined.

(** C1 as stated fails: the text "$1,299.99" is not converted to 1299.99;
    [float] refuses what is left once the symbol is gone, and [get_product]
    raises ValueError on such a card. *)
#[warnings="-inexact-float"]
Lemma price_with_separator_refused :
  parse_price "$1,299.99" <> Ok (binary64 1299.99) /\
  parse_price "$1,299.99" = Raise ValueError /\
  get_product (sample_card "Lenovo Legion" "17.3 inch" "$1,299.99" "7 reviews" 4) =
  Raise ValueError.
Proof.
  split; [|split].
  - vm_compute. discriminate.
  - vm_compute. reflexivity.
  - vm_compute. reflexivity.
Qed.

(** C3, as the code has it: for every non-negative integer [n] of at
    most 4300 digits and every non-empty text [s], [str(n)] gives the
    numeral of [n], and the review-count step of [get_product] (split on
    " ", first piece, [int]) reads [n] back from the text made of that
    numeral, a space and [s]. *)
Theorem review_count_roundtrip (n : Z) (s : string) :
  0 <= n < 10 ^ Py.max_str_digits -> s <> EmptyString ->
  Py.str n = Ok (Py.str_int n) /\
  parse_num_of_reviews (Py.str_int n ++ " " ++ s) = Ok n.
Proof.
  intros Hn _. split; [|now apply parse_num_of_reviews_str_int].
  unfold Py.str. rewrite Z.abs_eq by lia.
  destruct (Z.ltb_spec n (10 ^ Py.max_str_digits)); [reflexivity|lia].
Qed.

Lemma review_count_roundtrip_witness :
  Py.str 7 = Ok (Py.str_int 7) /\
  parse_num_of_reviews (Py.str_int 7 ++ " " ++ "reviews") = Ok 7.
Proof.
  apply (review_count_roundtrip 7 "reviews"); [|discriminate].
  split; [lia|reflexivity].
Defined.

(** C2: for every non-negative float [d] (a binary64 value; zero of
    either sign and infinity included), the price step of [get_product]
    applied to the text "$" followed by [str(d)] gives exactly [d] back. *)
Theorem price_roundtrip (d : PyFloat.float) :
  valid_binary PyFloat.prec PyFloat.emax d = true -> nonnegative d = true ->
  parse_price ("$" ++ PyFloat.repr d) = Ok d.
Proof.
  intros Hv Hn. unfold parse_price. rewrite replace_char_empty.
  cbn [append remove_char]. change ("$" =? "$")%char with true. cbv iota.
  destruct d as [s|s| |s m e].
  - destruct s; vm_compute; reflexivity.
  - destruct s; [discriminate|]. vm_compute. reflexivity.
  - discriminate.
  - destruct s; [discriminate|].
    cbn [valid_binary] in Hv. apply bounded_canonical in Hv.
    destruct (repr_pos_reads m e Hv) as [Hpl Hr].
    cbn [PyFloat.repr append].
    rewrite remove_char_absent; [exact Hr|].
    revert Hpl. apply all_chars_impl. apply plain_not_dollar.
Qed.

#[warnings="-inexact-float"]
Lemma price_roundtrip_witness :
  parse_price ("$" ++ PyFloat.repr (binary64 1299.99)) = Ok (binary64 1299.99).
Proof. apply price_roundtrip; reflexivity. Defined.

(** C10: the price step drops every "$" of the text, wherever it stands,
    before the conversion: what [float] receives is the text without its
    dollar signs, so "5$", "$$5" and "1$2" give 5.0, 5.0 and 12.0. *)
Theorem price_drops_every_dollar :
  (forall price_text,
     Py.replace price_text "$" "" = remove_char "$" price_text /\
     all_chars (fun c => negb ("$" =? c)%char) (Py.replace price_text "$" "") = true /\
     parse_price price_text = PyFloat.of_string (remove_char "$" price_text)) /\
  parse_price "5$" = Ok (binary64 5.0) /\
  parse_price "$$5" = Ok (binary64 5.0) /\
  parse_price "1$2" = Ok (binary64 12.0).
Proof.
  split; [|repeat split; vm_compute; reflexivity].
  intros price_text. unfold parse_price. rewrite replace_char_empty.
  repeat split. apply remove_char_gone.
Qed.

(** * The pagination loop and the harvester *)

Lemma find_element_raises by_ value root e :
  find_element by_ value root = Raise e -> e = NoSuchElementException.
Proof.
  unfold find_element. destruct (find_elements by_ value root); congruence.
Qed.

Section Pagination.

Variable World : Type.
Variable document : World -> element.
Variable load : string -> World -> World.
Variable click : element -> World -> World.
Variable script_click : element -> World -> World.

#[local] Abbreviation state := (state World).
#[local] Abbreviation paginate := (execute_more_pagination_script World document script_click).
#[local] Abbreviation harvest := (parse_product_card World document script_click).

(** One turn of the loop. *)
Lemma paginate_step fuel max_products (s : state) :
  paginate (S fuel) max_products s =
  if card_count document (browser s) <? max_products then
    match more_button document (browser s) with
    | Ok b => paginate fuel max_products (after_click script_click b s)
    | Raise _ => Returned tt s
    end
  else Returned tt s.
Proof.
  cbn [execute_more_pagination_script].
  unfold bind at 1. unfold driver_find_elements at 1.
  fold (thumbnails document (browser s)). fold (card_count document (browser s)).
  destruct (card_count document (browser s) <? max_products); [|reflexivity].
  unfold bind at 1. unfold try_except, bind at 1, driver_find_element, lift.
  fold (more_button document (browser s)).
  destruct (more_button document (browser s)) as [b|e] eqn:E.
  - reflexivity.
  - now rewrite (find_element_raises _ _ _ _ E).
Qed.

Lemma paginate_never_raises fuel max_products : forall (s : state) e s',
  paginate fuel max_products s <> Raised e s'.
Proof.
  induction fuel as [|fuel IH]; intros s e s'; [discriminate|].
  rewrite paginate_step.
  destruct (card_count document (browser s) <? max_products); [|discriminate].
  destruct (more_button document (browser s)); [apply IH|discriminate].
Qed.

Lemma paginate_returned fuel max_products : forall (s s' : state) u,
  paginate fuel max_products s = Returned u s' -> paginated document script_click max_products s s'.
Proof.
  induction fuel as [|fuel IH]; intros s s' u; [discriminate|].
  rewrite paginate_step.
  destruct (Z.ltb_spec (card_count document (browser s)) max_products) as [Hlt|Hge].
  - destruct (more_button document (browser s)) as [b|e] eqn:E.
    + intros H. eapply paginated_click; eauto.
    + intros [= _ <-]. apply paginated_no_control; [assumption|].
      now rewrite E, (find_element_raises _ _ _ _ E).
  - intros [= _ <-]. now apply paginated_enough.
Qed.

Lemma paginated_returns max_products (s s' : state) :
  paginated document script_click max_products s s' ->
  exists fuel, forall fuel', (fuel <= fuel')%nat ->
    paginate fuel' max_products s = Returned tt s'.
Proof.
  induction 1 as [s Hge | s Hlt Hb | s b s' Hlt Hb _ [fuel IH]].
  - exists 1%nat. intros [|fuel'] Hf; [lia|]. rewrite paginate_step.
    destruct (Z.ltb_spec (card_count document (browser s)) max_products); [lia|reflexivity].
  - exists 1%nat. intros [|fuel'] Hf; [lia|]. rewrite paginate_step, Hb.
    destruct (Z.ltb_spec (card_count document (browser s)) max_products); reflexivity.
  - exists (S fuel). intros [|fuel'] Hf; [lia|]. rewrite paginate_step, Hb.
    destruct (Z.ltb_spec (card_count document (browser s)) max_products); [|lia].
    apply IH. lia.
Qed.

Lemma paginated_log max_products (s s' : state) :
  paginated document script_click max_products s s' ->
  files s' = files s /\
  exists clicks, log s' = (log s ++ clicks)%list /\ forallb is_script_click clicks = true.
Proof.
  induction 1 as [s Hge | s Hlt Hb | s b s' Hlt Hb _ (Hf & clicks & Hl & Hc)].
  - split; [reflexivity|]. exists []. now rewrite app_nil_r.
  - split; [reflexivity|]. exists []. now rewrite app_nil_r.
  - split; [exact Hf|]. exists (ScriptClick b :: clicks).
    cbn [after_click log] in Hl. rewrite Hl, <- app_assoc. now split.
Qed.

(** C4: for every session state and every positive target, the loop makes
    no click in a turn where the rendered count has reached the target (it
    returns with the state as it is), returns normally when the control
    cannot be located below the target, and clicks once and goes on
    otherwise; it never raises, and a run that ends has clicked only in
    states below the target. *)
Theorem pagination_stops_at_target (max_products : Z) (s : state) (fuel : nat) :
  0 < max_products ->
  (max_products <= card_count document (browser s) ->
   paginate (S fuel) max_products s = Returned tt s) /\
  (card_count document (browser s) < max_products ->
   more_button document (browser s) = Raise NoSuchElementException ->
   paginate (S fuel) max_products s = Returned tt s) /\
  (forall b,
     card_count document (browser s) < max_products ->
     more_button document (browser s) = Ok b ->
     paginate (S fuel) max_products s = paginate fuel max_products (after_click script_click b s)) /\
  (forall e s', paginate fuel max_products s <> Raised e s') /\
  (forall s', paginate fuel max_products s = Returned tt s' ->
              paginated document script_click max_products s s') /\
  (forall s', paginated document script_click max_products s s' ->
     exists fuel0, forall fuel', (fuel0 <= fuel')%nat ->
       paginate fuel' max_products s = Returned tt s').
Proof.
  intros _. repeat split.
  - intros H. rewrite paginate_step.
    destruct (Z.ltb_spec (card_count document (browser s)) max_products); [lia|reflexivity].
  - intros H Hb. rewrite paginate_step, Hb.
    destruct (Z.ltb_spec (card_count document (browser s)) max_products); reflexivity.
  - intros b H Hb. rewrite paginate_step, Hb.
    destruct (Z.ltb_spec (card_count document (browser s)) max_products); [reflexivity|lia].
  - apply paginate_never_raises.
  - intros s'. apply paginate_returned.
  - intros s'. apply paginated_returns.
Qed.

(** ** A control that never helps *)

Lemma paginate_diverges max_products fuel : forall s : state,
  (forall w, reachable document script_click (browser s) w ->
     card_count document w < max_products /\ exists b, more_button document w = Ok b) ->
  paginate fuel max_products s = OutOfFuel.
Proof.
  induction fuel as [|fuel IH]; intros s H; [reflexivity|].
  rewrite paginate_step.
  destruct (H _ (reachable_start _)) as [Hlt [b Hb]]. rewrite Hb.
  destruct (Z.ltb_spec (card_count document (browser s)) max_products); [|lia].
  apply IH. intros w Hw. apply H.
  clear -Hw Hb. cbn [after_click browser] in Hw.
  induction Hw as [|w b' Hw IHw Hb'].
  - now apply reachable_click with (1 := reachable_start _).
  - now apply reachable_click.
Qed.

(** C5: from a state where the control is always locatable, activating it
    never increases the rendered count and the count stays below the
    target, the loop does not terminate: every bounded run is still looping
    when its fuel is spent, and no run ends. *)
Theorem pagination_never_returns (max_products : Z) (s : state) :
  (forall w, reachable document script_click (browser s) w -> exists b, more_button document w = Ok b) ->
  (forall w b, reachable document script_click (browser s) w -> more_button document w = Ok b ->
     card_count document (script_click b w) <= card_count document w) ->
  (forall w, reachable document script_click (browser s) w -> card_count document w < max_products) ->
  (forall fuel, paginate fuel max_products s = OutOfFuel) /\
  (forall s', ~ paginated document script_click max_products s s').
Proof.
  intros Hb _ Hlt.
  assert (D : forall fuel, paginate fuel max_products s = OutOfFuel).
  { intros fuel. apply paginate_diverges. intros w Hw. split; auto. }
  split; [exact D|].
  intros s' Hp. destruct (paginated_returns _ _ _ Hp) as [fuel Hf].
  specialize (Hf fuel (le_n _)). rewrite D in Hf. discriminate.
Qed.

(** ** The harvester *)

Lemma harvest_enough fuel max_products (s : state) :
  max_products <= card_count document (browser s) ->
  harvest (S fuel) max_products s =
  lift World (map_result get_product (thumbnails document (browser s))) s.
Proof.
  intros H. unfold parse_product_card, bind.
  assert (E : paginate (S fuel) max_products s = Returned tt s).
  { rewrite paginate_step.
    destruct (Z.ltb_spec (card_count document (browser s)) max_products); [lia|reflexivity]. }
  destruct (truthy max_products); [rewrite E|]; reflexivity.
Qed.

(** C6: on a page with exactly five rendered cards and no "load more"
    control, the harvester called with the target 3 returns five records,
    one per card in page order (each card read by [get_product]), makes
    no click and leaves the state as it is. *)
Theorem harvest_five_cards (fuel : nat) (s : state)
  (c1 c2 c3 c4 c5 : element) (p1 p2 p3 p4 p5 : Product) :
  thumbnails document (browser s) = [c1; c2; c3; c4; c5] ->
  more_button document (browser s) = Raise NoSuchElementException ->
  get_product c1 = Ok p1 -> get_product c2 = Ok p2 -> get_product c3 = Ok p3 ->
  get_product c4 = Ok p4 -> get_product c5 = Ok p5 ->
  harvest (S fuel) 3 s = Returned [p1; p2; p3; p4; p5] s.
Proof.
  intros Ht _ H1 H2 H3 H4 H5.
  rewrite harvest_enough.
  - rewrite Ht. cbn [map_result]. now rewrite H1, H2, H3, H4, H5.
  - unfold card_count. rewrite Ht. cbn. lia.
Qed.

(** C7: with the target zero the loop makes no click, whatever the state;
    zero is the only falsy target, and with it the harvester skips the loop
    (it needs no fuel) and reads the cards that are already rendered,
    leaving the state, its log included, as it is. *)
Theorem zero_target_no_click (fuel : nat) (s : state) :
  paginate (S fuel) 0 s = Returned tt s /\
  (forall n, truthy n = false <-> n = 0) /\
  harvest fuel 0 s = lift World (map_result get_product (thumbnails document (browser s))) s /\
  match harvest fuel 0 s with
  | Returned _ s' | Raised _ s' => s' = s
  | OutOfFuel => False
  end.
Proof.
  assert (H : harvest fuel 0 s =
              lift World (map_result get_product (thumbnails document (browser s))) s)
    by reflexivity.
  split; [|split; [|split]].
  - rewrite paginate_step.
    destruct (Z.ltb_spec (card_count document (browser s)) 0); [|reflexivity].
    unfold card_count in *. lia.
  - intros n. unfold truthy. split.
    + intros E. apply negb_false_iff in E. now apply Z.eqb_eq.
    + intros ->. reflexivity.
  - exact H.
  - rewrite H. unfold lift.
    now destruct (map_result get_product (thumbnails document (browser s))).
Qed.

End Pagination.

Example csv_read_ex :
  CsvReader.read (Csv.row_text ["a,b"; ""; "x"] ++ Csv.row_text [""] ++ Csv.row_text []
                  ++ Csv.row_text ["1"; "2"])
  = [["a,b"; ""; "x"]; [""]; []; ["1"; "2"]].
Proof. reflexivity. Qed.

Section CsvRoundTrip.
Import Csv CsvReader.

Lemma not_special c :
  is_special c = false ->
  (c =? delimiter)%char = false /\ (c =? quotechar)%char = false /\
  (c =? CR)%char = false /\ (c =? LF)%char = false.
Proof.
  unfold is_special. intros H.
  apply orb_false_iff in H as [H H4]. apply orb_false_iff in H as [H H3].
  apply orb_false_iff in H as [H1 H2]. auto.
Qed.

Lemma in_field_plain f : forall cur fields rest,
  has_special f = false ->
  read_from InField cur fields (f ++ rest) = read_from InField (cur ++ f) fields rest.
Proof.
  induction f as [|c f IH]; intros cur fields rest H.
  - now rewrite append_nil_r.
  - cbn [has_special] in H. apply orb_false_iff in H as [Hc Hf].
    destruct (not_special c Hc) as (H1 & H2 & H3 & H4).
    cbn [append read_from]. rewrite H1, H3, H4, IH by assumption.
    now rewrite append_assoc.
Qed.

Lemma start_field_plain f fields t rest :
  has_special f = false -> ends_field t = true ->
  read_from StartField EmptyString fields (f ++ String t rest) =
  read_from InField f fields (String t rest).
Proof.
  intros H Ht. destruct f as [|c f].
  - cbn [append read_from]. unfold ends_field in Ht.
    destruct (Ascii.eqb_spec t CR) as [->|]; [reflexivity|].
    destruct (Ascii.eqb_spec t LF) as [->|]; [reflexivity|].
    destruct (Ascii.eqb_spec t delimiter) as [->|]; [reflexivity|discriminate].
  - cbn [has_special] in H. apply orb_false_iff in H as [Hc Hf].
    destruct (not_special c Hc) as (H1 & H2 & H3 & H4).
    cbn [append]. cbn [read_from]. rewrite H1, H2, H3, H4.
    now rewrite in_field_plain.
Qed.

Lemma in_quoted_field f : forall cur fields t rest,
  ends_field t = true ->
  read_from InQuotedField cur fields
    (double_quotes f ++ String quotechar (String t rest)) =
  read_from InField (cur ++ f) fields (String t rest).
Proof.
  induction f as [|c f IH]; intros cur fields t rest Ht.
  - rewrite append_nil_r. cbn [double_quotes append read_from].
    rewrite Ascii.eqb_refl. unfold ends_field in Ht.
    destruct (Ascii.eqb_spec t quotechar) as [->|]; [discriminate|].
    destruct (Ascii.eqb_spec t delimiter) as [->|]; [reflexivity|].
    destruct (Ascii.eqb_spec t CR) as [->|]; [reflexivity|].
    destruct (Ascii.eqb_spec t LF) as [->|]; [reflexivity|discriminate].
  - cbn [double_quotes].
    destruct (Ascii.eqb_spec c quotechar) as [->|Hc].
    + cbn [append read_from]. rewrite !Ascii.eqb_refl.
      rewrite IH by assumption. now rewrite append_assoc.
    + cbn [append read_from].
      apply Ascii.eqb_neq in Hc. rewrite Hc, IH by assumption.
      now rewrite append_assoc.
Qed.

Lemma start_field_field f fields t rest :
  ends_field t = true ->
  read_from StartField EmptyString fields (field f ++ String t rest) =
  read_from InField f fields (String t rest).
Proof.
  intros Ht. unfold field. destruct (has_special f) eqn:H.
  - cbn [append read_from]. change (quotechar =? CR)%char with false.
    change (quotechar =? LF)%char with false. rewrite Ascii.eqb_refl.
    rewrite append_assoc. cbn [append].
    now rewrite in_quoted_field.
  - now apply start_field_plain.
Qed.

Lemma start_field_fields fs : forall fields rest,
  fs <> [] ->
  read_from StartField EmptyString fields
    (join (map field fs) ++ lineterminator ++ rest) =
  (fields ++ fs)%list :: read_from StartRecord EmptyString [] rest.
Proof.
  induction fs as [|f fs IH]; intros fields rest Hne; [congruence|].
  destruct fs as [|f2 fs].
  - cbn [map join]. unfold lineterminator. cbn [append].
    rewrite start_field_field by reflexivity. reflexivity.
  - cbn [map join]. cbn [map] in IH. rewrite append_assoc. cbn [append].
    rewrite start_field_field by reflexivity.
    cbn [read_from]. change (delimiter =? CR)%char with false.
    change (delimiter =? LF)%char with false. rewrite Ascii.eqb_refl.
    rewrite IH by discriminate. now rewrite <- app_assoc.
Qed.

Lemma start_record_char c rest :
  (c =? CR)%char = false -> (c =? LF)%char = false ->
  read_from StartRecord EmptyString [] (String c rest) =
  read_from StartField EmptyString [] (String c rest).
Proof. intros H1 H2. cbn [read_from]. now rewrite H1, H2. Qed.

Lemma field_first f rest :
  f <> EmptyString ->
  exists c r, (field f ++ rest)%string = String c r /\
              (c =? CR)%char = false /\ (c =? LF)%char = false.
Proof.
  intros Hne. unfold field. destruct (has_special f) eqn:H.
  - cbn [append]. eauto.
  - destruct f as [|c f]; [congruence|]. cbn [has_special] in H.
    apply orb_false_iff in H as [Hc _].
    destruct (not_special c Hc) as (_ & _ & H3 & H4). cbn [append]. eauto.
Qed.

Lemma read_row row rest :
  read_from StartRecord EmptyString [] (row_text row ++ rest) =
  row :: read_from StartRecord EmptyString [] rest.
Proof.
  destruct row as [|f fs]; [reflexivity|].
  assert (G : read_from StartRecord EmptyString []
                ((join (map field (f :: fs)) ++ lineterminator) ++ rest) =
              (f :: fs) :: read_from StartRecord EmptyString [] rest ->
          f <> EmptyString \/ fs <> [] ->
          read_from StartRecord EmptyString [] (row_text (f :: fs) ++ rest) =
          (f :: fs) :: read_from StartRecord EmptyString [] rest).
  { intros G [Hf|Hfs]; unfold row_text.
    - destruct f; [congruence|]. exact G.
    - destruct f; [|exact G]. destruct fs; [congruence|exact G]. }
  destruct f as [|c f].
  - destruct fs as [|f2 fs]; [reflexivity|].
    apply G; [|right; discriminate]. rewrite append_assoc.
    transitivity (read_from StartField EmptyString [EmptyString]
                    (join (map field (f2 :: fs)) ++ lineterminator ++ rest));
      [reflexivity|].
    now rewrite start_field_fields by discriminate.
  - apply G; [|left; discriminate]. rewrite append_assoc.
    assert (E : exists c' r,
               (join (map field (String c f :: fs)) ++ lineterminator ++ rest)%string
               = String c' r /\ (c' =? CR)%char = false /\ (c' =? LF)%char = false).
    { destruct fs as [|f2 fs]; cbn [map join].
      - apply field_first. discriminate.
      - rewrite append_assoc. apply field_first. discriminate. }
    destruct E as (c' & r & E & H1 & H2).
    rewrite E, start_record_char, <- E by assumption.
    apply (start_field_fields (String c f :: fs) [] rest). discriminate.
Qed.

(** Reading back what the writer wrote gives the rows that were written:
    as many records as rows, each with its cells in order. *)
Lemma read_rows rows :
  read (String.concat EmptyString (map row_text rows)) = rows.
Proof.
  unfold read. induction rows as [|row rows IH]; [reflexivity|].
  cbn [map]. destruct rows as [|row2 rows].
  - cbn [String.concat map]. rewrite <- (append_nil_r (row_text row)).
    now rewrite read_row.
  - cbn [map String.concat append] in *.
    rewrite read_row. now rewrite IH.
Qed.

End CsvRoundTrip.

(** * The CSV writer *)

Lemma writeheader_Product : Csv.writeheader fields_Product = Ok header_line.
Proof. reflexivity. Qed.

Lemma str_fits n : fits n = true -> Py.str n = Ok (Py.str_int n).
Proof. unfold fits, Py.str. now intros ->. Qed.

Lemma str_not_fits n : fits n = false -> Py.str n = Raise ValueError.
Proof. unfold fits, Py.str. now intros ->. Qed.

(** The cells of a record, as [writerow] converts them. *)
Lemma cells_Product p :
  printable p = true ->
  map_result Csv.cell_text
    [ match title p with Some t => Csv.VStr t | None => Csv.VNone end;
      Csv.VStr (description p); Csv.VFloat (price p);
      Csv.VInt (rating p); Csv.VInt (num_of_reviews p) ]
  = Ok (product_cells p).
Proof.
  unfold printable. intros H. apply andb_prop in H as [Hr Hn].
  unfold product_cells. cbn [map_result Csv.cell_text].
  rewrite (str_fits _ Hr), (str_fits _ Hn). now destruct (title p).
Qed.

Lemma writerow_Product p :
  printable p = true ->
  Csv.writerow fields_Product (asdict p) = Ok (Csv.row_text (product_cells p)).
Proof.
  intros H. pose proof (cells_Product p H) as C.
  unfold asdict, Csv.writerow, Csv.dict_to_list, fields_Product.
  cbn [forallb existsb fst String.eqb Ascii.eqb Bool.eqb andb orb map Csv.get rbind].
  now rewrite C.
Qed.

(** A count too long to print makes [writerow] raise. *)
Lemma writerow_unprintable p :
  printable p = false ->
  Csv.writerow fields_Product (asdict p) = Raise ValueError.
Proof.
  unfold printable. intros H.
  unfold asdict, Csv.writerow, Csv.dict_to_list, fields_Product.
  cbn [forallb existsb fst String.eqb Ascii.eqb Bool.eqb andb orb map Csv.get rbind].
  cbn [map_result Csv.cell_text rbind].
  destruct (title p); cbn [rbind];
    (destruct (fits (rating p)) eqn:Hr;
     [ rewrite (str_fits _ Hr); cbn [rbind];
       cbn [andb] in H; now rewrite (str_not_fits _ H)
     | now rewrite (str_not_fits _ Hr) ]).
Qed.

(** ** Names that [open] accepts *)

Lemma name_char_no_nul s :
  all_chars name_char s = true ->
  existsb (Ascii.eqb "000") (list_ascii_of_string s) = false.
Proof.
  induction s as [|c s IH]; [reflexivity|]. cbn [all_chars list_ascii_of_string existsb].
  intros H. apply andb_prop in H as [Hc Hs]. rewrite (IH Hs), orb_false_r.
  destruct (Ascii.eqb_spec "000" c) as [<-|]; [discriminate|reflexivity].
Qed.

Lemma name_char_no_slash s :
  all_chars name_char s = true ->
  all_chars (fun c => negb ("/" =? c)%char) s = true.
Proof.
  apply all_chars_impl. intros c Hc. apply negb_true_iff.
  destruct (Ascii.eqb_spec "/" c) as [<-|]; [discriminate|reflexivity].
Qed.

(** [open] accepts every plain name. *)
Lemma plain_name_accepted filename :
  plain_name filename = true -> refused filename = None.
Proof.
  unfold plain_name. intros H.
  apply andb_prop in H as [H Hc]. apply andb_prop in H as [H Hl].
  apply andb_prop in H as [H H3]. apply andb_prop in H as [H1 H2].
  apply negb_true_iff in H1, H2, H3. apply Nat.leb_le in Hl.
  unfold refused. rewrite (name_char_no_nul _ Hc).
  replace (String.length filename =? 0)%nat with false.
  2:{ symmetry. apply Nat.eqb_neq. destruct filename; [discriminate|cbn; lia]. }
  replace (4095 <? String.length filename)%nat with false
    by (symmetry; apply Nat.ltb_ge; lia).
  cbn [orb]. change "/" with (String "/" EmptyString).
  rewrite (split_from_none "/" filename EmptyString (name_char_no_slash _ Hc)).
  cbn [append last existsb].
  replace (255 <? String.length filename)%nat with false
    by (symmetry; apply Nat.ltb_ge; lia).
  cbn [orb]. now rewrite H1, H2, H3.
Qed.

Lemma concat_cons x xs :
  String.concat EmptyString (x :: xs) = (x ++ String.concat EmptyString xs)%string.
Proof. destruct xs; cbn [String.concat append]; [now rewrite append_nil_r|reflexivity]. Qed.

Lemma data_lines_concat products :
  data_lines products =
  String.concat EmptyString (map Csv.row_text (map product_cells products)).
Proof.
  induction products as [|p ps IH]; [reflexivity|].
  cbn [map data_lines]. now rewrite concat_cons, IH.
Qed.

Lemma remove_file_idem name fs :
  remove_file name (remove_file name fs) = remove_file name fs.
Proof.
  induction fs as [|[k v] fs IH]; [reflexivity|]. cbn [remove_file].
  destruct (k =? name)%string eqn:E; [exact IH|].
  cbn [remove_file]. now rewrite E, IH.
Qed.

Section Writer.

Variable World : Type.
#[local] Abbreviation state := (state World).

Lemma file_write_with_file filename content text (s : state) :
  file_write World filename text (with_file filename content s) =
  Returned tt (with_file filename (content ++ text) s).
Proof.
  unfold file_write, with_file. cbn [files browser log read_file remove_file].
  now rewrite String.eqb_refl, remove_file_idem.
Qed.

Lemma write_rows filename products : forall content (s : state),
  forallb printable products = true ->
  for_each World products
    (fun obj =>
       bind World (lift World (Csv.writerow fields_Product (asdict obj)))
         (fun line => file_write World filename line))
    (with_file filename content s) =
  Returned tt (with_file filename (content ++ data_lines products) s).
Proof.
  induction products as [|p ps IH]; intros content s H.
  - cbn [for_each data_lines]. now rewrite append_nil_r.
  - cbn [forallb] in H. apply andb_prop in H as [Hp Hps].
    cbn [for_each data_lines]. unfold bind at 1. unfold bind at 1.
    rewrite (writerow_Product p Hp). cbn [lift].
    rewrite file_write_with_file, IH by assumption. now rewrite append_assoc.
Qed.

(** The loop of the writer stops at the first record that cannot be
    printed; the lines of the records before it are in the file. *)
Lemma write_rows_stop filename written p rest : forall content (s : state),
  forallb printable written = true -> printable p = false ->
  for_each World (written ++ p :: rest)
    (fun obj =>
       bind World (lift World (Csv.writerow fields_Product (asdict obj)))
         (fun line => file_write World filename line))
    (with_file filename content s) =
  Raised ValueError (with_file filename (content ++ data_lines written) s).
Proof.
  induction written as [|q qs IH]; intros content s H Hp.
  - cbn [app for_each data_lines]. unfold bind at 1. unfold bind at 1.
    rewrite (writerow_unprintable p Hp). cbn [lift]. now rewrite append_nil_r.
  - cbn [forallb] in H. apply andb_prop in H as [Hq Hqs].
    cbn [app for_each data_lines]. unfold bind at 1. unfold bind at 1.
    rewrite (writerow_Product q Hq). cbn [lift].
    rewrite file_write_with_file, IH by assumption. now rewrite append_assoc.
Qed.

(** A list of records, cut at the first that cannot be printed. *)
Lemma first_unprintable products :
  forallb printable products = false ->
  exists written p rest,
    products = (written ++ p :: rest)%list /\
    forallb printable written = true /\ printable p = false.
Proof.
  induction products as [|q qs IH]; [discriminate|]. cbn [forallb].
  destruct (printable q) eqn:Hq.
  - cbn [andb]. intros H. destruct (IH H) as (w & p & r & -> & Hw & Hp).
    exists (q :: w), p, r. cbn [forallb]. now rewrite Hq, Hw.
  - intros _. now exists [], q, qs.
Qed.

(** The state once the file is open. *)
Lemma write_to_csv_opened products filename (s : state) :
  refused filename = None ->
  write_to_csv World products filename s =
  for_each World products
    (fun obj =>
       bind World (lift World (Csv.writerow fields_Product (asdict obj)))
         (fun line => file_write World filename line))
    (with_file filename header_line
       (Build_state World (browser s) (files s)
          (log s ++ [OpenForWriting filename])%list)).
Proof.
  intros Hn. unfold write_to_csv. unfold bind at 1. unfold open_w. rewrite Hn.
  unfold bind at 1. rewrite writeheader_Product. cbn [lift].
  unfold bind at 1.
  set (s1 := Build_state World (browser s) (files s) (logged World (OpenForWriting filename) s)).
  change (Build_state World (browser s)
            ((filename, EmptyString) :: remove_file filename (files s))
            (logged World (OpenForWriting filename) s))
    with (with_file filename EmptyString s1).
  now rewrite file_write_with_file.
Qed.

(** With a name that [open] accepts and records that can be printed,
    [write_to_csv] returns; it touches the named file only. *)
Lemma write_to_csv_returns products filename (s : state) :
  refused filename = None -> forallb printable products = true ->
  write_to_csv World products filename s =
  Returned tt
    (Build_state World (browser s)
       ((filename, header_line ++ data_lines products)%string
          :: remove_file filename (files s))
       (log s ++ [OpenForWriting filename])%list).
Proof.
  intros Hn Hp. rewrite write_to_csv_opened by assumption.
  now rewrite write_rows.
Qed.

(** What [write_to_csv] does, in every case. *)
Lemma write_to_csv_outcome products filename (s : state) :
  match refused filename with
  | Some e => write_to_csv World products filename s = Raised e s
  | None =>
      exists written,
        (if forallb printable products
         then written = products /\
              write_to_csv World products filename s =
              Returned tt
                (with_file filename (header_line ++ data_lines written)
                   (Build_state World (browser s) (files s)
                      (log s ++ [OpenForWriting filename])%list))
         else write_to_csv World products filename s =
              Raised ValueError
                (with_file filename (header_line ++ data_lines written)
                   (Build_state World (browser s) (files s)
                      (log s ++ [OpenForWriting filename])%list)))
  end.
Proof.
  destruct (refused filename) as [e|] eqn:Hn.
  - unfold write_to_csv. unfold bind at 1. unfold open_w. now rewrite Hn.
  - rewrite write_to_csv_opened by assumption.
    destruct (forallb printable products) eqn:Hp.
    + exists products. split; [reflexivity|]. now rewrite write_rows.
    + destruct (first_unprintable products Hp) as (w & p & r & -> & Hw & Hq).
      exists w. now rewrite write_rows_stop.
Qed.

Lemma read_written products :
  CsvReader.read (header_line ++ data_lines products) =
  fields_Product :: map product_cells products.
Proof.
  rewrite data_lines_concat.
  change header_line with (Csv.row_text fields_Product).
  rewrite <- concat_cons.
  change (Csv.row_text fields_Product :: map Csv.row_text (map product_cells products))
    with (map Csv.row_text (fields_Product :: map product_cells products)).
  apply read_rows.
Qed.


End Writer.

(** * What the harvester hands to the writer *)

(** The counts of a record [get_product] has made can be printed: the
    rating is the length of a list, the review count was read by [int]. *)

Lemma first_items_length {A} (xs : list A) : forall n,
  Z.of_nat (List.length (Py.first_items n xs)) <= Z.max 0 n.
Proof.
  induction xs as [|x xs IH]; intros n; cbn [Py.first_items]; [cbn; lia|].
  destruct (Z.ltb_spec 0 n); [|cbn; lia].
  cbn [List.length]. specialize (IH (n - 1)). lia.
Qed.

Lemma first_items_In {A} (x : A) xs : forall n,
  In x (Py.first_items n xs) -> In x xs.
Proof.
  induction xs as [|y xs IH]; intros n; cbn [Py.first_items]; [tauto|].
  destruct (0 <? n); [|intros []].
  intros [->|H]; [now left|right; now apply (IH (n - 1))].
Qed.

Lemma maxsize_fits : Py.maxsize < 10 ^ Py.max_str_digits.
Proof. lazy. reflexivity. Qed.

Lemma length_fits {A} (xs : list A) :
  fits (Z.of_nat (List.length (Py.list_of xs))) = true.
Proof.
  unfold fits. apply Z.ltb_lt. rewrite Z.abs_eq by lia.
  pose proof (first_items_length xs Py.maxsize) as H. fold (Py.list_of xs) in H.
  pose proof maxsize_fits.
  assert (0 <= Py.maxsize) by (vm_compute; discriminate). lia.
Qed.

Lemma digit_of_range c : Py.is_digit c = true -> 0 <= Py.digit_of c <= 9.
Proof.
  unfold Py.is_digit, Py.digit_of. intros H. apply andb_prop in H as [H1 H2].
  apply N.leb_le in H1, H2. lia.
Qed.

Lemma digits_val_bound ds :
  all_chars Py.is_digit ds = true ->
  0 <= Py.digits_val 0 ds < 10 ^ Z.of_nat (String.length ds).
Proof.
  induction ds as [|c ds IH]; [cbn; lia|]. cbn [all_chars]. intros H.
  apply andb_prop in H as [Hc Hd]. specialize (IH Hd).
  cbn [Py.digits_val String.length]. rewrite digits_val_shift.
  rewrite Nat2Z.inj_succ, Z.pow_succ_r by lia.
  pose proof (digit_of_range c Hc). nia.
Qed.

(** A digit group is made of digits. *)
Lemma digits_tail_digits n : forall s,
  (String.length s <= n)%nat -> all_chars Py.is_digit (fst (Py.digits_tail s)) = true.
Proof.
  induction n as [|n IH]; intros s Hlen.
  - destruct s; [reflexivity|simpl in Hlen; lia].
  - destruct s as [|c s]; [reflexivity|].
    cbn [Py.digits_tail]. simpl in Hlen.
    destruct (Py.is_digit c) eqn:Hc.
    + specialize (IH s ltac:(lia)).
      destruct (Py.digits_tail s) as [ds' r']. cbn [fst all_chars] in *.
      now rewrite Hc.
    + destruct (c =? "_")%char; [|reflexivity].
      destruct s as [|d s]; [reflexivity|].
      destruct (Py.is_digit d) eqn:Hd; [|reflexivity].
      simpl in Hlen. specialize (IH s ltac:(lia)).
      destruct (Py.digits_tail s) as [ds' r']. cbn [fst all_chars] in *.
      now rewrite Hd.
Qed.

Lemma digitpart_digits s ds r :
  Py.digitpart s = Some (ds, r) -> all_chars Py.is_digit ds = true.
Proof.
  destruct s as [|c s]; [discriminate|]. unfold Py.digitpart.
  destruct (Py.is_digit c) eqn:Hc; [|discriminate].
  pose proof (digits_tail_digits _ s (le_n _)) as H.
  destruct (Py.digits_tail s) as [ds' r']. intros [= <- _]. cbn [fst] in H.
  cbn [all_chars]. now rewrite Hc.
Qed.

(** What [int] gives has 4300 digits at most. *)
Lemma int_fits t n : Py.int t = Ok n -> fits n = true.
Proof.
  unfold Py.int. destruct (Py.sign_of (Py.strip t)) as [neg body].
  destruct (Py.digitpart body) as [[ds [|c r]]|] eqn:D; try discriminate.
  destruct (Z.ltb_spec Py.max_str_digits (Z.of_nat (String.length ds))) as [|Hl];
    [discriminate|].
  intros [= <-]. pose proof (digits_val_bound ds (digitpart_digits _ _ _ D)) as B.
  assert (P : 10 ^ Z.of_nat (String.length ds) <= 10 ^ Py.max_str_digits)
    by (apply Z.pow_le_mono_r; lia).
  unfold fits. apply Z.ltb_lt. destruct neg; lia.
Qed.

Lemma parse_num_of_reviews_fits t n : parse_num_of_reviews t = Ok n -> fits n = true.
Proof.
  unfold parse_num_of_reviews.
  destruct (Py.split t " ") as [tokens|]; cbn [rbind]; [|discriminate].
  destruct (Py.getitem tokens 0) as [token|]; cbn [rbind]; [|discriminate].
  apply int_fits.
Qed.

Lemma get_product_printable product_card p :
  get_product product_card = Ok p -> printable p = true.
Proof.
  unfold get_product.
  destruct (find_element CLASS_NAME "title" product_card); cbn [rbind]; [|discriminate].
  destruct (find_element CLASS_NAME "description" product_card); cbn [rbind];
    [|discriminate].
  destruct (find_element CLASS_NAME "price" product_card); cbn [rbind]; [|discriminate].
  destruct (parse_price _); cbn [rbind]; [|discriminate].
  destruct (find_element CLASS_NAME "ratings" product_card); cbn [rbind]; [|discriminate].
  destruct (parse_num_of_reviews _) as [n|] eqn:En; cbn [rbind]; [|discriminate].
  intros [= <-]. unfold printable. cbn [rating num_of_reviews].
  unfold find_elements. now rewrite length_fits, (parse_num_of_reviews_fits _ _ En).
Qed.

Lemma map_result_forallb {A B} (f : A -> result B) (ok : B -> bool) xs :
  (forall x y, f x = Ok y -> ok y = true) ->
  forall ys, map_result f xs = Ok ys -> forallb ok ys = true.
Proof.
  intros H. induction xs as [|x xs IH]; intros ys; cbn [map_result].
  - now intros [= <-].
  - destruct (f x) as [y|] eqn:Ex; cbn [rbind]; [|discriminate].
    destruct (map_result f xs) as [ys'|]; cbn [rbind]; [|discriminate].
    intros [= <-]. cbn [forallb]. now rewrite (H _ _ Ex), (IH ys').
Qed.

(** * The orchestrator *)

Section Orchestrator.

Variable World : Type.
Variable document : World -> element.
Variable load : string -> World -> World.
Variable click : element -> World -> World.
Variable script_click : element -> World -> World.

#[local] Abbreviation state := (state World).
#[local] Abbreviation M := (M World).
#[local] Abbreviation harvest := (parse_product_card World document script_click).
#[local] Abbreviation navigate := (click_link World document click).
#[local] Abbreviation run := (get_all_products World document load click script_click).

Lemma bind_assoc {A B C} (m : M A) (f : A -> M B) (g : B -> M C) s :
  bind World (bind World m f) g s = bind World m (fun a => bind World (f a) g) s.
Proof. unfold bind. now destruct (m s). Qed.

Lemma bind_cong {A B} (m : M A) (f g : A -> M B) s :
  (forall a s', f a s' = g a s') -> bind World m f s = bind World m g s.
Proof. intros H. unfold bind. now destruct (m s). Qed.

Lemma bind_ret_l {A B} (a : A) (f : A -> M B) s :
  bind World (ret World a) f s = f a s.
Proof. reflexivity. Qed.

Lemma bind_ret_tt (m : M unit) s :
  bind World m (fun _ => ret World tt) s = m s.
Proof. unfold bind, ret. destruct (m s) as [[] ?| |]; reflexivity. Qed.

Lemma run_is_run_categories fuel s : run fuel s = run_categories document load click script_click fuel s.
Proof.
  unfold get_all_products, run_categories, categories, default_max_products.
  cbn [for_each process_category].
  repeat (apply bind_cong; intros).
  repeat first
    [ rewrite bind_ret_l
    | rewrite bind_assoc
    | rewrite bind_ret_tt
    | reflexivity
    | apply bind_cong; intros ].
Qed.

Lemma milestones_app l1 l2 :
  milestones (l1 ++ l2) = (milestones l1 ++ milestones l2)%list.
Proof. apply filter_app. Qed.

Lemma milestones_script_clicks clicks :
  forallb is_script_click clicks = true -> milestones clicks = [].
Proof.
  induction clicks as [|a l IH]; [reflexivity|]. cbn [forallb].
  intros H. apply andb_prop in H as [Ha Hl].
  destruct a; try discriminate. cbn [milestones filter]. now apply IH.
Qed.

Lemma find_element_matches by_ value root e :
  find_element by_ value root = Ok e -> matches by_ value e = true.
Proof.
  unfold find_element, find_elements.
  destruct (filter (matches by_ value) (descendants root)) as [|x l] eqn:E;
    [discriminate|].
  intros [= <-].
  assert (In x (filter (matches by_ value) (descendants root)))
    by (rewrite E; now left).
  now apply filter_In in H.
Qed.

(** The harvester adds only script clicks to the log. *)
Lemma harvest_log fuel max_products (s : state) :
  match harvest fuel max_products s with
  | Returned _ s' | Raised _ s' =>
      exists clicks, log s' = (log s ++ clicks)%list /\ milestones clicks = []
  | OutOfFuel => True
  end.
Proof.
  unfold parse_product_card. unfold bind at 1.
  assert (P : match (if truthy max_products
                     then execute_more_pagination_script World document script_click
                            fuel max_products
                     else ret World tt) s with
              | Returned _ s' =>
                  exists clicks, log s' = (log s ++ clicks)%list /\ milestones clicks = []
              | Raised _ _ => False
              | OutOfFuel => True
              end).
  { destruct (truthy max_products).
    - destruct (execute_more_pagination_script World document script_click
                  fuel max_products s) as [[] s'|e s'|] eqn:E.
      + apply paginate_returned, paginated_log in E as (_ & clicks & Hl & Hc).
        exists clicks. split; [exact Hl|]. now apply milestones_script_clicks.
      + now apply paginate_never_raises in E.
      + exact I.
    - exists []. now rewrite app_nil_r. }
  destruct ((if truthy max_products
             then execute_more_pagination_script World document script_click
                    fuel max_products
             else ret World tt) s) as [[] s'|e s'|]; [|contradiction|exact I].
  unfold bind, driver_find_elements, lift.
  destruct (map_result get_product _); exact P.
Qed.

(** The records the harvester returns can be printed. *)
Lemma harvest_printable fuel max_products (s s' : state) products :
  harvest fuel max_products s = Returned products s' ->
  forallb printable products = true.
Proof.
  unfold parse_product_card. unfold bind at 1.
  destruct ((if truthy max_products
             then execute_more_pagination_script World document script_click
                    fuel max_products
             else ret World tt) s) as [[] s1|e s1|]; [|discriminate|discriminate].
  unfold bind, driver_find_elements, lift.
  destruct (map_result get_product _) as [ps|] eqn:E; [|discriminate].
  intros [= <- _]. revert E. apply map_result_forallb. apply get_product_printable.
Qed.

Lemma navigate_log name (s : state) :
  match navigate name s with
  | Returned _ s' =>
      exists el, matches LINK_TEXT name el = true /\
                 log s' = (log s ++ [Click el])%list
  | Raised _ s' => s' = s
  | OutOfFuel => False
  end.
Proof.
  unfold click_link, bind, driver_find_element, lift.
  destruct (find_element LINK_TEXT name (document (browser s))) as [el|e] eqn:E.
  - exists el. split; [now apply find_element_matches in E|reflexivity].
  - reflexivity.
Qed.

Lemma process_category_log fuel c (s : state) :
  refused (snd c) = None ->
  shows_run s (process_category document click script_click fuel c s) (category_milestones c).
Proof.
  destruct c as [[nav target_count] filename]. cbn [snd]. intros Hname.
  unfold process_category.
  assert (N : match nav with
              | Some name =>
                  match navigate name s with
                  | Returned _ s' =>
                      exists el, matches LINK_TEXT name el = true /\
                                 log s' = (log s ++ [Click el])%list
                  | Raised _ s' => s' = s
                  | OutOfFuel => False
                  end
              | None => True
              end).
  { destruct nav; [apply navigate_log|exact I]. }
  unfold bind at 1.
  destruct nav as [name|].
  - destruct (navigate name s) as [[] s1|e s1|]; [|subst s1|contradiction].
    + destruct N as (el & Hel & Hl1).
      pose proof (harvest_log fuel target_count s1) as H. unfold bind at 1.
      destruct (harvest fuel target_count s1) as [ps s2|e s2|] eqn:EH; [| |exact I].
      * destruct H as (clicks & Hl2 & Hc).
        rewrite write_to_csv_returns by eauto using harvest_printable.
        cbn [shows_run log category_milestones].
        exists ([Click el] ++ clicks ++ [OpenForWriting filename])%list. split.
        { rewrite Hl2, Hl1, <- !app_assoc. reflexivity. }
        rewrite !milestones_app, Hc. cbn.
        repeat constructor. exact Hel.
      * destruct H as (clicks & Hl2 & Hc). cbn [shows_run category_milestones].
        exists ([Click el] ++ clicks)%list, [ClicksLink name], [Writes filename].
        repeat split; [|discriminate|].
        { rewrite Hl2, Hl1, <- !app_assoc. reflexivity. }
        rewrite milestones_app, Hc. cbn. repeat constructor. exact Hel.
    + cbn [shows_run category_milestones].
      exists [], [], [ClicksLink name; Writes filename].
      repeat split; [now rewrite app_nil_r|discriminate|constructor].
  - cbn [ret]. pose proof (harvest_log fuel target_count s) as H. unfold bind at 1.
    destruct (harvest fuel target_count s) as [ps s2|e s2|] eqn:EH; [| |exact I].
    + destruct H as (clicks & Hl2 & Hc).
      rewrite write_to_csv_returns by eauto using harvest_printable.
      cbn [shows_run log category_milestones].
      exists (clicks ++ [OpenForWriting filename])%list. split.
      { rewrite Hl2, <- !app_assoc. reflexivity. }
      rewrite !milestones_app, Hc. cbn. repeat constructor.
    + destruct H as (clicks & Hl2 & Hc). cbn [shows_run category_milestones].
      exists clicks, [], [Writes filename].
      repeat split; [exact Hl2|discriminate|rewrite Hc; constructor].
Qed.

Lemma walk_log fuel cs : forall s : state,
  Forall (fun c => refused (snd c) = None) cs ->
  shows_run s (for_each World cs (process_category document click script_click fuel) s)
    (flat_map category_milestones cs).
Proof.
  induction cs as [|c cs IH]; intros s Hnames.
  - cbn. exists []. split; [now rewrite app_nil_r|constructor].
  - inversion Hnames as [|? ? Hc Hcs]; subst.
    cbn [for_each flat_map]. unfold bind at 1.
    pose proof (process_category_log fuel c s Hc) as H.
    destruct (process_category document click script_click fuel c s) as [[] s1|e s1|]; [| |exact I].
    + destruct H as (l1 & Hl1 & H1). specialize (IH s1 Hcs).
      destruct (for_each World cs (process_category document click script_click fuel) s1) as [[] s2|e s2|];
        [| |exact I].
      * destruct IH as (l2 & Hl2 & H2). exists (l1 ++ l2)%list. split.
        { now rewrite Hl2, Hl1, <- app_assoc. }
        rewrite milestones_app. now apply Forall2_app.
      * destruct IH as (l2 & done & rest & Hl2 & He & Hr & H2).
        exists (l1 ++ l2)%list, (category_milestones c ++ done)%list, rest.
        repeat split; [|now rewrite He, app_assoc|exact Hr|].
        { now rewrite Hl2, Hl1, <- app_assoc. }
        rewrite milestones_app. now apply Forall2_app.
    + destruct H as (l1 & done & rest & Hl1 & He & Hr & H1).
      exists l1, done, (rest ++ flat_map category_milestones cs)%list.
      repeat split; [exact Hl1|now rewrite He, app_assoc| |exact H1].
      destruct rest; [congruence|discriminate].
Qed.


End Orchestrator.

(** ** Beyond the limit of [str] and [int] *)

Lemma not_fits_limit : fits (10 ^ Py.max_str_digits) = false.
Proof.
  unfold fits. rewrite Z.abs_eq by (apply Z.pow_nonneg; lia). apply Z.ltb_irrefl.
Qed.

(** [int] refuses a numeral of more than 4300 digits. *)
Lemma int_digits_long ds :
  ds <> EmptyString -> all_chars Py.is_digit ds = true ->
  Py.max_str_digits < Z.of_nat (String.length ds) ->
  Py.int ds = Raise ValueError.
Proof.
  intros Hne Hall Hlen. unfold Py.int.
  rewrite strip_id by now apply digits_no_space.
  destruct ds as [|c ds]; [congruence|].
  pose proof Hall as Hall'. simpl in Hall'. apply andb_prop in Hall' as [Hc _].
  rewrite sign_of_digit by assumption.
  pose proof (digitpart_app (String c ds) EmptyString Hne Hall eq_refl) as E.
  rewrite append_nil_r in E. rewrite E.
  destruct (Z.ltb_spec Py.max_str_digits (Z.of_nat (String.length (String c ds))));
    [reflexivity|lia].
Qed.

(** The numeral of an integer from [10^4300] on has more than 4300
    digits, and the review-count step raises on it. *)
Lemma parse_num_of_reviews_too_long n s :
  10 ^ Py.max_str_digits <= n ->
  parse_num_of_reviews (Py.str_int n ++ " " ++ s) = Raise ValueError.
Proof.
  intros Hn.
  assert (H0 : 0 < 10 ^ Py.max_str_digits)
    by (apply Z.pow_pos_nonneg; [lia|rewrite max_str_digits_nat; lia]).
  destruct (str_int_nonneg n) as (Hne & Hall & Hval); [lia|].
  pose proof (digits_val_bound (Py.str_int n) Hall) as Hb. rewrite Hval in Hb.
  assert (Hlen : Py.max_str_digits < Z.of_nat (String.length (Py.str_int n))).
  { apply (Z.pow_lt_mono_r_iff 10 Py.max_str_digits
             (Z.of_nat (String.length (Py.str_int n)))); [lia|lia|].
    apply Z.le_lt_trans with n; [exact Hn|exact (proj2 Hb)]. }
  unfold parse_num_of_reviews, Py.split.
  change (" " ++ s)%string with (String " " s).
  rewrite split_from_first.
  - cbn [rbind Py.getitem nth_error append]. now apply int_digits_long.
  - revert Hall. apply all_chars_impl. intros c Hc.
    apply negb_true_iff. rewrite Ascii.eqb_sym. now apply digit_neq.
Qed.

(** C3 as stated fails beyond 4300 digits: for [n = 10^4300] the text
    cannot be made, [str(n)] raising ValueError, and the review-count step
    raises ValueError on the numeral of [n] followed by " reviews": [int]
    refuses a numeral of 4301 digits. *)
Lemma review_count_beyond_limit :
  Py.str (10 ^ 4300) = Raise ValueError /\
  parse_num_of_reviews (Py.str_int (10 ^ 4300) ++ " " ++ "reviews") = Raise ValueError /\
  parse_num_of_reviews (Py.str_int (10 ^ 4300) ++ " " ++ "reviews") <> Ok (10 ^ 4300).
Proof.
  change 4300 with Py.max_str_digits.
  pose proof (parse_num_of_reviews_too_long (10 ^ Py.max_str_digits) "reviews"
                (Z.le_refl _)) as H.
  split; [apply str_not_fits, not_fits_limit|].
  split; [exact H|]. rewrite H. discriminate.
Qed.




Example shop_run :
  execute_more_pagination_script nat (Shop.page 9) (Shop.activate 9) 10 6 (Shop.start 1%nat)
  = Returned tt
      (Build_state nat 7%nat []
         [ScriptClick Shop.more; ScriptClick Shop.more; ScriptClick Shop.more]).
Proof. vm_compute. reflexivity. Qed.

Lemma pagination_stops_at_target_witness :
  execute_more_pagination_script nat (Shop.page 9) (Shop.activate 9) 1 3 (Shop.start 5%nat)
  = Returned tt (Shop.start 5%nat) /\
  execute_more_pagination_script nat (Shop.page 2) (Shop.activate 2) 1 3 (Shop.start 2%nat)
  = Returned tt (Shop.start 2%nat).
Proof.
  split.
  - apply (proj1 (pagination_stops_at_target nat (Shop.page 9) (Shop.activate 9)
                    3 (Shop.start 5%nat) 0 ltac:(lia))).
    vm_compute. discriminate.
  - apply (proj1 (proj2 (pagination_stops_at_target nat (Shop.page 2) (Shop.activate 2)
                           3 (Shop.start 2%nat) 0 ltac:(lia)))).
    + vm_compute. reflexivity.
    + vm_compute. reflexivity.
Defined.

Lemma pagination_never_returns_witness :
  execute_more_pagination_script unit Shop.stuck_page Shop.stuck 100 3 (Shop.start tt)
  = OutOfFuel.
Proof.
  apply (proj1 (pagination_never_returns unit Shop.stuck_page Shop.stuck 3 (Shop.start tt)
                  ltac:(intros [] _; exists Shop.more; vm_compute; reflexivity)
                  ltac:(intros [] b _ _; vm_compute; discriminate)
                  ltac:(intros [] _; vm_compute; reflexivity)) 100%nat).
Defined.

Lemma harvest_five_cards_witness :
  parse_product_card nat (Shop.page 5) (Shop.activate 5) 1 3 (Shop.start 5%nat)
  = Returned [Shop.nth_product 0; Shop.nth_product 1; Shop.nth_product 2;
              Shop.nth_product 3; Shop.nth_product 4] (Shop.start 5%nat).
Proof.
  apply (harvest_five_cards nat (Shop.page 5) (Shop.activate 5) 0 (Shop.start 5%nat)
           (Shop.nth_card 0) (Shop.nth_card 1) (Shop.nth_card 2)
           (Shop.nth_card 3) (Shop.nth_card 4)); vm_compute; reflexivity.
Defined.

(** * More on the card parser *)

(** ** What the review-count step reads and what it raises *)

Lemma split_from_nonempty sep s : forall skip cur,
  Py.split_from sep skip cur s <> [].
Proof.
  induction s as [|c s IH]; intros skip cur; cbn [Py.split_from]; [discriminate|].
  destruct skip; [|apply IH].
  destruct (prefix sep (String c s)); [discriminate|apply IH].
Qed.

Lemma int_raises t e : Py.int t = Raise e -> e = ValueError.
Proof.
  unfold Py.int. destruct (Py.sign_of (Py.strip t)) as [neg body].
  destruct (Py.digitpart body) as [[ds [|c r]]|]; try congruence.
  destruct (Py.max_str_digits <? _); congruence.
Qed.

Lemma of_string_raises t e : PyFloat.of_string t = Raise e -> e = ValueError.
Proof.
  unfold PyFloat.of_string. destruct (Py.sign_of (Py.strip t)) as [neg body].
  destruct (_ || _); [discriminate|].
  destruct (_ =? _)%string; [discriminate|].
  destruct (PyFloat.number body) as [[m e']|]; congruence.
Qed.

(** [split] gives one piece at least, so that [[0]] never raises. *)
Lemma parse_num_of_reviews_raises t e :
  parse_num_of_reviews t = Raise e -> e = ValueError.
Proof.
  unfold parse_num_of_reviews, Py.split.
  change " " with (String " " EmptyString). cbv iota.
  pose proof (split_from_nonempty (String " " EmptyString) t O EmptyString) as Hne.
  destruct (Py.split_from (String " " EmptyString) 0 "" t) as [|token tokens];
    [congruence|].
  cbn [rbind Py.getitem nth_error]. apply int_raises.
Qed.

Lemma parse_num_of_reviews_first token rest :
  all_chars (fun c => negb (" " =? c)%char) token = true ->
  parse_num_of_reviews (token ++ " " ++ rest) = Py.int token /\
  parse_num_of_reviews token = Py.int token.
Proof.
  intros H. unfold parse_num_of_reviews, Py.split. split.
  - change (" " ++ rest)%string with (String " " rest).
    now rewrite split_from_first.
  - now rewrite split_from_none.
Qed.

Lemma int_str_int_neg n :
  - 10 ^ Py.max_str_digits < n < 0 -> Py.int (Py.str_int n) = Ok n.
Proof.
  intros Hn. unfold Py.str_int. destruct (Z.ltb_spec n 0); [|lia].
  destruct (str_int_nonneg (- n) ltac:(lia)) as (Hne & Hall & Hval).
  pose proof (str_int_digits (- n) ltac:(lia)) as Hlen.
  unfold Py.str_int in Hne, Hall, Hval, Hlen.
  destruct (Z.ltb_spec (- n) 0); [lia|].
  set (ds := Py.str_of_nonneg _ _ _) in *.
  unfold Py.int. rewrite strip_id.
  - cbn [Py.sign_of]. change ("-" =? "-")%char with true. cbv iota.
    pose proof (digitpart_app ds EmptyString Hne Hall eq_refl) as E.
    rewrite append_nil_r in E. rewrite E, Hval.
    destruct (Z.ltb_spec Py.max_str_digits (Z.of_nat (String.length ds))); [lia|].
    f_equal. lia.
  - cbn [all_chars]. change (negb (Py.is_space "-")) with true. cbn [andb].
    now apply digits_no_space.
Qed.

(** [int(str(n))] is [n], for every integer that [str] prints. *)
Lemma int_str_int_all n : fits n = true -> Py.int (Py.str_int n) = Ok n.
Proof.
  unfold fits. intros H. apply Z.ltb_lt in H.
  destruct (Z.lt_ge_cases n 0); [apply int_str_int_neg|apply int_str_int]; lia.
Qed.

Lemma str_int_no_space n :
  all_chars (fun c => negb (" " =? c)%char) (Py.str_int n) = true.
Proof.
  assert (D : forall ds, all_chars Py.is_digit ds = true ->
                         all_chars (fun c => negb (" " =? c)%char) ds = true).
  { intros ds. apply all_chars_impl. intros c Hc.
    apply negb_true_iff. rewrite Ascii.eqb_sym. now apply digit_neq. }
  destruct (Z.lt_ge_cases n 0) as [Hn|Hn].
  - destruct (str_int_nonneg (- n) ltac:(lia)) as (_ & Hall & _).
    unfold Py.str_int in *. destruct (Z.ltb_spec n 0); [|lia].
    destruct (Z.ltb_spec (- n) 0); [lia|].
    cbn [all_chars]. change (negb (" " =? "-")%char) with true. cbn [andb].
    now apply D.
  - destruct (str_int_nonneg n Hn) as (_ & Hall & _). now apply D.
Qed.

(** X1: the review-count step reads the ratings text up to its first
    space and nothing else: with a first piece [token] that holds no space,
    the result is that of [int(token)], value or ValueError, whatever
    follows the space; a text with no space at all is read whole. *)
Theorem review_count_first_token (token rest : string) :
  all_chars (fun c => negb (" " =? c)%char) token = true ->
  parse_num_of_reviews (token ++ " " ++ rest) = Py.int token /\
  parse_num_of_reviews token = Py.int token.
Proof. apply parse_num_of_reviews_first. Qed.

Lemma review_count_first_token_witness :
  parse_num_of_reviews ("many" ++ " " ++ "reviews") = Py.int "many" /\
  parse_num_of_reviews "many" = Py.int "many".
Proof. apply (review_count_first_token "many" "reviews"). reflexivity. Defined.

Lemma parse_num_of_reviews_any (n : Z) (rest : string) :
  fits n = true ->
  parse_num_of_reviews (Py.str_int n ++ " " ++ rest) = Ok n /\
  parse_num_of_reviews (Py.str_int n) = Ok n.
Proof.
  intros Hn.
  destruct (parse_num_of_reviews_first (Py.str_int n) rest (str_int_no_space n))
    as [-> ->].
  split; now apply int_str_int_all.
Qed.

(** X2: the review-count step makes no check of the sign or of what
    follows: for every integer [n] of at most 4300 digits, negative ones
    included, [str(n)] gives the numeral of [n], and the step reads [n]
    from that numeral followed by a space and any text, the empty one
    included, and from the numeral alone. *)
Theorem review_count_any_integer (n : Z) (rest : string) :
  Z.abs n < 10 ^ Py.max_str_digits ->
  Py.str n = Ok (Py.str_int n) /\
  parse_num_of_reviews (Py.str_int n ++ " " ++ rest) = Ok n /\
  parse_num_of_reviews (Py.str_int n) = Ok n.
Proof.
  intros Hn. apply Z.ltb_lt in Hn. fold (fits n) in Hn.
  split; [now apply str_fits|now apply parse_num_of_reviews_any].
Qed.

Lemma review_count_any_integer_witness :
  Py.str (-42) = Ok (Py.str_int (-42)) /\
  parse_num_of_reviews (Py.str_int (-42) ++ " " ++ "") = Ok (-42) /\
  parse_num_of_reviews (Py.str_int (-42)) = Ok (-42).
Proof. apply (review_count_any_integer (-42) ""). reflexivity. Defined.

(** X3: a ratings text that is empty or starts with a space is refused
    with ValueError: its first piece is the empty text, which [int]
    does not accept. *)
Theorem review_count_leading_space (rest : string) :
  parse_num_of_reviews (" " ++ rest) = Raise ValueError /\
  parse_num_of_reviews "" = Raise ValueError.
Proof.
  destruct (parse_num_of_reviews_first "" rest eq_refl) as [H1 H2].
  split; [exact H1|exact H2].
Qed.

(** ** What [get_product] raises *)

Lemma get_product_exn (product_card : element) (e : exn) :
  get_product product_card = Raise e ->
  e = NoSuchElementException \/ e = ValueError.
Proof.
  unfold get_product.
  destruct (find_element CLASS_NAME "title" product_card) as [t|e1] eqn:Et; cbn [rbind].
  2:{ intros [= <-]. left. now apply find_element_raises in Et. }
  destruct (find_element CLASS_NAME "description" product_card) as [d|e1] eqn:Ed; cbn [rbind].
  2:{ intros [= <-]. left. now apply find_element_raises in Ed. }
  destruct (find_element CLASS_NAME "price" product_card) as [pr|e1] eqn:Ep; cbn [rbind].
  2:{ intros [= <-]. left. now apply find_element_raises in Ep. }
  destruct (parse_price (text pr)) as [x|e1] eqn:Ex; cbn [rbind].
  2:{ intros [= <-]. right. now apply of_string_raises in Ex. }
  destruct (find_element CLASS_NAME "ratings" product_card) as [r|e1] eqn:Er; cbn [rbind].
  2:{ intros [= <-]. left. now apply find_element_raises in Er. }
  destruct (parse_num_of_reviews (text r)) as [n|e1] eqn:En; cbn [rbind].
  2:{ intros [= <-]. right. now apply parse_num_of_reviews_raises in En. }
  discriminate.
Qed.

(** X4: a card that lacks an element of class "title", "description" or
    "price" makes [get_product] raise NoSuchElementException; a card that
    lacks the "ratings" element makes it raise too: NoSuchElementException,
    or ValueError when the price text was refused before the lookup. *)
Theorem get_product_missing_element (product_card : element) (class_name : string) :
  find_elements CLASS_NAME class_name product_card = [] ->
  (In class_name ["title"; "description"; "price"] ->
   get_product product_card = Raise NoSuchElementException) /\
  (class_name = "ratings" ->
   get_product product_card = Raise NoSuchElementException \/
   get_product product_card = Raise ValueError).
Proof.
  intros Hnone.
  assert (R : find_element CLASS_NAME class_name product_card = Raise NoSuchElementException).
  { unfold find_element. now rewrite Hnone. }
  assert (N : forall c, match find_element CLASS_NAME c product_card with
                        | Ok _ => True
                        | Raise e => e = NoSuchElementException
                        end).
  { intros c. destruct (find_element CLASS_NAME c product_card) eqn:E; [exact I|].
    now apply find_element_raises in E. }
  unfold get_product.
  pose proof (N "title") as Nt. pose proof (N "description") as Nd.
  pose proof (N "price") as Np.
  split.
  - cbn [In]. intros [<-|[<-|[<-|[]]]].
    + now rewrite R.
    + destruct (find_element CLASS_NAME "title" product_card); [|subst e];
        cbn [rbind]; [|reflexivity].
      now rewrite R.
    + destruct (find_element CLASS_NAME "title" product_card); [|subst e];
        cbn [rbind]; [|reflexivity].
      destruct (find_element CLASS_NAME "description" product_card); [|subst e];
        cbn [rbind]; [|reflexivity].
      now rewrite R.
  - intros ->.
    destruct (find_element CLASS_NAME "title" product_card); [|subst e];
      cbn [rbind]; [|now left].
    destruct (find_element CLASS_NAME "description" product_card); [|subst e];
      cbn [rbind]; [|now left].
    destruct (find_element CLASS_NAME "price" product_card) as [pr|]; [|subst e];
      cbn [rbind]; [|now left].
    destruct (parse_price (text pr)) as [x|e] eqn:Ex; cbn [rbind].
    + rewrite R. now left.
    + right. now rewrite (of_string_raises _ _ Ex).
Qed.

Lemma get_product_missing_element_witness :
  get_product Demo.card_without_description = Raise NoSuchElementException.
Proof.
  apply (proj1 (get_product_missing_element Demo.card_without_description "description"
                  eq_refl)).
  cbn. auto.
Defined.

(** X5: [get_product] raises nothing but NoSuchElementException (from a
    lookup) and ValueError (from [float] or [int]); the index [[0]] after
    [split] never raises IndexError. *)
Theorem get_product_raises (product_card : element) (e : exn) :
  get_product product_card = Raise e ->
  e = NoSuchElementException \/ e = ValueError.
Proof. apply get_product_exn. Qed.

Lemma get_product_raises_witness :
  ValueError = NoSuchElementException \/ ValueError = ValueError.
Proof.
  apply (get_product_raises
           (sample_card "Lenovo Legion" "17.3 inch" "$1,299.99" "7 reviews" 4)).
  vm_compute. reflexivity.
Defined.

(** ** Floats of either sign *)

Lemma round_sign n d : PyFloat.round true n d = SFopp (PyFloat.round false n d).
Proof.
  unfold PyFloat.round.
  destruct (PyFloat.scale2 n d _) as [n' d'].
  destruct (_ =? 2 ^ PyFloat.prec).
  - destruct (_ =? 0); [reflexivity|]. destruct (_ <? _); reflexivity.
  - destruct (_ =? 0); [reflexivity|]. destruct (_ <? _); reflexivity.
Qed.

Lemma of_decimal_sign m e :
  PyFloat.of_decimal true m e = SFopp (PyFloat.of_decimal false m e).
Proof.
  unfold PyFloat.of_decimal. destruct (m =? 0); [reflexivity|].
  destruct (0 <=? e); apply round_sign.
Qed.

(** A minus sign before a text that starts with a digit negates the value
    read. *)
Lemma of_string_minus c s x :
  Py.is_digit c = true ->
  all_chars (fun c => negb (Py.is_space c)) (String c s) = true ->
  PyFloat.of_string (String c s) = Ok x ->
  PyFloat.of_string (String "-" (String c s)) = Ok (SFopp x).
Proof.
  intros Hc Hs. unfold PyFloat.of_string.
  rewrite (strip_id (String c s)) by assumption.
  rewrite (strip_id (String "-" (String c s)))
    by (cbn [all_chars] in *; now rewrite Hs).
  rewrite sign_of_digit by assumption.
  cbn [Py.sign_of]. change ("-" =? "-")%char with true. cbv iota.
  cbn [PyFloat.lowercase]. rewrite lower_digit by assumption.
  cbn [String.eqb].
  rewrite !(digit_neq c) by (assumption || reflexivity).
  cbn [andb orb].
  destruct (PyFloat.number (String c s)) as [[m e]|]; [|discriminate].
  intros [= <-]. now rewrite of_decimal_sign.
Qed.

Lemma repr_pos_first_digit m e :
  canonical (Zpos m) e ->
  exists c s, PyFloat.repr_pos (Zpos m) e = String c s /\ Py.is_digit c = true.
Proof.
  intros Hc. unfold PyFloat.repr_pos.
  destruct (PyFloat.ratio_of (Zpos m) e) as [n d] eqn:E.
  destruct (PyFloat.shortest_from 16 (Zpos m) e n d (PyFloat.floor_log10 n d) 1)
    as [C p] eqn:S.
  destruct (shortest_from_reads (Zpos m) e n d 16 1 C p eq_refl Hc E S) as [HC HR].
  destruct (str_int_nonneg C ltac:(lia)) as (Hne & Hall & Hval).
  set (ds := Py.str_int C) in *.
  destruct (rstrip_zeros_spec ds) as [z Ez].
  set (ds' := PyFloat.rstrip_zeros ds) in *.
  assert (Hall' : all_chars Py.is_digit ds' = true).
  { rewrite Ez, all_chars_app in Hall. now apply andb_prop in Hall as [? _]. }
  assert (Hval' : C = Py.digits_val 0 ds' * 10 ^ Z.of_nat z).
  { rewrite <- Hval, Ez, digits_val_app, digits_val_zeros. reflexivity. }
  assert (Hne' : ds' <> EmptyString).
  { intros E0. rewrite E0 in Hval'. cbn in Hval'. lia. }
  destruct (format_repr_spec ds'
              (PyFloat.floor_log10 n d + 1 + (Z.of_nat (String.length ds) - p)) Hne' Hall')
    as (c & s & M & E' & j & Ef & Hc0 & _).
  eauto.
Qed.

(** [float(str(d))] is [d], for every binary64 value [d], and [str(d)]
    holds no dollar sign. *)
Lemma float_repr_roundtrip (d : PyFloat.float) :
  valid_binary PyFloat.prec PyFloat.emax d = true ->
  all_chars (fun c => negb ("$" =? c)%char) (PyFloat.repr d) = true /\
  PyFloat.of_string (PyFloat.repr d) = Ok d.
Proof.
  intros Hv. destruct d as [s|s| |s m e].
  - destruct s; vm_compute; split; reflexivity.
  - destruct s; vm_compute; split; reflexivity.
  - vm_compute; split; reflexivity.
  - cbn [valid_binary] in Hv. apply bounded_canonical in Hv.
    destruct (repr_pos_reads m e Hv) as [Hpl Hr].
    destruct (repr_pos_first_digit m e Hv) as (c & r & Er & Hc).
    assert (Hd : all_chars (fun c => negb ("$" =? c)%char)
                   (PyFloat.repr_pos (Zpos m) e) = true).
    { revert Hpl. apply all_chars_impl. apply plain_not_dollar. }
    cbn [PyFloat.repr]. destruct s.
    + cbn [append all_chars]. change (negb ("$" =? "-")%char) with true. cbn [andb].
      split; [exact Hd|].
      rewrite Er in *. apply (of_string_minus c r _ Hc) in Hr; [exact Hr|].
      revert Hpl. apply all_chars_impl. apply plain_not_space.
    + cbn [append]. split; assumption.
Qed.

Lemma parse_price_repr (d : PyFloat.float) :
  valid_binary PyFloat.prec PyFloat.emax d = true ->
  parse_price ("$" ++ PyFloat.repr d) = Ok d.
Proof.
  intros Hv. destruct (float_repr_roundtrip d Hv) as [Hd Hr].
  unfold parse_price. rewrite replace_char_empty.
  cbn [append remove_char]. change ("$" =? "$")%char with true. cbv iota.
  now rewrite remove_char_absent.
Qed.

(** X6: the price step makes no check of the value: for every binary64
    value [d], the negative ones, the infinities and NaN included, the
    text "$" followed by [str(d)] is converted to [d] itself. *)
Theorem price_roundtrip_any_sign (d : PyFloat.float) :
  valid_binary PyFloat.prec PyFloat.emax d = true ->
  parse_price ("$" ++ PyFloat.repr d) = Ok d.
Proof. apply parse_price_repr. Qed.

#[warnings="-inexact-float"]
Lemma price_roundtrip_any_sign_witness :
  parse_price ("$" ++ PyFloat.repr (binary64 (-1299.99))) = Ok (binary64 (-1299.99)).
Proof. apply price_roundtrip_any_sign. reflexivity. Defined.

(** ** [float(text)] accepts the characters of its grammar only *)

Lemma float_char_lower c (d : ascii) :
  In d ["_"; "."; "+"; "-"; "e"; "i"; "n"; "f"; "t"; "y"; "a"]%char ->
  PyFloat.lower c = d -> float_char c = true.
Proof.
  intros Hin <-. unfold float_char. apply orb_true_iff. right.
  apply existsb_exists. exists (PyFloat.lower c). split; [exact Hin|apply Ascii.eqb_refl].
Qed.

Lemma float_char_eq c (d : ascii) :
  In d ["_"; "."; "+"; "-"; "e"; "E"]%char -> (c =? d)%char = true -> float_char c = true.
Proof.
  intros Hin E. apply Ascii.eqb_eq in E. subst c.
  cbn [In] in Hin. decompose [or] Hin; subst; try reflexivity; contradiction.
Qed.

Lemma float_char_digit c : Py.is_digit c = true -> float_char c = true.
Proof. intros H. unfold float_char. rewrite H. now rewrite !orb_true_r. Qed.

Lemma float_char_space c : Py.is_space c = true -> float_char c = true.
Proof. intros H. unfold float_char. rewrite H. now rewrite !orb_true_r. Qed.

Lemma float_chars_lstrip s :
  all_chars float_char (Py.lstrip s) = true -> all_chars float_char s = true.
Proof.
  induction s as [|c s IH]; [reflexivity|]. cbn [Py.lstrip].
  destruct (Py.is_blank c) eqn:Hsp; [|exact (fun H => H)].
  intros H. cbn [all_chars].
  now rewrite float_char_space, IH by auto using blank_is_space.
Qed.

Lemma float_chars_rstrip s :
  all_chars float_char (Py.rstrip s) = true -> all_chars float_char s = true.
Proof.
  induction s as [|c s IH]; [reflexivity|]. cbn [Py.rstrip].
  destruct (Py.rstrip s) as [|d r] eqn:R.
  - destruct (Py.is_blank c) eqn:Hsp.
    + intros _. cbn [all_chars].
      now rewrite float_char_space, IH by auto using blank_is_space.
    + cbn [all_chars]. intros H. apply andb_prop in H as [H _]. now rewrite H, IH.
  - cbn [all_chars] in *. intros H. apply andb_prop in H as [H1 H2].
    now rewrite H1, IH.
Qed.

Lemma float_chars_sign_of s :
  all_chars float_char (snd (Py.sign_of s)) = true -> all_chars float_char s = true.
Proof.
  destruct s as [|c s]; [reflexivity|]. unfold Py.sign_of.
  destruct (c =? "-")%char eqn:E1.
  { cbn [snd all_chars]. intros ->.
    rewrite (float_char_eq c "-"); [reflexivity| cbn; tauto | assumption]. }
  destruct (c =? "+")%char eqn:E2; [|exact (fun H => H)].
  cbn [snd all_chars]. intros ->.
  rewrite (float_char_eq c "+"); [reflexivity| cbn; tauto | assumption].
Qed.

Lemma float_chars_word body (w : string) :
  all_chars (fun d => existsb (Ascii.eqb d)
                        ["_"; "."; "+"; "-"; "e"; "i"; "n"; "f"; "t"; "y"; "a"]%char) w
  = true ->
  PyFloat.lowercase body = w -> all_chars float_char body = true.
Proof.
  revert w. induction body as [|c body IH]; intros w Hw E; [reflexivity|].
  cbn [PyFloat.lowercase] in E. destruct w as [|d w]; [discriminate|].
  injection E as Ec Eb. cbn [all_chars] in *. apply andb_prop in Hw as [Hd Hw].
  rewrite (IH w Hw Eb), andb_true_r.
  apply existsb_exists in Hd as (x & Hx & Ex). apply Ascii.eqb_eq in Ex. subst x.
  now apply (float_char_lower c d).
Qed.

(** What a digit group leaves unread decides. *)
Lemma float_chars_digits_tail n : forall s,
  (String.length s <= n)%nat ->
  all_chars float_char (snd (Py.digits_tail s)) = true -> all_chars float_char s = true.
Proof.
  induction n as [|n IH]; intros s Hlen.
  - destruct s; [reflexivity|simpl in Hlen; lia].
  - destruct s as [|c s]; [reflexivity|].
    cbn [Py.digits_tail]. simpl in Hlen.
    destruct (Py.is_digit c) eqn:Hc.
    + specialize (IH s ltac:(lia)).
      destruct (Py.digits_tail s) as [ds' r']. cbn [snd all_chars] in *.
      intros H. now rewrite float_char_digit, IH.
    + destruct (c =? "_")%char eqn:Hu; [|exact (fun H => H)].
      destruct s as [|d s]; [exact (fun H => H)|].
      destruct (Py.is_digit d) eqn:Hd; [|exact (fun H => H)].
      simpl in Hlen. specialize (IH s ltac:(lia)).
      destruct (Py.digits_tail s) as [ds' r']. cbn [snd all_chars] in *.
      intros H. rewrite (float_char_eq c "_"), (float_char_digit d), IH;
        [reflexivity|assumption|assumption|cbn; tauto|assumption].
Qed.

Lemma float_chars_digitpart s ds r :
  Py.digitpart s = Some (ds, r) ->
  all_chars float_char r = true -> all_chars float_char s = true.
Proof.
  destruct s as [|c s]; [discriminate|]. unfold Py.digitpart.
  destruct (Py.is_digit c) eqn:Hc; [|discriminate].
  pose proof (float_chars_digits_tail _ s (le_n _)) as H.
  destruct (Py.digits_tail s) as [ds' r']. intros [= _ <-]. cbn [snd] in H.
  intros Hr. cbn [all_chars]. now rewrite float_char_digit, H.
Qed.

Lemma number_float_chars s m e :
  PyFloat.number s = Some (m, e) -> all_chars float_char s = true.
Proof.
  unfold PyFloat.number.
  destruct (match Py.digitpart s with Some p => p | None => (EmptyString, s) end)
    as [ip r1] eqn:E1.
  assert (H1 : all_chars float_char r1 = true -> all_chars float_char s = true).
  { destruct (Py.digitpart s) as [[ds r]|] eqn:D; injection E1 as <- <-;
      [|exact (fun H => H)].
    now apply (float_chars_digitpart _ _ _ D). }
  clear E1.
  destruct (match r1 with
            | String c r =>
                if (c =? ".")%char then
                  match Py.digitpart r with Some p => p | None => (EmptyString, r) end
                else (EmptyString, r1)
            | EmptyString => (EmptyString, r1)
            end) as [fp r2] eqn:E2.
  assert (H2 : all_chars float_char r2 = true -> all_chars float_char s = true).
  { intros Hr. apply H1. destruct r1 as [|c r]; [reflexivity|].
    destruct (c =? ".")%char eqn:Hdot; [|now injection E2 as <- <-].
    cbn [all_chars]. rewrite (float_char_eq c "."); [|cbn; tauto|assumption].
    destruct (Py.digitpart r) as [[ds r']|] eqn:D; injection E2 as <- <-; [|assumption].
    now apply (float_chars_digitpart _ _ _ D). }
  clear E2 H1.
  destruct (ip ++ fp)%string; [discriminate|].
  destruct r2 as [|c r]; [intros _; now apply H2|].
  destruct ((c =? "e") || (c =? "E"))%char eqn:He; [|discriminate].
  pose proof (float_chars_sign_of r) as Hsg.
  destruct (Py.sign_of r) as [eneg r']. cbn [snd] in Hsg.
  destruct (Py.digitpart r') as [[es r'']|] eqn:D; [|discriminate].
  destruct r''; [|discriminate]. intros _.
  apply H2. cbn [all_chars].
  rewrite Hsg by now apply (float_chars_digitpart _ _ _ D).
  apply orb_prop in He as [He|He];
    [rewrite (float_char_eq c "e")|rewrite (float_char_eq c "E")];
    (reflexivity || assumption || (cbn; tauto)).
Qed.

(** A text that [float] accepts is made of the characters of its grammar. *)
Lemma of_string_float_chars s x :
  PyFloat.of_string s = Ok x -> all_chars float_char s = true.
Proof.
  unfold PyFloat.of_string.
  pose proof (float_chars_sign_of (Py.strip s)) as Hsg.
  destruct (Py.sign_of (Py.strip s)) as [neg body]. cbn [snd] in Hsg.
  assert (G : all_chars float_char body = true -> all_chars float_char s = true).
  { intros H. apply float_chars_lstrip, float_chars_rstrip. now apply Hsg. }
  destruct (String.eqb_spec (PyFloat.lowercase body) "inf") as [E|_].
  { intros _. apply G. now apply (float_chars_word body "inf"). }
  destruct (String.eqb_spec (PyFloat.lowercase body) "infinity") as [E|_].
  { intros _. apply G. now apply (float_chars_word body "infinity"). }
  cbn [orb].
  destruct (String.eqb_spec (PyFloat.lowercase body) "nan") as [E|_].
  { intros _. apply G. now apply (float_chars_word body "nan"). }
  destruct (PyFloat.number body) as [[m e]|] eqn:N; [|discriminate].
  intros _. apply G. now apply (number_float_chars body m e).
Qed.

Lemma float_chars_remove_dollar s :
  all_chars float_char (remove_char "$" s) = true ->
  all_chars (fun c => ("$" =? c)%char || float_char c) s = true.
Proof.
  induction s as [|c s IH]; [reflexivity|]. cbn [remove_char all_chars].
  destruct ("$" =? c)%char eqn:E; [exact IH|].
  cbn [all_chars orb]. intros H. apply andb_prop in H as [H1 H2]. now rewrite H1, IH.
Qed.

(** X7: the dollar sign is the only symbol the price step knows: a price
    text that holds an ASCII character other than "$", a blank, a digit,
    "_", ".", "+", "-" or a letter of "e", "inf", "infinity", "nan" (another
    currency code, a comma, a slash, ...) is refused with ValueError. *)
Theorem price_of_foreign_text_refused (price_text : string) :
  all_chars (fun c => ("$" =? c)%char || float_char c) price_text = false ->
  parse_price price_text = Raise ValueError.
Proof.
  intros H. unfold parse_price. rewrite replace_char_empty.
  destruct (PyFloat.of_string (remove_char "$" price_text)) as [x|e] eqn:E.
  - apply of_string_float_chars, float_chars_remove_dollar in E. congruence.
  - now rewrite (of_string_raises _ _ E).
Qed.

Lemma price_of_foreign_text_refused_witness :
  parse_price "USD 295.99" = Raise ValueError.
Proof. apply price_of_foreign_text_refused. reflexivity. Defined.

Lemma remove_char_blank s :
  all_chars (fun c => ("$" =? c)%char || Py.is_space c) s = true ->
  all_chars Py.is_space (remove_char "$" s) = true.
Proof.
  induction s as [|c s IH]; [reflexivity|]. cbn [all_chars remove_char].
  intros H. apply andb_prop in H as [H1 H2].
  destruct ("$" =? c)%char; [now apply IH|].
  cbn [orb] in H1. cbn [all_chars]. now rewrite H1, IH.
Qed.

Lemma all_chars_lstrip p s :
  all_chars p s = true -> all_chars p (Py.lstrip s) = true.
Proof.
  induction s as [|c s IH]; [reflexivity|]. cbn [all_chars Py.lstrip].
  intros H. destruct (Py.is_blank c); [|exact H].
  apply andb_prop in H as [_ H]. now apply IH.
Qed.

Lemma all_chars_rstrip p s :
  all_chars p s = true -> all_chars p (Py.rstrip s) = true.
Proof.
  induction s as [|c s IH]; [reflexivity|]. cbn [all_chars Py.rstrip].
  intros H. apply andb_prop in H as [Hc Hs]. specialize (IH Hs).
  destruct (Py.rstrip s) as [|d r].
  - destruct (Py.is_blank c); [reflexivity|]. cbn [all_chars]. now rewrite Hc.
  - cbn [all_chars] in *. now rewrite Hc.
Qed.

Lemma space_neq c (d : ascii) :
  Py.is_space c = true -> Py.is_space d = false -> (c =? d)%char = false.
Proof.
  intros Hc Hd. destruct (Ascii.eqb_spec c d); [congruence|reflexivity].
Qed.

Lemma space_not_digit c : Py.is_space c = true -> Py.is_digit c = false.
Proof.
  intros H. destruct (Py.is_digit c) eqn:E; [|reflexivity].
  apply digit_not_space in E. congruence.
Qed.

Lemma lower_space c : Py.is_space c = true -> PyFloat.lower c = c.
Proof.
  unfold Py.is_space, PyFloat.lower. intros H.
  replace ((65 <=? Py.code c)%N && (Py.code c <=? 90)%N) with false; [reflexivity|].
  symmetry. apply andb_false_iff. left. apply N.leb_gt.
  apply orb_prop in H as [H|H]; apply andb_prop in H as [_ H];
    apply N.leb_le in H; lia.
Qed.

(** [float] reads nothing in a text made of blanks and separators. *)
Lemma of_string_spaces t :
  all_chars Py.is_space t = true -> PyFloat.of_string t = Raise ValueError.
Proof.
  intros H. unfold PyFloat.of_string, Py.strip.
  apply all_chars_lstrip, all_chars_rstrip in H.
  destruct (Py.rstrip (Py.lstrip t)) as [|c r]; [reflexivity|].
  cbn [all_chars] in H. apply andb_prop in H as [Hc _].
  unfold Py.sign_of. rewrite !(space_neq c) by (assumption || reflexivity).
  cbn [PyFloat.lowercase]. rewrite (lower_space c Hc).
  cbn [String.eqb]. rewrite !(space_neq c) by (assumption || reflexivity).
  cbn [andb orb].
  unfold PyFloat.number, Py.digitpart. rewrite (space_not_digit c Hc).
  rewrite (space_neq c ".") by (assumption || reflexivity).
  reflexivity.
Qed.

(** X8: a price text with nothing in it but dollar signs and blanks (the
    empty text, "$", "$ ") is refused with ValueError: nothing is left for
    [float] to read. *)
Theorem price_of_blank_text_refused (price_text : string) :
  all_chars (fun c => ("$" =? c)%char || Py.is_space c) price_text = true ->
  parse_price price_text = Raise ValueError.
Proof.
  intros H. unfold parse_price. rewrite replace_char_empty.
  now apply of_string_spaces, remove_char_blank.
Qed.

Lemma price_of_blank_text_refused_witness :
  parse_price "$ " = Raise ValueError.
Proof. apply price_of_blank_text_refused. reflexivity. Defined.

(** ** Blanks around the price *)

Lemma lstrip_blank s :
  all_chars Py.is_blank s = true -> Py.lstrip s = EmptyString.
Proof.
  induction s as [|c s IH]; [reflexivity|]. cbn [all_chars Py.lstrip].
  intros H. apply andb_prop in H as [-> H]. now apply IH.
Qed.

Lemma lstrip_blank_app ws s :
  all_chars Py.is_blank ws = true -> Py.lstrip (ws ++ s) = Py.lstrip s.
Proof.
  induction ws as [|c ws IH]; [reflexivity|]. cbn [all_chars append Py.lstrip].
  intros H. apply andb_prop in H as [-> H]. now apply IH.
Qed.

Lemma rstrip_blank ws :
  all_chars Py.is_blank ws = true -> Py.rstrip ws = EmptyString.
Proof.
  induction ws as [|c ws IH]; [reflexivity|]. cbn [all_chars Py.rstrip].
  intros H. apply andb_prop in H as [-> H]. now rewrite IH.
Qed.

Lemma rstrip_blank_app s ws :
  all_chars Py.is_blank ws = true -> Py.rstrip (s ++ ws) = Py.rstrip s.
Proof.
  intros H. induction s as [|c s IH]; [now apply rstrip_blank|].
  cbn [append Py.rstrip]. now rewrite IH.
Qed.

Lemma lstrip_app_blank s ws :
  all_chars Py.is_blank ws = true ->
  Py.rstrip (Py.lstrip (s ++ ws)) = Py.rstrip (Py.lstrip s).
Proof.
  intros H. induction s as [|c s IH].
  - cbn [append]. now rewrite (lstrip_blank ws H).
  - cbn [append Py.lstrip]. destruct (Py.is_blank c); [exact IH|].
    change (String c (s ++ ws)) with (String c s ++ ws)%string.
    now apply rstrip_blank_app.
Qed.

Lemma strip_blanks ws1 s ws2 :
  all_chars Py.is_blank ws1 = true -> all_chars Py.is_blank ws2 = true ->
  Py.strip (ws1 ++ s ++ ws2) = Py.strip s.
Proof.
  intros H1 H2. unfold Py.strip. rewrite (lstrip_blank_app ws1 _ H1).
  now apply lstrip_app_blank.
Qed.

Lemma remove_dollar_blank ws :
  all_chars Py.is_blank ws = true -> remove_char "$" ws = ws.
Proof.
  intros H. apply remove_char_absent. revert H. apply all_chars_impl.
  intros c Hc. apply negb_true_iff.
  destruct (Ascii.eqb_spec "$" c) as [<-|]; [discriminate|reflexivity].
Qed.

(** X9: the blanks [float] skips (space, TAB, LF, VT, FF, CR) do not
    matter before and after the price text: the price step gives the same
    result, value or ValueError, with and without them (whereas one space
    before the ratings text is fatal). *)
Theorem price_ignores_blanks (before price_text after : string) :
  all_chars Py.is_blank before = true -> all_chars Py.is_blank after = true ->
  parse_price (before ++ price_text ++ after) = parse_price price_text.
Proof.
  intros H1 H2. unfold parse_price. rewrite !replace_char_empty, !remove_char_app.
  rewrite (remove_dollar_blank _ H1), (remove_dollar_blank _ H2).
  unfold PyFloat.of_string. now rewrite strip_blanks.
Qed.

Lemma price_ignores_blanks_witness :
  parse_price (" " ++ "$295.99" ++ "  ") = parse_price "$295.99".
Proof. apply price_ignores_blanks; reflexivity. Defined.

(** ** A card read whole *)

(** X10: the steps of [get_product] fit together: on a card where the
    four lookups find their elements, the price element shows "$" followed
    by [str(d)] and the ratings element shows [str(n)] (for [n] of at most
    4300 digits, the integers [str] prints), a space and any words, the
    record returned holds the title attribute of the title
    element, the text of the description element, the very float [d], the
    number of star icons below the card, and the very integer [n]. *)
Theorem get_product_reads_card
  (product_card title_el description_el price_el ratings_el : element)
  (words : string) (d : PyFloat.float) (n : Z) :
  find_element CLASS_NAME "title" product_card = Ok title_el ->
  find_element CLASS_NAME "description" product_card = Ok description_el ->
  find_element CLASS_NAME "price" product_card = Ok price_el ->
  find_element CLASS_NAME "ratings" product_card = Ok ratings_el ->
  valid_binary PyFloat.prec PyFloat.emax d = true ->
  Z.abs n < 10 ^ Py.max_str_digits ->
  text price_el = ("$" ++ PyFloat.repr d)%string ->
  text ratings_el = (Py.str_int n ++ " " ++ words)%string ->
  get_product product_card =
  Ok (Build_Product (get_attribute title_el "title") (text description_el) d
        (Z.of_nat (List.length (find_elements CLASS_NAME "ws-icon-star" product_card)))
        n).
Proof.
  intros Ht Hd Hp Hr Hv Hn Hpt Hrt. unfold get_product.
  rewrite Ht, Hd, Hp, Hr. cbn [rbind].
  rewrite Hpt, (parse_price_repr d Hv), Hrt. cbn [rbind].
  apply Z.ltb_lt in Hn. fold (fits n) in Hn.
  destruct (parse_num_of_reviews_any n words Hn) as [-> _]. reflexivity.
Qed.

#[warnings="-inexact-float"]
Lemma get_product_reads_card_witness :
  get_product (sample_card "Asus VivoBook" "15.6 inch" "$295.99" "14 reviews" 3) =
  Ok (Build_Product
        (get_attribute
           (leaf "a" ["title"] [("href", "/product/1"); ("title", "Asus VivoBook")]
              "Asus VivoBook") "title")
        (text (leaf "p" ["description"; "card-text"] [] "15.6 inch"))
        (binary64 295.99)
        (Z.of_nat
           (List.length
              (find_elements CLASS_NAME "ws-icon-star"
                 (sample_card "Asus VivoBook" "15.6 inch" "$295.99" "14 reviews" 3))))
        14).
Proof.
  eapply get_product_reads_card with (words := "reviews"); reflexivity.
Defined.

(** * More on the pagination loop and the harvester *)

Lemma map_result_length {A B} (f : A -> result B) xs : forall ys,
  map_result f xs = Ok ys -> List.length ys = List.length xs.
Proof.
  induction xs as [|x xs IH]; intros ys; cbn [map_result].
  - now intros [= <-].
  - destruct (f x) as [y|e]; cbn [rbind]; [|discriminate].
    destruct (map_result f xs) as [ys'|e]; cbn [rbind]; [|discriminate].
    intros [= <-]. cbn [List.length]. now rewrite (IH ys').
Qed.

(** The comprehension raises what its first failing element raises. *)
Lemma map_result_raises {A B} (f : A -> result B) xs : forall e,
  map_result f xs = Raise e ->
  exists good ys bad rest,
    xs = (good ++ bad :: rest)%list /\ map_result f good = Ok ys /\ f bad = Raise e.
Proof.
  induction xs as [|x xs IH]; intros e; cbn [map_result]; [discriminate|].
  destruct (f x) as [y|e1] eqn:Ex; cbn [rbind].
  - destruct (map_result f xs) as [ys'|e2]; cbn [rbind]; [discriminate|].
    intros [= <-]. destruct (IH e2 eq_refl) as (good & ys & bad & rest & -> & Hg & Hb).
    exists (x :: good), (y :: ys), bad, rest. repeat split; [|exact Hb].
    cbn [map_result]. now rewrite Ex, Hg.
  - intros [= <-]. exists [], [], x, xs. now repeat split.
Qed.

Section MorePagination.

Variable World : Type.
Variable document : World -> element.
Variable load : string -> World -> World.
Variable click : element -> World -> World.
Variable script_click : element -> World -> World.

#[local] Abbreviation state := (state World).
#[local] Abbreviation paginate := (execute_more_pagination_script World document script_click).
#[local] Abbreviation harvest := (parse_product_card World document script_click).

(** What holds where a run of the loop ends, and what the run did. *)
Lemma paginated_end max_products (s s' : state) :
  paginated document script_click max_products s s' ->
  (max_products <= card_count document (browser s') \/
   more_button document (browser s') = Raise NoSuchElementException) /\
  files s' = files s /\
  exists clicks,
    log s' = (log s ++ clicks)%list /\
    Forall (fun a => exists b, a = ScriptClick b /\
                       matches CLASS_NAME "ecomerce-items-scroll-more" b = true) clicks.
Proof.
  induction 1 as [s Hge | s Hlt Hb | s b s' Hlt Hb _ (He & Hf & clicks & Hl & Hc)].
  - split; [now left|]. split; [reflexivity|]. exists []. now rewrite app_nil_r.
  - split; [now right|]. split; [reflexivity|]. exists []. now rewrite app_nil_r.
  - split; [exact He|]. split; [exact Hf|]. exists (ScriptClick b :: clicks).
    cbn [after_click log] in Hl. rewrite Hl, <- app_assoc. split; [reflexivity|].
    constructor; [|exact Hc]. exists b. split; [reflexivity|].
    now apply find_element_matches in Hb.
Qed.

(** X11: when the loop returns, the target is met or the control cannot
    be located in the state it leaves; the files are as they were, and
    all the loop has added to the log are script clicks on elements of
    class "ecomerce-items-scroll-more": it loads no page, clicks no link
    and opens no file. *)
Theorem pagination_end_state (fuel : nat) (max_products : Z) (s s' : state) :
  paginate fuel max_products s = Returned tt s' ->
  (max_products <= card_count document (browser s') \/
   more_button document (browser s') = Raise NoSuchElementException) /\
  files s' = files s /\
  exists clicks,
    log s' = (log s ++ clicks)%list /\
    Forall (fun a => exists b, a = ScriptClick b /\
                       matches CLASS_NAME "ecomerce-items-scroll-more" b = true) clicks.
Proof. intros H. now apply paginate_returned, paginated_end in H. Qed.

(** With a control that adds a card at least each time it is activated, the
    loop ends within as many turns as cards are missing. *)
Lemma paginate_progress (n : nat) : forall (max_products : Z) (s : state),
  (forall w b, reachable document script_click (browser s) w ->
     card_count document w < max_products ->
     more_button document w = Ok b ->
     card_count document w < card_count document (script_click b w)) ->
  max_products - card_count document (browser s) <= Z.of_nat n ->
  exists s' clicks,
    (forall fuel, (n < fuel)%nat -> paginate fuel max_products s = Returned tt s') /\
    log s' = (log s ++ clicks)%list /\ (List.length clicks <= n)%nat.
Proof.
  induction n as [|n IH]; intros max_products s Hp Hn.
  - exists s, []. split; [|split; [now rewrite app_nil_r|cbn; lia]].
    intros [|fuel] Hf; [lia|]. rewrite paginate_step.
    destruct (Z.ltb_spec (card_count document (browser s)) max_products); [lia|reflexivity].
  - destruct (Z.ltb_spec (card_count document (browser s)) max_products) as [Hlt|Hge].
    + destruct (more_button document (browser s)) as [b|e] eqn:Hb.
      * destruct (IH max_products (after_click script_click b s))
          as (s' & clicks & Hr & Hl & Hc).
        { intros w b' Hw. apply Hp. clear -Hw Hb. cbn [after_click browser] in Hw.
          induction Hw as [|w b'' Hw IHw Hb''].
          - now apply reachable_click with (1 := reachable_start _).
          - now apply reachable_click. }
        { cbn [after_click browser].
          pose proof (Hp _ b (reachable_start _) Hlt Hb). lia. }
        exists s', (ScriptClick b :: clicks). split; [|split].
        -- intros [|fuel] Hf; [lia|]. rewrite paginate_step, Hb.
           destruct (Z.ltb_spec (card_count document (browser s)) max_products); [|lia].
           apply Hr. lia.
        -- cbn [after_click log] in Hl. now rewrite Hl, <- app_assoc.
        -- cbn [List.length]. lia.
      * exists s, []. split; [|split; [now rewrite app_nil_r|cbn; lia]].
        intros [|fuel] Hf; [lia|]. rewrite paginate_step, Hb.
        destruct (Z.ltb_spec (card_count document (browser s)) max_products); reflexivity.
    + exists s, []. split; [|split; [now rewrite app_nil_r|cbn; lia]].
      intros [|fuel] Hf; [lia|]. rewrite paginate_step.
      destruct (Z.ltb_spec (card_count document (browser s)) max_products); [lia|reflexivity].
Qed.

(** X12: if every activation of the control made below the target adds
    at least one card, the loop terminates: it returns after at most as
    many script clicks as cards were missing at the start, in a state where
    the target is met or the control cannot be located. *)
Theorem pagination_terminates (max_products : Z) (s : state) :
  (forall w b, reachable document script_click (browser s) w ->
     card_count document w < max_products ->
     more_button document w = Ok b ->
     card_count document w < card_count document (script_click b w)) ->
  exists s' clicks,
    (forall fuel,
       (Z.to_nat (max_products - card_count document (browser s)) < fuel)%nat ->
       paginate fuel max_products s = Returned tt s') /\
    log s' = (log s ++ clicks)%list /\
    Z.of_nat (List.length clicks) <= Z.max 0 (max_products - card_count document (browser s)) /\
    (max_products <= card_count document (browser s') \/
     more_button document (browser s') = Raise NoSuchElementException).
Proof.
  intros Hp.
  destruct (paginate_progress (Z.to_nat (max_products - card_count document (browser s)))
              max_products s Hp ltac:(lia)) as (s' & clicks & Hr & Hl & Hc).
  exists s', clicks. split; [exact Hr|]. split; [exact Hl|]. split; [lia|].
  specialize (Hr _ (Nat.lt_succ_diag_r _)).
  now apply paginate_returned, paginated_end in Hr.
Qed.

(** X13: a target that is zero or negative costs no click: the condition
    of the loop is false at its first test, so the loop returns with the
    state as it is, and the harvester (which enters the loop for a negative
    target, a truthy value) reads the cards that are already rendered. *)
Theorem nonpositive_target_no_click (fuel : nat) (max_products : Z) (s : state) :
  max_products <= 0 ->
  paginate (S fuel) max_products s = Returned tt s /\
  harvest (S fuel) max_products s =
  lift World (map_result get_product (thumbnails document (browser s))) s.
Proof.
  intros H.
  assert (C : max_products <= card_count document (browser s))
    by (unfold card_count; lia).
  split; [|now apply harvest_enough].
  rewrite paginate_step.
  destruct (Z.ltb_spec (card_count document (browser s)) max_products); [lia|reflexivity].
Qed.

(** The harvester, unfolded around the loop. *)
Lemma harvest_after fuel max_products (s s1 : state) :
  (if truthy max_products then paginate fuel max_products else ret World tt) s
  = Returned tt s1 ->
  harvest fuel max_products s =
  lift World (map_result get_product (thumbnails document (browser s1))) s1.
Proof. intros H. unfold parse_product_card. unfold bind at 1. now rewrite H. Qed.

Lemma harvest_cases fuel max_products (s : state) :
  harvest fuel max_products s = OutOfFuel \/
  exists s1,
    harvest fuel max_products s =
    lift World (map_result get_product (thumbnails document (browser s1))) s1 /\
    (max_products <= card_count document (browser s1) \/
     more_button document (browser s1) = Raise NoSuchElementException) /\
    files s1 = files s.
Proof.
  destruct (truthy max_products) eqn:T.
  - destruct (paginate fuel max_products s) as [[] s1|e s1|] eqn:E.
    + right. exists s1. split.
      * apply harvest_after. now rewrite T.
      * apply paginate_returned, paginated_end in E. tauto.
    + now apply paginate_never_raises in E.
    + left. unfold parse_product_card. unfold bind at 1. now rewrite T, E.
  - right. exists s. split; [apply harvest_after; now rewrite T|].
    split; [|reflexivity]. left.
    unfold truthy in T. apply negb_false_iff, Z.eqb_eq in T. subst.
    unfold card_count. lia.
Qed.

(** What the harvester returns and what it raises. *)
Lemma harvest_outcome fuel max_products (s : state) :
  match harvest fuel max_products s with
  | Returned products s' =>
      map_result get_product (thumbnails document (browser s')) = Ok products /\
      Z.of_nat (List.length products) = card_count document (browser s') /\
      (max_products <= Z.of_nat (List.length products) \/
       more_button document (browser s') = Raise NoSuchElementException) /\
      files s' = files s
  | Raised e s' =>
      (e = NoSuchElementException \/ e = ValueError) /\
      files s' = files s /\
      exists good records bad rest,
        thumbnails document (browser s') = (good ++ bad :: rest)%list /\
        map_result get_product good = Ok records /\
        get_product bad = Raise e
  | OutOfFuel => True
  end.
Proof.
  destruct (harvest_cases fuel max_products s) as [->|(s1 & -> & Hend & Hf)];
    [exact I|].
  unfold lift.
  destruct (map_result get_product (thumbnails document (browser s1))) as [ps|e] eqn:Em.
  - pose proof (map_result_length _ _ _ Em) as Hlen.
    split; [exact Em|]. split; [unfold card_count; now rewrite Hlen|].
    split; [|exact Hf]. unfold card_count in Hend. rewrite Hlen. exact Hend.
  - destruct (map_result_raises _ _ _ Em) as (good & ys & bad & rest & Ht & Hg & Hb).
    split; [now apply get_product_exn with (product_card := bad)|].
    split; [exact Hf|]. now exists good, ys, bad, rest.
Qed.

(** X14: what the harvester returns is the records of all the cards
    rendered when the loop has ended, one per card in page order, for every
    target: as many records as cards, never cut down to the target; there
    are at least [max_products] of them unless the control could no longer
    be located; the files are as they were. *)
Theorem harvest_returns_rendered (fuel : nat) (max_products : Z) (s s' : state)
  (products : list Product) :
  harvest fuel max_products s = Returned products s' ->
  map_result get_product (thumbnails document (browser s')) = Ok products /\
  Z.of_nat (List.length products) = card_count document (browser s') /\
  (max_products <= Z.of_nat (List.length products) \/
   more_button document (browser s') = Raise NoSuchElementException) /\
  files s' = files s.
Proof.
  intros H. pose proof (harvest_outcome fuel max_products s) as O.
  now rewrite H in O.
Qed.

(** X15: one card that cannot be read fails the whole harvest: when the
    harvester raises, the exception is the one [get_product] raises on the
    first rendered card, in page order, that it cannot read
    (NoSuchElementException or ValueError); the cards before it were read,
    and their records are lost with the call; the files are as they
    were. *)
Theorem harvest_raises_first_failure (fuel : nat) (max_products : Z) (s s' : state)
  (e : exn) :
  harvest fuel max_products s = Raised e s' ->
  (e = NoSuchElementException \/ e = ValueError) /\
  files s' = files s /\
  exists good records bad rest,
    thumbnails document (browser s') = (good ++ bad :: rest)%list /\
    map_result get_product good = Ok records /\
    get_product bad = Raise e.
Proof.
  intros H. pose proof (harvest_outcome fuel max_products s) as O.
  now rewrite H in O.
Qed.

(** X16: the loop and the harvester are idempotent: run again on the
    state they return in, with the same target, they make no further click
    and leave that state as it is, and the harvester returns the same
    records. *)
Theorem harvest_again_same (fuel fuel' : nat) (max_products : Z) (s s' : state)
  (products : list Product) :
  harvest fuel max_products s = Returned products s' ->
  paginate (S fuel') max_products s' = Returned tt s' /\
  harvest (S fuel') max_products s' = Returned products s'.
Proof.
  intros H. pose proof (harvest_outcome fuel max_products s) as O.
  rewrite H in O. destruct O as (Em & Hlen & Hend & _).
  assert (P : paginate (S fuel') max_products s' = Returned tt s').
  { rewrite paginate_step.
    destruct (Z.ltb_spec (card_count document (browser s')) max_products);
      [|reflexivity].
    destruct Hend as [Hge|Hb]; [lia|]. now rewrite Hb. }
  split; [exact P|].
  rewrite (harvest_after (S fuel') max_products s' s').
  - now rewrite Em.
  - destruct (truthy max_products); [exact P|reflexivity].
Qed.

End MorePagination.

(** * More on the writer *)

Lemma read_file_remove_other name other fs :
  other <> name -> read_file other (remove_file name fs) = read_file other fs.
Proof.
  intros Hne. induction fs as [|[k v] fs IH]; [reflexivity|].
  cbn [remove_file read_file].
  destruct (String.eqb_spec k name) as [->|Hk].
  - rewrite IH. destruct (String.eqb_spec name other); [congruence|reflexivity].
  - cbn [read_file]. now rewrite IH.
Qed.

Lemma read_product_cells p t :
  title p = Some t ->
  valid_binary PyFloat.prec PyFloat.emax (price p) = true ->
  printable p = true ->
  read_product (product_cells p) = Ok p.
Proof.
  intros Ht Hv Hp. destruct p as [ti de pr ra nu]. cbn [title price] in *. subst ti.
  unfold printable in Hp. cbn [rating num_of_reviews] in Hp.
  apply andb_prop in Hp as [Hra Hnu].
  unfold product_cells, read_product. cbn [title description price rating num_of_reviews].
  destruct (float_repr_roundtrip pr Hv) as [_ ->].
  rewrite !int_str_int_all by assumption. reflexivity.
Qed.

Lemma read_products products :
  Forall (fun p => title p <> None /\
                   valid_binary PyFloat.prec PyFloat.emax (price p) = true) products ->
  forallb printable products = true ->
  map_result read_product (map product_cells products) = Ok products.
Proof.
  induction 1 as [|p ps [Ht Hv] _ IH]; [reflexivity|].
  cbn [map map_result forallb]. intros Hp. apply andb_prop in Hp as [Hp Hps].
  destruct (title p) as [t|] eqn:E; [|congruence].
  rewrite (read_product_cells p t E Hv Hp), (IH Hps). reflexivity.
Qed.

Lemma refused_exn filename e :
  refused filename = Some e -> e = ValueError \/ e = OSError.
Proof.
  unfold refused.
  repeat match goal with |- context [if ?b then _ else _] => destruct b end;
    intros [= <-] || discriminate; auto.
Qed.

Section MoreWriter.

Variable World : Type.
#[local] Abbreviation state := (state World).



End MoreWriter.

(** * More on the orchestrator *)

Section MoreOrchestrator.

Variable World : Type.
Variable document : World -> element.
Variable load : string -> World -> World.
Variable click : element -> World -> World.
Variable script_click : element -> World -> World.

#[local] Abbreviation state := (state World).
#[local] Abbreviation M := (M World).
#[local] Abbreviation harvest := (parse_product_card World document script_click).
#[local] Abbreviation navigate := (click_link World document click).
#[local] Abbreviation run := (get_all_products World document load click script_click).

Lemma navigate_files name (s : state) :
  match navigate name s with
  | Returned _ s' => files s' = files s
  | Raised e s' => e = NoSuchElementException /\ s' = s
  | OutOfFuel => False
  end.
Proof.
  unfold click_link, bind, driver_find_element, lift.
  destruct (find_element LINK_TEXT name (document (browser s))) as [el|e] eqn:E.
  - reflexivity.
  - split; [now apply find_element_raises in E|reflexivity].
Qed.

Lemma harvest_files fuel max_products (s : state) :
  match harvest fuel max_products s with
  | Returned _ s' => files s' = files s
  | Raised e s' => (e = NoSuchElementException \/ e = ValueError) /\ files s' = files s
  | OutOfFuel => True
  end.
Proof.
  pose proof (harvest_outcome World document script_click fuel max_products s) as O.
  destruct (harvest fuel max_products s) as [ps s'|e s'|]; tauto.
Qed.

(** One category: its file is written once its cards are harvested, and
    not at all when the click or the harvest raises. *)
Lemma process_category_files fuel c (s : state) :
  refused (snd c) = None ->
  match process_category document click script_click fuel c s with
  | Returned _ s' =>
      holds_records (snd c) s' /\
      forall other, other <> snd c -> read_file other (files s') = read_file other (files s)
  | Raised e s' =>
      (e = NoSuchElementException \/ e = ValueError) /\ files s' = files s
  | OutOfFuel => True
  end.
Proof.
  destruct c as [[nav target_count] filename]. unfold process_category. cbn [snd].
  intros Hname.
  assert (W : forall s0 s1 : state, files s1 = files s0 ->
            match bind World (harvest fuel target_count)
                    (fun products => write_to_csv World products filename) s1 with
            | Returned _ s' =>
                holds_records filename s' /\
                forall other, other <> filename ->
                  read_file other (files s') = read_file other (files s0)
            | Raised e s' =>
                (e = NoSuchElementException \/ e = ValueError) /\ files s' = files s0
            | OutOfFuel => True
            end).
  { intros s0 s1 H01. unfold bind.
    pose proof (harvest_files fuel target_count s1) as H.
    destruct (harvest fuel target_count s1) as [ps s2|e s2|] eqn:EH; [| |exact I].
    - rewrite write_to_csv_returns;
        [|exact Hname
         |exact (harvest_printable World document script_click _ _ _ _ _ EH)].
      split.
      + exists ps. cbn [files read_file]. now rewrite String.eqb_refl.
      + intros other Hne. cbn [files read_file].
        destruct (String.eqb_spec filename other); [congruence|].
        rewrite read_file_remove_other by assumption. now rewrite H, H01.
    - destruct H as [He H]. split; [exact He|]. now rewrite H. }
  unfold bind at 1. destruct nav as [name|].
  - pose proof (navigate_files name s) as N.
    destruct (navigate name s) as [[] s1|e s1|]; [|destruct N as [-> ->]|contradiction].
    + now apply W.
    + split; [now left|reflexivity].
  - cbn [ret]. now apply W.
Qed.

Lemma walk_files fuel cs : forall s : state,
  Forall (fun c => refused (snd c) = None) cs ->
  match for_each World cs (process_category document click script_click fuel) s with
  | Returned _ s' =>
      (forall filename, In filename (map snd cs) -> holds_records filename s') /\
      (forall other, ~ In other (map snd cs) ->
         read_file other (files s') = read_file other (files s))
  | Raised e s' =>
      (e = NoSuchElementException \/ e = ValueError) /\
      exists done rest,
        map snd cs = (done ++ rest)%list /\ rest <> [] /\
        (forall filename, In filename done -> holds_records filename s') /\
        (forall other, ~ In other done ->
           read_file other (files s') = read_file other (files s))
  | OutOfFuel => True
  end.
Proof.
  induction cs as [|c cs IH]; intros s Hnames.
  - cbn. split; [intros ? []|reflexivity].
  - cbn [for_each map]. unfold bind at 1.
    apply Forall_cons_iff in Hnames as [Hname Hnames].
    pose proof (process_category_files fuel c s Hname) as H.
    destruct (process_category document click script_click fuel c s) as [[] s1|e s1|];
      [| |exact I].
    + destruct H as [Hc Ho]. specialize (IH s1 Hnames).
      destruct (for_each World cs (process_category document click script_click fuel) s1)
        as [[] s2|e s2|]; [| |exact I].
      * destruct IH as [Hin Hout]. split.
        -- intros filename Hf.
           destruct (in_dec string_dec filename (map snd cs)) as [Hi|Hn];
             [now apply Hin|].
           destruct Hf as [<-|Hf]; [|contradiction].
           destruct Hc as [ps Hc]. exists ps. now rewrite Hout.
        -- intros other Hn. cbn [In] in Hn.
           rewrite Hout by tauto. apply Ho. intros ->. tauto.
      * destruct IH as [He (done & rest & Hs & Hr & Hin & Hout)]. split; [exact He|].
        exists (snd c :: done), rest. split; [now rewrite Hs|]. split; [exact Hr|]. split.
        -- intros filename Hf.
           destruct (in_dec string_dec filename done) as [Hi|Hn]; [now apply Hin|].
           destruct Hf as [<-|Hf]; [|contradiction].
           destruct Hc as [ps Hc]. exists ps. now rewrite Hout.
        -- intros other Hn. cbn [In] in Hn.
           rewrite Hout by tauto. apply Ho. intros ->. tauto.
    + destruct H as [He Hf]. split; [exact He|].
      exists [], (snd c :: map snd cs). split; [reflexivity|]. split; [discriminate|].
      split; [intros ? []|]. intros other _. now rewrite Hf.
Qed.

Lemma run_files fuel (s : state) :
  match run fuel s with
  | Returned _ s' =>
      (forall filename, In filename filenames -> holds_records filename s') /\
      (forall other, ~ In other filenames ->
         read_file other (files s') = read_file other (files s))
  | Raised e s' =>
      (e = NoSuchElementException \/ e = ValueError) /\
      exists done rest,
        filenames = (done ++ rest)%list /\ rest <> [] /\
        (forall filename, In filename done -> holds_records filename s') /\
        (forall other, ~ In other done ->
           read_file other (files s') = read_file other (files s))
  | OutOfFuel => True
  end.
Proof.
  rewrite run_is_run_categories. unfold run_categories, init_driver.
  rewrite bind_ret_l. unfold bind at 1, driver_get.
  set (s1 := Build_state World (load HOME_URL (browser s)) (files s)
               (logged World (Get HOME_URL) s)).
  apply (walk_files fuel categories s1).
  unfold categories. repeat constructor.
Qed.



(** X21: nothing guards the run against a control that never helps: if,
    on the start page, the control can always be located and fewer than
    three cards are ever rendered, the run does not end, whatever the
    fuel, and so writes no file. *)
Theorem run_hangs_on_stuck_control (s : state) :
  (forall w, reachable document script_click (load HOME_URL (browser s)) w ->
     card_count document w < default_max_products /\
     exists b, more_button document w = Ok b) ->
  forall fuel, run fuel s = OutOfFuel.
Proof.
  intros H fuel. unfold get_all_products, init_driver.
  rewrite bind_ret_l. unfold bind at 1, driver_get.
  unfold bind at 1. unfold parse_product_card at 1. unfold bind at 1.
  change (truthy default_max_products) with true. cbv iota.
  rewrite paginate_diverges; [reflexivity|]. exact H.
Qed.

End MoreOrchestrator.

(** * A shop on which the run returns *)

Lemma map_result_all {A B} (f : A -> result B) xs :
  (forall x, In x xs -> exists y, f x = Ok y) -> exists ys, map_result f xs = Ok ys.
Proof.
  induction xs as [|x xs IH]; intros H; [now exists []|].
  destruct (H x (or_introl eq_refl)) as [y Hy].
  destruct IH as [ys Hys]; [intros x' Hx'; apply H; now right|].
  exists (y :: ys). cbn [map_result]. now rewrite Hy, Hys.
Qed.

Section GoodShop.

Variable World : Type.
Variable document : World -> element.
Variable load : string -> World -> World.
Variable click : element -> World -> World.
Variable script_click : element -> World -> World.

#[local] Abbreviation state := (state World).
#[local] Abbreviation paginate := (execute_more_pagination_script World document script_click).
#[local] Abbreviation harvest := (parse_product_card World document script_click).
#[local] Abbreviation navigate := (click_link World document click).
#[local] Abbreviation run := (get_all_products World document load click script_click).

(** Every page has the five links, every rendered card can be read, and
    every activation of the control adds a card. *)
Hypothesis links : forall w name,
  In name ["Computers"; "Laptops"; "Tablets"; "Phones"; "Touch"] ->
  exists el, find_element LINK_TEXT name (document w) = Ok el.
Hypothesis cards : forall w card,
  In card (thumbnails document w) -> exists p, get_product card = Ok p.
Hypothesis progress : forall w b,
  more_button document w = Ok b ->
  card_count document w < card_count document (script_click b w).

Lemma harvest_returns_good fuel max_products (s : state) :
  max_products <= 117 -> (117 < fuel)%nat ->
  exists products s', harvest fuel max_products s = Returned products s'.
Proof.
  intros Hm Hf.
  assert (P : exists s1,
            (if truthy max_products then paginate fuel max_products else ret World tt) s
            = Returned tt s1).
  { destruct (truthy max_products); [|now exists s].
    destruct (paginate_progress World document script_click
                (Z.to_nat (max_products - card_count document (browser s)))
                max_products s) as (s1 & clicks & Hr & _).
    - intros w b _ _. apply progress.
    - lia.
    - exists s1. apply Hr. unfold card_count. lia. }
  destruct P as [s1 P].
  rewrite (harvest_after World document script_click fuel max_products s s1 P).
  destruct (map_result_all get_product (thumbnails document (browser s1))) as [ps Hps].
  - intros card. apply cards.
  - exists ps, s1. now rewrite Hps.
Qed.

Lemma process_category_returns_good fuel c (s : state) :
  In c categories -> (117 < fuel)%nat ->
  exists s', process_category document click script_click fuel c s = Returned tt s'.
Proof.
  intros Hc Hf.
  assert (G : match c with
              | (nav, target_count, _) =>
                  target_count <= 117 /\
                  match nav with
                  | Some name => In name ["Computers"; "Laptops"; "Tablets"; "Phones"; "Touch"]
                  | None => True
                  end
              end).
  { unfold categories in Hc. cbn [In] in Hc.
    decompose [or] Hc; subst; try contradiction; cbn; split; (lia || tauto). }
  destruct c as [[nav target_count] filename]. destruct G as [Ht Hn].
  unfold process_category. unfold bind at 1.
  assert (N : exists s1,
            (match nav with Some name => navigate name | None => ret World tt end) s
            = Returned tt s1).
  { destruct nav as [name|]; [|now exists s].
    destruct (links (browser s) name Hn) as [el Hel].
    unfold click_link, bind, driver_find_element, lift. rewrite Hel.
    eexists. reflexivity. }
  destruct N as [s1 ->].
  destruct (harvest_returns_good fuel target_count s1 Ht Hf) as (ps & s2 & H).
  unfold bind. rewrite H. rewrite write_to_csv_returns.
  - eexists. reflexivity.
  - unfold categories in Hc. cbn [In] in Hc.
    decompose [or] Hc; try contradiction;
      match goal with E : _ = (_, _, _) |- _ => injection E as _ _ <- end;
      reflexivity.
  - exact (harvest_printable World document script_click _ _ _ _ _ H).
Qed.

Lemma walk_returns_good fuel cs : forall s : state,
  incl cs categories -> (117 < fuel)%nat ->
  exists s', for_each World cs (process_category document click script_click fuel) s
             = Returned tt s'.
Proof.
  induction cs as [|c cs IH]; intros s Hi Hf; [now exists s|].
  cbn [for_each]. unfold bind at 1.
  destruct (process_category_returns_good fuel c s (Hi c (or_introl eq_refl)) Hf)
    as [s1 ->].
  apply IH; [|exact Hf]. intros x Hx. apply Hi. now right.
Qed.

Lemma run_returns_good fuel (s : state) :
  (117 < fuel)%nat -> exists s', run fuel s = Returned tt s'.
Proof.
  intros Hf. rewrite run_is_run_categories. unfold run_categories, init_driver.
  rewrite bind_ret_l. unfold bind at 1, driver_get.
  apply walk_returns_good; [apply incl_refl|exact Hf].
Qed.

End GoodShop.


(** * Runs on the sample pages *)


Lemma pagination_end_state_witness :
  (6 <= card_count (Shop.page 9) 7%nat \/
   more_button (Shop.page 9) 7%nat = Raise NoSuchElementException) /\
  @nil (string * string) = [] /\
  exists clicks,
    [ScriptClick Shop.more; ScriptClick Shop.more; ScriptClick Shop.more]
    = ([] ++ clicks)%list /\
    Forall (fun a => exists b, a = ScriptClick b /\
                       matches CLASS_NAME "ecomerce-items-scroll-more" b = true) clicks.
Proof.
  apply (pagination_end_state nat (Shop.page 9) (Shop.activate 9) 10 6
           (Shop.start 1%nat)
           (Build_state nat 7%nat []
              [ScriptClick Shop.more; ScriptClick Shop.more; ScriptClick Shop.more])).
  vm_compute. reflexivity.
Defined.

Lemma pagination_terminates_witness :
  exists s' clicks,
    (forall fuel,
       (Z.to_nat (3 - card_count Demo.two_step false) < fuel)%nat ->
       execute_more_pagination_script bool Demo.two_step Demo.load_all fuel 3
         (Shop.start false) = Returned tt s') /\
    log s' = ([] ++ clicks)%list /\
    Z.of_nat (List.length clicks) <= Z.max 0 (3 - card_count Demo.two_step false) /\
    (3 <= card_count Demo.two_step (browser s') \/
     more_button Demo.two_step (browser s') = Raise NoSuchElementException).
Proof.
  apply (pagination_terminates bool Demo.two_step Demo.load_all 3 (Shop.start false)).
  intros [] b _ Hlt _.
  - vm_compute in Hlt. discriminate.
  - vm_compute. reflexivity.
Defined.

Lemma nonpositive_target_no_click_witness :
  execute_more_pagination_script nat (Shop.page 9) (Shop.activate 9) 1 (-1)
    (Shop.start 1%nat) = Returned tt (Shop.start 1%nat) /\
  parse_product_card nat (Shop.page 9) (Shop.activate 9) 1 (-1) (Shop.start 1%nat) =
  lift nat (map_result get_product (thumbnails (Shop.page 9) 1%nat)) (Shop.start 1%nat).
Proof.
  apply (nonpositive_target_no_click nat (Shop.page 9) (Shop.activate 9) 0 (-1)
           (Shop.start 1%nat)).
  lia.
Defined.

Lemma harvest_returns_rendered_witness :
  map_result get_product (thumbnails (Shop.page 9) 7%nat)
  = Ok (map Shop.nth_product (seq 0 7)) /\
  Z.of_nat (List.length (map Shop.nth_product (seq 0 7))) = card_count (Shop.page 9) 7%nat /\
  (6 <= Z.of_nat (List.length (map Shop.nth_product (seq 0 7))) \/
   more_button (Shop.page 9) 7%nat = Raise NoSuchElementException) /\
  @nil (string * string) = [].
Proof.
  apply (harvest_returns_rendered nat (Shop.page 9) (Shop.activate 9) 10 6
           (Shop.start 1%nat)
           (Build_state nat 7%nat []
              [ScriptClick Shop.more; ScriptClick Shop.more; ScriptClick Shop.more])).
  vm_compute. reflexivity.
Defined.

Lemma harvest_raises_first_failure_witness :
  (ValueError = NoSuchElementException \/ ValueError = ValueError) /\
  @nil (string * string) = [] /\
  exists good records bad rest,
    thumbnails Demo.broken_page tt = (good ++ bad :: rest)%list /\
    map_result get_product good = Ok records /\
    get_product bad = Raise ValueError.
Proof.
  apply (harvest_raises_first_failure unit Demo.broken_page Shop.stuck 1 3
           (Shop.start tt) (Shop.start tt) ValueError).
  vm_compute. reflexivity.
Defined.

Lemma harvest_again_same_witness :
  execute_more_pagination_script nat (Shop.page 9) (Shop.activate 9) 1 6
    (Build_state nat 7%nat []
       [ScriptClick Shop.more; ScriptClick Shop.more; ScriptClick Shop.more])
  = Returned tt
      (Build_state nat 7%nat []
         [ScriptClick Shop.more; ScriptClick Shop.more; ScriptClick Shop.more]) /\
  parse_product_card nat (Shop.page 9) (Shop.activate 9) 1 6
    (Build_state nat 7%nat []
       [ScriptClick Shop.more; ScriptClick Shop.more; ScriptClick Shop.more])
  = Returned (map Shop.nth_product (seq 0 7))
      (Build_state nat 7%nat []
         [ScriptClick Shop.more; ScriptClick Shop.more; ScriptClick Shop.more]).
Proof.
  apply (harvest_again_same nat (Shop.page 9) (Shop.activate 9) 10 0 6
           (Shop.start 1%nat)).
  vm_compute. reflexivity.
Defined.




Lemma run_hangs_on_stuck_control_witness :
  get_all_products unit Shop.stuck_page Demo.stay Demo.stay Shop.stuck 50 (Shop.start tt)
  = OutOfFuel.
Proof.
  apply (run_hangs_on_stuck_control unit Shop.stuck_page Demo.stay Demo.stay Shop.stuck
           (Shop.start tt)).
  intros [] _. split; [vm_compute; reflexivity|].
  exists Shop.more. vm_compute. reflexivity.
Defined.
